(** * StudyHub QA: the page logic of [src/js/main.js]

    A shallow embedding of the event handlers of the StudyHub QA site
    (login form, quiz form, form-state gate, sortable table, pagination,
    component set-up guards) together with the properties stated about
    them.  The source file holds two scripts: the site's script (lines
    1-1006) and a second, shorter script with its own login, student
    filter and quiz set-up (lines 1007-1167); where the two differ the
    second one is embedded under [Setup.Second].

    Conventions of the embedding.

    - A JavaScript string is a [string]: a sequence of UTF-16 code units,
      here restricted to the code units U+0000..U+00FF, one [ascii] each.
      Every literal the handlers compare against is plain ASCII; above
      U+00FF no code unit lower-cases to an ASCII letter of those literals,
      so the restriction changes no comparison made below.
    - An event handler is a function from the part of the document it reads
      to the part of the document it writes.  A handler that keeps a
      closure variable between events ([currentSort], [currentPage]) is a
      transition function on a state record holding that variable.
    - What the browser computes and the script only reads
      ([validity.valid], [checkValidity()], [parseFloat], [localeCompare])
      is an input of the handler: a field of the element read, or a
      variable of the section the handler is defined in. *)

From Stdlib Require Import Bool Arith ZArith Lia List Ascii String.
From Stdlib Require Import Permutation DecimalString.
From Stdlib Require Import PrimFloat Uint63.
Import ListNotations.

#[local] Open Scope bool_scope.
#[local] Open Scope string_scope.

(* ================================================================== *)
(** ** The JavaScript built-ins the handlers call *)

Module JS.

(** [WhiteSpace] and [LineTerminator] code units below U+0100: TAB, LF,
    VT, FF, CR, SPACE and NO-BREAK SPACE.  These are the code units
    [String.prototype.trim] removes. *)
Definition isWhiteSpace (c : ascii) : bool :=
  let n := nat_of_ascii c in
  ((n =? 9) || (n =? 10) || (n =? 11) || (n =? 12) || (n =? 13)
   || (n =? 32) || (n =? 160))%nat.

Fixpoint trimStart (s : string) : string :=
  match s with
  | EmptyString => EmptyString
  | String c s' => if isWhiteSpace c then trimStart s' else s
  end.

Fixpoint trimEnd (s : string) : string :=
  match s with
  | EmptyString => EmptyString
  | String c s' =>
      match trimEnd s' with
      | EmptyString => if isWhiteSpace c then EmptyString else String c EmptyString
      | t => String c t
      end
  end.

(** [s.trim()] *)
Definition trim (s : string) : string := trimEnd (trimStart s).

(** Lower-casing of one code unit below U+0100: A-Z, and the Latin-1
    capitals U+00C0..U+00DE except the multiplication sign U+00D7, move
    up by 32; every other code unit is kept. *)
Definition lowerChar (c : ascii) : ascii :=
  let n := nat_of_ascii c in
  if (((65 <=? n) && (n <=? 90))
      || ((192 <=? n) && (n <=? 222) && negb (n =? 215)))%nat
  then ascii_of_nat (n + 32)
  else c.

(** [s.toLowerCase()] on a string of code units below U+0100, where
    the built-in maps each code unit by itself.  Beyond that range the
    built-in also looks at the neighbours of a code unit (a capital sigma
    at the end of a word), so the properties below use lower-casing only
    through the values it returns and through its idempotence, never
    through how it distributes over concatenation. *)
Fixpoint toLowerCase (s : string) : string :=
  match s with
  | EmptyString => EmptyString
  | String c s' => String (lowerChar c) (toLowerCase s')
  end.

(** Truthiness of a string value: only the empty string is falsy. *)
Definition truthy (s : string) : bool :=
  match s with
  | EmptyString => false
  | String _ _ => true
  end.

(** [arr.includes(v)] on an array of strings. *)
Definition includes (arr : list string) (v : string) : bool :=
  existsb (String.eqb v) arr.

(** [arr.findIndex(p)]: the first index whose element satisfies [p],
    [None] standing for the result -1. *)
Fixpoint findIndex {A : Type} (p : A -> bool) (arr : list A) : option nat :=
  match arr with
  | [] => None
  | x :: arr' =>
      if p x then Some 0 else option_map S (findIndex p arr')
  end.

(** [arr.slice(start, end)]: a negative index counts from the end of the
    array, and both indices are clamped to [0 .. arr.length]. *)
Definition slice {A : Type} (arr : list A) (start stop : Z) : list A :=
  let len := Z.of_nat (List.length arr) in
  let clamp i := if (i <? 0)%Z then Z.max (len + i) 0 else Z.min i len in
  let k := clamp start in
  let final := clamp stop in
  firstn (Z.to_nat (final - k)) (skipn (Z.to_nat k) arr).

(** [arr.sort(comparefn)].  The sort is stable; [x] is placed after [y]
    when [comparefn(x, y) > 0], and a result that is NaN counts as 0.
    For a consistent comparator the outcome does not depend on the
    sorting algorithm; it is computed here by straight insertion, taking
    the elements from the right. *)
Fixpoint sortInsert {A : Type} (comparefn : A -> A -> float)
         (x : A) (sorted : list A) : list A :=
  match sorted with
  | [] => [x]
  | y :: rest =>
      if PrimFloat.ltb PrimFloat.zero (comparefn x y)
      then y :: sortInsert comparefn x rest
      else x :: sorted
  end.

Definition sort {A : Type} (comparefn : A -> A -> float) (arr : list A) : list A :=
  fold_right (sortInsert comparefn) [] arr.

(** [Math.ceil(a / b)] for integers [a >= 0], [b > 0] small enough for
    the quotient to be computed exactly. *)
Definition ceilDiv (a b : Z) : Z := (- ((- a) / b))%Z.

(** Number-to-string conversion of an integer, as string concatenation
    and template literals perform it. *)
Definition numberToString (n : Z) : string :=
  NilZero.string_of_int (Z.to_int n).

End JS.

(* ================================================================== *)
(** ** Quiz form ([setupQuizForm], the submit listener) *)

Module Quiz.

(** What the submit listener reads: the value of [#q1], the values of
    the checked [input[name='q2']] boxes in document order, and the value
    of the checked [input[name='q3']] radio button, if any
    ([querySelector] yields [null] when none is checked). *)
Record Form := {
  q1_value : string;
  q2_checked : list string;
  q3_checked : option string
}.

(** What the submit listener writes: the text and colour of
    [#quiz-result], and whether [q1Input.focus()] was called. *)
Record Result := {
  textContent : string;
  color : string;
  q1_focused : bool
}.

(** The scoring block: three independent increments of [score]. *)
Definition score (q1 : string) (q2Values : list string) (q3 : string) : Z :=
  let score := 0%Z in
  let score := if q1 =? "quality assurance" then Z.succ score else score in
  let hasUnit := JS.includes q2Values "unit" in
  let hasManual := JS.includes q2Values "manual" in
  let hasCoffee := JS.includes q2Values "coffee" in
  let score :=
    if hasUnit && hasManual && negb hasCoffee then Z.succ score else score in
  let score := if q3 =? "early" then Z.succ score else score in
  score.

Definition onSubmit (f : Form) : Result :=
  let q1 := JS.toLowerCase (JS.trim (q1_value f)) in
  let q2Checked := q2_checked f in
  let q3Checked := q3_checked f in
  if negb (JS.truthy q1) then
    {| textContent := "Please answer question 1.";
       color := "orange"; q1_focused := true |}
  else if (List.length q2Checked =? 0)%nat then
    {| textContent := "Please select at least one option for question 2.";
       color := "orange"; q1_focused := false |}
  else
    match q3Checked with
    | None =>
        {| textContent := "Please select an option for question 3.";
           color := "orange"; q1_focused := false |}
    | Some q3 =>
        let score := score q1 q2Checked q3 in
        {| textContent := "Your score: " ++ JS.numberToString score ++ " / 3";
           color := if (score =? 3)%Z then "green" else "orange";
           q1_focused := false |}
    end.

End Quiz.

(* ================================================================== *)
(** ** Login form ([setupLoginForm], the submit listener) *)

Module Login.

(** An [<input>] as the listener reads it: its [value], and the
    [validity.valid] flag the browser reports for it once the custom
    error has been cleared by [setCustomValidity("")]. *)
Record Input := {
  value : string;
  validity_valid : bool
}.

(** [#login-form] with its two validated controls, [#login-email] and
    [#login-password]. *)
Record Form := {
  emailInput : Input;
  passwordInput : Input
}.

(** [loginForm.checkValidity()]: every control of the form is valid. *)
Definition checkValidity (f : Form) : bool :=
  validity_valid (emailInput f) && validity_valid (passwordInput f).

(** What the listener writes: the custom validity message of each input
    (the empty string when none is set), whether
    [loginForm.reportValidity()] was called, and the text and colour of
    [#login-message]. *)
Record Result := {
  email_customValidity : string;
  password_customValidity : string;
  reportedValidity : bool;
  textContent : string;
  color : string
}.

Definition VALID_EMAIL : string := "tester@example.com".
Definition VALID_PASSWORD : string := "password123".

Definition onSubmit (f : Form) : Result :=
  let email := JS.trim (value (emailInput f)) in
  let password := JS.trim (value (passwordInput f)) in
  if negb (checkValidity f) then
    {| email_customValidity :=
         if negb (JS.truthy email) then "Email is required."
         else if negb (validity_valid (emailInput f))
              then "Please enter a valid email address."
              else "";
       password_customValidity :=
         if negb (JS.truthy password) then "Password is required."
         else if (String.length password <? 6)%nat
              then "Password must be at least 6 characters."
              else "";
       reportedValidity := true;
       textContent := "Please fix the highlighted errors.";
       color := "red" |}
  else if (email =? VALID_EMAIL) && (password =? VALID_PASSWORD) then
    {| email_customValidity := ""; password_customValidity := "";
       reportedValidity := false;
       textContent := "Login successful."; color := "green" |}
  else
    {| email_customValidity := ""; password_customValidity := "";
       reportedValidity := false;
       textContent := "Invalid credentials."; color := "red" |}.

End Login.

(* ================================================================== *)
(** ** Field validation performed by the browser *)

Module Browser.

(** A code unit allowed in the local part and in the domain of an
    e-mail address: anything but white space and the at sign. *)
Definition plainChar (c : ascii) : bool :=
  negb (JS.isWhiteSpace c) && negb (c =? "@")%char.

Fixpoint allPlain (s : string) : bool :=
  match s with
  | EmptyString => true
  | String c s' => plainChar c && allPlain s'
  end.

(** The text before the first at sign and the text after it. *)
Fixpoint splitAtSign (s : string) : option (string * string) :=
  match s with
  | EmptyString => None
  | String c s' =>
      if (c =? "@")%char then Some (EmptyString, s')
      else match splitAtSign s' with
           | Some (l, d) => Some (String c l, d)
           | None => None
           end
  end.

(** A dot with at least one code unit before it and one after it. *)
Fixpoint hasDotAfterFirst (s : string) : bool :=
  match s with
  | EmptyString => false
  | String c s' =>
      ((c =? ".")%char && JS.truthy s') || hasDotAfterFirst s'
  end.

Definition hasInnerDot (s : string) : bool :=
  match s with
  | EmptyString => false
  | String _ s' => hasDotAfterFirst s'
  end.

(** Modelled from the spec: the constraint validation of the e-mail
    inputs, which the pages declare in HTML ([index.html],
    [practice-2.html]) and the browser evaluates; neither is part of
    [main.js], which only reads the resulting [validity.valid].  "Email
    kind: valid iff non-empty and matches a standard email shape
    (local@domain with at least one dot in domain)": a non-empty local
    part, one at sign, and a domain with a dot inside it, none of them
    containing white space. *)
Definition emailKindValid (v : string) : bool :=
  match splitAtSign v with
  | None => false
  | Some (local, domain) =>
      JS.truthy local && allPlain local && allPlain domain
      && hasInnerDot domain
  end.

(** Modelled from the spec: the constraint validation of the password
    inputs, declared in the same HTML pages.  "Password kind: valid iff
    length >= a configured minimum (6 for login, 8 for the form-state
    scenario)". *)
Definition passwordKindValid (minimum : nat) (v : string) : bool :=
  (minimum <=? String.length v)%nat.

(** The login form as the browser presents it to the submit listener
    when the user has typed [e] and [p] into its two fields. *)
Definition loginForm (e p : string) : Login.Form :=
  {| Login.emailInput :=
       {| Login.value := e; Login.validity_valid := emailKindValid e |};
     Login.passwordInput :=
       {| Login.value := p; Login.validity_valid := passwordKindValid 6 p |} |}.

End Browser.

(* ================================================================== *)
(** ** Form-state scenario ([setupFormStateScenario]) *)

Module FormState.

(** The elements of [#state-form] the listeners read and write. *)
Record Dom := {
  email_value : string;
  email_validity_valid : bool;
  password_value : string;
  agree_checked : bool;
  submit_disabled : bool;
  emailError_textContent : string;
  emailError_display : string;
  passwordError_textContent : string;
  passwordError_display : string
}.

Definition checkFormValidity (d : Dom) : Dom :=
  let emailValid :=
    email_validity_valid d && (0 <? String.length (email_value d))%nat in
  let passwordValid := (8 <=? String.length (password_value d))%nat in
  let agreeChecked := agree_checked d in
  {| email_value := email_value d;
     email_validity_valid := email_validity_valid d;
     password_value := password_value d;
     agree_checked := agree_checked d;
     submit_disabled := negb (emailValid && passwordValid && agreeChecked);
     emailError_textContent := emailError_textContent d;
     emailError_display := emailError_display d;
     passwordError_textContent := passwordError_textContent d;
     passwordError_display := passwordError_display d |}.

(** The [input] listener of [#state-email]. *)
Definition onEmailInput (d : Dom) : Dom :=
  let shown :=
    negb (email_validity_valid d) && (0 <? String.length (email_value d))%nat in
  checkFormValidity
    {| email_value := email_value d;
       email_validity_valid := email_validity_valid d;
       password_value := password_value d;
       agree_checked := agree_checked d;
       submit_disabled := submit_disabled d;
       emailError_textContent :=
         if shown then "Please enter a valid email address."
         else emailError_textContent d;
       emailError_display := if shown then "block" else "none";
       passwordError_textContent := passwordError_textContent d;
       passwordError_display := passwordError_display d |}.

(** The [input] listener of [#state-password]. *)
Definition onPasswordInput (d : Dom) : Dom :=
  let shown :=
    (0 <? String.length (password_value d))%nat
    && (String.length (password_value d) <? 8)%nat in
  checkFormValidity
    {| email_value := email_value d;
       email_validity_valid := email_validity_valid d;
       password_value := password_value d;
       agree_checked := agree_checked d;
       submit_disabled := submit_disabled d;
       emailError_textContent := emailError_textContent d;
       emailError_display := emailError_display d;
       passwordError_textContent :=
         if shown then "Password must be at least 8 characters."
         else passwordError_textContent d;
       passwordError_display := if shown then "block" else "none" |}.

(** A user action on the form: the browser stores the new content of
    the field (for the e-mail field together with its validity), then
    dispatches the event to the listener registered for it. *)
Inductive Event :=
| InputEmail (v : string) (valid : bool)
| InputPassword (v : string)
| ChangeAgree (checked : bool).

Definition dispatch (d : Dom) (e : Event) : Dom :=
  match e with
  | InputEmail v valid =>
      onEmailInput
        {| email_value := v;
           email_validity_valid := valid;
           password_value := password_value d;
           agree_checked := agree_checked d;
           submit_disabled := submit_disabled d;
           emailError_textContent := emailError_textContent d;
           emailError_display := emailError_display d;
           passwordError_textContent := passwordError_textContent d;
           passwordError_display := passwordError_display d |}
  | InputPassword v =>
      onPasswordInput
        {| email_value := email_value d;
           email_validity_valid := email_validity_valid d;
           password_value := v;
           agree_checked := agree_checked d;
           submit_disabled := submit_disabled d;
           emailError_textContent := emailError_textContent d;
           emailError_display := emailError_display d;
           passwordError_textContent := passwordError_textContent d;
           passwordError_display := passwordError_display d |}
  | ChangeAgree checked =>
      checkFormValidity
        {| email_value := email_value d;
           email_validity_valid := email_validity_valid d;
           password_value := password_value d;
           agree_checked := checked;
           submit_disabled := submit_disabled d;
           emailError_textContent := emailError_textContent d;
           emailError_display := emailError_display d;
           passwordError_textContent := passwordError_textContent d;
           passwordError_display := passwordError_display d |}
  end.

End FormState.

(* ================================================================== *)
(** ** Sortable table ([setupSortableTableScenario]) *)

Module Sortable.

(** A body row of [#scores-table]: the text content of its [td] cells. *)
Definition Row := list string.

Inductive Direction := asc | desc.

(** The closure variable [currentSort]; [field] starts as [null]. *)
Record CurrentSort := {
  field : option string;
  direction : Direction
}.

(** The table: the [data-sort] attribute of each [th.sortable] in
    document order, the arrow shown in the [.sort-indicator] of each of
    these headers ([None] for the empty text, [Some asc] for the up
    arrow, [Some desc] for the down arrow), the body rows, and
    [currentSort]. *)
Record Table := {
  headers : list string;
  indicators : list (option Direction);
  rows : list Row;
  currentSort : CurrentSort
}.

Definition initial (hs : list string) (inds : list (option Direction))
           (rs : list Row) : Table :=
  {| headers := hs; indicators := inds; rows := rs;
     currentSort := {| field := None; direction := asc |} |}.

Section Platform.

(** The two platform functions the comparator calls. *)
Variable parseFloat : string -> float.
Variable localeCompare : string -> string -> float.

(** The comparator of [rows.sort], from the two trimmed cell texts on. *)
Definition compareCells (direction : Direction) (cellA cellB : string) : float :=
  let numA := parseFloat cellA in
  let numB := parseFloat cellB in
  let comparison :=
    if negb (PrimFloat.is_nan numA) && negb (PrimFloat.is_nan numB)
    then PrimFloat.sub numA numB
    else localeCompare cellA cellB in
  match direction with
  | asc => comparison
  | desc => PrimFloat.opp comparison
  end.

(** [row.querySelectorAll("td")[headerIndex].textContent.trim()], for a
    row that has such a cell. *)
Definition cellText (headerIndex : nat) (row : Row) : string :=
  JS.trim (nth headerIndex row "").

(** [sortTable(table, field, direction)]: the new order of the body
    rows, or [None] when the comparator raises a [TypeError] because a
    row has no cell at [headerIndex]; the comparator is called on every
    row as soon as there are two of them. *)
Definition sortTable (t : Table) (field : string) (direction : Direction)
  : option (list Row) :=
  let headerIndex := JS.findIndex (fun h => h =? field) (headers t) in
  match rows t with
  | [] => Some []
  | [r] => Some [r]
  | rs =>
      match headerIndex with
      | None => None
      | Some i =>
          if forallb (fun r => (i <? List.length r)%nat) rs
          then Some (JS.sort
                       (fun rowA rowB =>
                          compareCells direction (cellText i rowA) (cellText i rowB))
                       rs)
          else None
      end
  end.

(** The [click] listener of the [i]-th sortable header.  The sort state
    and the indicators are updated before the rows are sorted, so they
    stay updated when [sortTable] raises. *)
Definition onHeaderClick (t : Table) (i : nat) : Table :=
  match nth_error (headers t) i with
  | None => t
  | Some sortField =>
      let current := currentSort t in
      let current :=
        match field current with
        | Some f =>
            if f =? sortField
            then {| field := field current;
                    direction := match direction current with
                                 | asc => desc
                                 | desc => asc
                                 end |}
            else {| field := Some sortField; direction := asc |}
        | None => {| field := Some sortField; direction := asc |}
        end in
      {| headers := headers t;
         indicators :=
           map (fun j => if (j =? i)%nat then Some (direction current) else None)
               (seq 0 (List.length (headers t)));
         rows := match sortTable t sortField (direction current) with
                 | Some sorted => sorted
                 | None => rows t
                 end;
         currentSort := current |}
  end.

End Platform.

End Sortable.

(** Stand-ins for the two platform functions, used to run the table on
    concrete rows. *)
Module Plain.

Definition isDigit (c : ascii) : bool :=
  let n := nat_of_ascii c in ((48 <=? n) && (n <=? 57))%nat.

(** The value of the decimal digits [s] starts with, after [acc]. *)
Fixpoint leadingDigits (acc : Z) (s : string) : Z :=
  match s with
  | EmptyString => acc
  | String c s' =>
      if isDigit c
      then leadingDigits (10 * acc + Z.of_nat (nat_of_ascii c - 48))%Z s'
      else acc
  end.

(** [parseFloat] on a text that, after leading white space, either
    starts with a run of decimal digits of value below 2^53 followed by
    nothing that continues a number (the result is that value), or starts
    with a code unit that cannot begin a number (the result is NaN).
    Signs, fractions, exponents and [Infinity] are outside this
    stand-in. *)
Definition parseFloat (s : string) : float :=
  match JS.trimStart s with
  | EmptyString => PrimFloat.nan
  | String c s' =>
      if isDigit c
      then PrimFloat.of_uint63 (Uint63.of_Z (leadingDigits 0 (String c s')))
      else PrimFloat.nan
  end.

(** [a.localeCompare(b)] on texts of unaccented letters of one case,
    where the collation order is the order of the code units. *)
Definition localeCompare (a b : string) : float :=
  match String.compare a b with
  | Lt => PrimFloat.opp PrimFloat.one
  | Eq => PrimFloat.zero
  | Gt => PrimFloat.one
  end.

End Plain.

(* ================================================================== *)
(** ** Pagination ([setupPaginationScenario]) *)

Module Pagination.

Record Item := {
  id : Z;
  name : string;
  email : string;
  role : string
}.

Definition itemsPerPage : Z := 5.

Definition allData : list Item :=
  [
    {| id := 1; name := "Alice Johnson"; email := "alice@example.com"; role := "QA Engineer" |};
    {| id := 2; name := "Bob Smith"; email := "bob@example.com"; role := "Developer" |};
    {| id := 3; name := "Carol White"; email := "carol@example.com"; role := "Product Manager" |};
    {| id := 4; name := "David Lee"; email := "david@example.com"; role := "QA Engineer" |};
    {| id := 5; name := "Eve Davis"; email := "eve@example.com"; role := "DevOps" |};
    {| id := 6; name := "Frank Brown"; email := "frank@example.com"; role := "Developer" |};
    {| id := 7; name := "Grace Chen"; email := "grace@example.com"; role := "QA Engineer" |};
    {| id := 8; name := "Henry Wilson"; email := "henry@example.com"; role := "Architect" |};
    {| id := 9; name := "Iris Taylor"; email := "iris@example.com"; role := "QA Engineer" |};
    {| id := 10; name := "Jack Martin"; email := "jack@example.com"; role := "Developer" |};
    {| id := 11; name := "Kate Anderson"; email := "kate@example.com"; role := "Manager" |};
    {| id := 12; name := "Liam Garcia"; email := "liam@example.com"; role := "QA Engineer" |};
    {| id := 13; name := "Maria Rodriguez"; email := "maria@example.com"; role := "Developer" |};
    {| id := 14; name := "Nathan Moore"; email := "nathan@example.com"; role := "QA Engineer" |};
    {| id := 15; name := "Olivia Jackson"; email := "olivia@example.com"; role := "Product Manager" |}
  ].

(** The elements the scenario looks up by id, each [None] when the page
    has no such element: the items shown by the rows of
    [#pagination-body], the text of [#pagination-info], and the
    [disabled] flag of [#prev-page] and of [#next-page]. *)
Record Dom := {
  paginationBody : option (list Item);
  paginationInfo : option string;
  prevPage : option bool;
  nextPage : option bool
}.

(** The closure variable [currentPage] and the document. *)
Record State := {
  currentPage : Z;
  dom : Dom
}.

Definition totalPages : Z :=
  JS.ceilDiv (Z.of_nat (List.length allData)) itemsPerPage.

Definition renderPage (s : State) : State :=
  match paginationBody (dom s) with
  | None => s
  | Some _ =>
      let startIdx := ((currentPage s - 1) * itemsPerPage)%Z in
      let endIdx := (startIdx + itemsPerPage)%Z in
      let pageData := JS.slice allData startIdx endIdx in
      {| currentPage := currentPage s;
         dom :=
           {| paginationBody := Some pageData;
              paginationInfo :=
                match paginationInfo (dom s) with
                | None => None
                | Some _ =>
                    Some ("Page " ++ JS.numberToString (currentPage s)
                          ++ " of " ++ JS.numberToString totalPages)
                end;
              prevPage :=
                match prevPage (dom s) with
                | None => None
                | Some _ => Some (currentPage s =? 1)%Z
                end;
              nextPage :=
                match nextPage (dom s) with
                | None => None
                | Some _ => Some (currentPage s =? totalPages)%Z
                end |} |}
  end.

(** The [click] listener of [#prev-page]. *)
Definition onPrev (s : State) : State :=
  if (1 <? currentPage s)%Z
  then renderPage {| currentPage := (currentPage s - 1)%Z; dom := dom s |}
  else s.

(** The [click] listener of [#next-page]. *)
Definition onNext (s : State) : State :=
  if (currentPage s <? totalPages)%Z
  then renderPage {| currentPage := (currentPage s + 1)%Z; dom := dom s |}
  else s.

(** [setupPaginationScenario] on the document [d]: [currentPage] starts
    at 1 and the first page is rendered. *)
Definition setup (d : Dom) : State :=
  renderPage {| currentPage := 1; dom := d |}.

Inductive Click := ClickPrev | ClickNext.

(** A click reaches a listener only if the button exists, since the
    listener is registered only then. *)
Definition click (s : State) (c : Click) : State :=
  match c with
  | ClickPrev =>
      match prevPage (dom s) with
      | None => s
      | Some _ => onPrev s
      end
  | ClickNext =>
      match nextPage (dom s) with
      | None => s
      | Some _ => onNext s
      end
  end.

Definition run (d : Dom) (clicks : list Click) : State :=
  fold_left click clicks (setup d).

End Pagination.

(* ================================================================== *)
(** ** Component set-up on page load *)

Module Setup.

(** A document, as far as set-up is concerned: the ids of the elements
    it contains.  [getElementById] yields an element or [null]. *)
Definition Document := list string.

Definition getElementById (doc : Document) (id : string) : bool :=
  existsb (String.eqb id) doc.

(** A registered listener: the id of the element and the event type. *)
Definition Listener := (string * string)%type.

(** How a set-up function ends: it returns, having registered some
    listeners, or it raises a [TypeError] on a property access of
    [null].  The set-up functions of this module access every element
    before they register their one listener, so a raise leaves nothing
    registered; [Modal.setupModalScenario] below, which registers
    listeners one after the other, reports them together with the
    raise. *)
Inductive Outcome :=
| Returned (attached : list Listener)
| Raised.

Definition setupLoginForm (doc : Document) : Outcome :=
  if negb (getElementById doc "login-form") then Returned []
  else Returned [("login-form", "submit")].

Definition setupQuizForm (doc : Document) : Outcome :=
  if negb (getElementById doc "quiz-form") then Returned []
  else Returned [("quiz-form", "submit")].

(** [setupStudentFilter], first script (lines 95-125). *)
Definition setupStudentFilter (doc : Document) : Outcome :=
  if negb (getElementById doc "search-input") then Returned []
  else if negb (getElementById doc "students-table") then Returned []
  else Returned [("search-input", "input")].

(** The second script (lines 1007-1167). *)
Module Second.

(** [setupStudentFilter], lines 1072-1100: [table.querySelectorAll] is
    evaluated without testing [table]. *)
Definition setupStudentFilter (doc : Document) : Outcome :=
  if negb (getElementById doc "search-input") then Returned []
  else if negb (getElementById doc "students-table") then Raised
  else Returned [("search-input", "input")].

End Second.

(** A [DOMContentLoaded] listener calling set-up functions in turn: the
    listeners registered, and whether a call raised, which ends the
    listener at that call. *)
Fixpoint runAll (setups : list (Document -> Outcome)) (doc : Document)
  : list Listener * bool :=
  match setups with
  | [] => ([], false)
  | f :: rest =>
      match f doc with
      | Raised => ([], true)
      | Returned ls =>
          let (ls', raised) := runAll rest doc in ((ls ++ ls')%list, raised)
      end
  end.

(** The [DOMContentLoaded] listener of the second script. *)
Definition secondOnLoad : Document -> list Listener * bool :=
  runAll [setupLoginForm; Second.setupStudentFilter; setupQuizForm].

End Setup.

(* ================================================================== *)
(** ** Further built-ins, called by the listeners below *)

Module Text.

(** [s.startsWith(sub)] *)
Fixpoint startsWith (s sub : string) {struct sub} : bool :=
  match sub with
  | EmptyString => true
  | String c sub' =>
      match s with
      | EmptyString => false
      | String d s' => (c =? d)%char && startsWith s' sub'
      end
  end.

(** [s.includes(sub)] on strings: [sub] occurs in [s] at some position. *)
Fixpoint includes (s sub : string) : bool :=
  startsWith s sub
  || match s with
     | EmptyString => false
     | String _ s' => includes s' sub
     end.

(** [arr.indexOf(v)] on an array of strings, counting from [i]; -1 when
    [v] is not an element. *)
Fixpoint indexOfFrom (arr : list string) (v : string) (i : Z) : Z :=
  match arr with
  | [] => (-1)%Z
  | x :: arr' => if x =? v then i else indexOfFrom arr' v (i + 1)%Z
  end.

Definition indexOf (arr : list string) (v : string) : Z := indexOfFrom arr v 0.

End Text.

(* ================================================================== *)
(** ** Student filter ([setupStudentFilter], the input listener) *)

Module StudentFilter.

(** A body row of [#students-table]: the text of its first [td], [None]
    when the row has no [td], and its [style.display]. *)
Record Row := {
  nameCell : option string;
  display : string
}.

(** The page: the value of [#search-input], the rows, and the text of
    [#filter-message], [None] when the page has no such element. *)
Record Page := {
  search_value : string;
  rows : list Row;
  filterMessage : option string
}.

(** The text written to [#filter-message]. *)
Definition message (term : string) (visibleCount : Z) : string :=
  if JS.truthy term && (visibleCount =? 0)%Z then "No students found."
  else if negb (JS.truthy term) then ""
  else JS.numberToString visibleCount ++ " student(s) found.".

(** The [rows.forEach] of the first script (lines 109-115): a missing
    name cell counts as the empty name. *)
Fixpoint showMatches (term : string) (rs : list Row) (visibleCount : Z)
  : list Row * Z :=
  match rs with
  | [] => ([], visibleCount)
  | row :: rest =>
      let name :=
        JS.toLowerCase (match nameCell row with
                        | Some text => text
                        | None => ""
                        end) in
      let matched := Text.includes name term in
      let row' := {| nameCell := nameCell row;
                     display := if matched then "" else "none" |} in
      let (rest', n) :=
        showMatches term rest
                    (if matched then (visibleCount + 1)%Z else visibleCount) in
      (row' :: rest', n)
  end.

(** The input listener of the first script: the page it leaves, and
    whether it raised a [TypeError], which it does at the end when there is
    no [#filter-message] to write to. *)
Definition onInput (p : Page) : Page * bool :=
  let term := JS.toLowerCase (search_value p) in
  let (rows', visibleCount) := showMatches term (rows p) 0 in
  match filterMessage p with
  | None =>
      ({| search_value := search_value p; rows := rows';
          filterMessage := None |}, true)
  | Some _ =>
      ({| search_value := search_value p; rows := rows';
          filterMessage := Some (message term visibleCount) |}, false)
  end.

(** The second script (lines 1080-1099). *)
Module Second.

(** Its [rows.forEach]: [nameCell.textContent] raises on a row without a
    [td], which ends the loop at that row. *)
Fixpoint showMatches (term : string) (rs : list Row) (visibleCount : Z)
  : list Row * Z * bool :=
  match rs with
  | [] => ([], visibleCount, false)
  | row :: rest =>
      match nameCell row with
      | None => (row :: rest, visibleCount, true)
      | Some text =>
          let name := JS.toLowerCase text in
          let matched := Text.includes name term in
          let row' := {| nameCell := nameCell row;
                         display := if matched then "" else "none" |} in
          let '(rest', n, raised) :=
            showMatches term rest
                        (if matched then (visibleCount + 1)%Z else visibleCount) in
          (row' :: rest', n, raised)
      end
  end.

Definition onInput (p : Page) : Page * bool :=
  let term := JS.toLowerCase (search_value p) in
  let '(rows', visibleCount, raised) := showMatches term (rows p) 0 in
  if raised then
    ({| search_value := search_value p; rows := rows';
        filterMessage := filterMessage p |}, true)
  else
    match filterMessage p with
    | None =>
        ({| search_value := search_value p; rows := rows';
            filterMessage := None |}, true)
    | Some _ =>
        ({| search_value := search_value p; rows := rows';
            filterMessage := Some (message term visibleCount) |}, false)
    end.

End Second.

End StudentFilter.

(* ================================================================== *)
(** ** Dynamic list ([setupDynamicListScenario]) *)

Module DynamicList.

(** A body row of [#members-table]: its [data-name] and [data-role]
    attributes, [None] when absent, and its [style.display]. *)
Record Row := {
  data_name : option string;
  data_role : option string;
  display : string
}.

(** A members page, with its table and its message element: the values
    of [#member-search] and [#role-filter], the rows, and the text and
    colour of [#filter-result-message]. *)
Record Page := {
  search_value : string;
  role_value : string;
  rows : list Row;
  message_textContent : string;
  message_color : string
}.

(** [row.getAttribute(a) || ""] *)
Definition attributeOrEmpty (a : option string) : string :=
  match a with
  | Some text => text
  | None => ""
  end.

(** The test made on each row by [applyFilters]. *)
Definition isVisible (searchTerm selectedRole : string) (row : Row) : bool :=
  let name := attributeOrEmpty (data_name row) in
  let role := attributeOrEmpty (data_role row) in
  let matchesSearch := Text.includes name searchTerm in
  let matchesRole :=
    (selectedRole =? "") || (JS.toLowerCase role =? selectedRole) in
  matchesSearch && matchesRole.

Fixpoint showVisible (searchTerm selectedRole : string) (rs : list Row)
         (visibleCount : Z) : list Row * Z :=
  match rs with
  | [] => ([], visibleCount)
  | row :: rest =>
      let visible := isVisible searchTerm selectedRole row in
      let row' := {| data_name := data_name row; data_role := data_role row;
                     display := if visible then "" else "none" |} in
      let (rest', n) :=
        showVisible searchTerm selectedRole rest
                    (if visible then (visibleCount + 1)%Z else visibleCount) in
      (row' :: rest', n)
  end.

Definition applyFilters (p : Page) : Page :=
  let searchTerm := JS.toLowerCase (search_value p) in
  let selectedRole := role_value p in
  let (rows', visibleCount) := showVisible searchTerm selectedRole (rows p) 0 in
  if (visibleCount =? 0)%Z && (JS.truthy searchTerm || JS.truthy selectedRole) then
    {| search_value := search_value p; role_value := role_value p;
       rows := rows';
       message_textContent := "No members found matching your filters.";
       message_color := "var(--text-muted)" |}
  else
    {| search_value := search_value p; role_value := role_value p;
       rows := rows';
       message_textContent :=
         if (0 <? visibleCount)%Z
         then JS.numberToString visibleCount ++ " member(s) found"
         else "";
       message_color := message_color p |}.

(** A user action: typing in the search box, choosing a role, or
    clicking [#reset-filters]. *)
Inductive Event :=
| InputSearch (v : string)
| ChangeRole (v : string)
| ClickReset.

Definition dispatch (p : Page) (e : Event) : Page :=
  match e with
  | InputSearch v =>
      applyFilters
        {| search_value := v; role_value := role_value p; rows := rows p;
           message_textContent := message_textContent p;
           message_color := message_color p |}
  | ChangeRole v =>
      applyFilters
        {| search_value := search_value p; role_value := v; rows := rows p;
           message_textContent := message_textContent p;
           message_color := message_color p |}
  | ClickReset =>
      applyFilters
        {| search_value := ""; role_value := ""; rows := rows p;
           message_textContent := "";
           message_color := message_color p |}
  end.

End DynamicList.

(* ================================================================== *)
(** ** Multi-step wizard ([setupWizardForm]) *)

Module Wizard.

(** An [input[required]] of a step: its value and whether it carries the
    [error] class. *)
Record RequiredInput := {
  input_value : string;
  input_error : bool
}.

(** An element with a [data-wizard-step] attribute: the attribute, its
    [style.display], and its required inputs in document order. *)
Record StepEl := {
  step_attr : string;
  step_display : string;
  requiredInputs : list RequiredInput
}.

(** The document: the step elements in document order, the [disabled]
    flag of [#wizard-prev], the [style.display] of [#wizard-next] and of
    [#wizard-submit], the number written before the percent sign in the
    width of the first [.progress-bar], each [None] when the page has no
    such element, and the [active] class of each [.step-indicator]. *)
Record Dom := {
  steps : list StepEl;
  prevBtn : option bool;
  nextBtn : option string;
  submitBtn : option string;
  progressBar : option float;
  indicators : list bool
}.

(** The closure variable [currentStep] and the document. *)
Record State := {
  currentStep : Z;
  dom : Dom
}.

Definition totalSteps : Z := 3.

(** [document.querySelector('[data-wizard-step="n"]')] followed by an
    update of the element found: the first element with that attribute is
    replaced by its image under [f]. *)
Fixpoint updateFirst (attr : string) (f : StepEl -> StepEl) (els : list StepEl)
  : list StepEl :=
  match els with
  | [] => []
  | el :: rest =>
      if step_attr el =? attr then f el :: rest
      else el :: updateFirst attr f rest
  end.

(** The same query, read only. *)
Fixpoint findFirst (attr : string) (els : list StepEl) : option StepEl :=
  match els with
  | [] => None
  | el :: rest => if step_attr el =? attr then Some el else findFirst attr rest
  end.

Definition setDisplay (d : string) (el : StepEl) : StepEl :=
  {| step_attr := step_attr el; step_display := d;
     requiredInputs := requiredInputs el |}.

Definition updateWizardProgress (s : State) : State :=
  {| currentStep := currentStep s;
     dom :=
       {| steps := steps (dom s);
          prevBtn := prevBtn (dom s);
          nextBtn := nextBtn (dom s);
          submitBtn := submitBtn (dom s);
          progressBar :=
            match progressBar (dom s) with
            | None => None
            | Some _ =>
                Some (PrimFloat.mul
                        (PrimFloat.div
                           (PrimFloat.of_uint63 (Uint63.of_Z (currentStep s)))
                           (PrimFloat.of_uint63 (Uint63.of_Z totalSteps)))
                        (PrimFloat.of_uint63 (Uint63.of_Z 100)))
            end;
          indicators :=
            map (fun idx => (Z.of_nat idx + 1 <=? currentStep s)%Z)
                (seq 0 (List.length (indicators (dom s)))) |} |}.

Definition renderStep (s : State) : State :=
  updateWizardProgress
    {| currentStep := currentStep s;
       dom :=
         {| steps :=
              updateFirst (JS.numberToString (currentStep s)) (setDisplay "block")
                          (map (setDisplay "none") (steps (dom s)));
            prevBtn :=
              match prevBtn (dom s) with
              | None => None
              | Some _ => Some (currentStep s =? 1)%Z
              end;
            nextBtn :=
              match nextBtn (dom s) with
              | None => None
              | Some _ =>
                  Some (if (currentStep s =? totalSteps)%Z then "none"
                        else "inline-block")
              end;
            submitBtn :=
              match submitBtn (dom s) with
              | None => None
              | Some _ =>
                  Some (if (currentStep s =? totalSteps)%Z then "inline-block"
                        else "none")
              end;
            progressBar := progressBar (dom s);
            indicators := indicators (dom s) |} |}.

(** The [click] listener of [#wizard-prev]. *)
Definition onPrev (s : State) : State :=
  if (1 <? currentStep s)%Z
  then renderStep {| currentStep := (currentStep s - 1)%Z; dom := dom s |}
  else s.

(** A required input is blank when its trimmed value is empty. *)
Definition blank (i : RequiredInput) : bool :=
  negb (JS.truthy (JS.trim (input_value i))).

(** The validation loop on one step element: every blank required input
    gets the [error] class. *)
Definition markBlank (el : StepEl) : StepEl :=
  {| step_attr := step_attr el; step_display := step_display el;
     requiredInputs :=
       map (fun i => if blank i
                     then {| input_value := input_value i; input_error := true |}
                     else i)
           (requiredInputs el) |}.

(** The [click] listener of [#wizard-next]. *)
Definition onNext (s : State) : State :=
  let attr := JS.numberToString (currentStep s) in
  let isValid :=
    match findFirst attr (steps (dom s)) with
    | None => true
    | Some el => negb (existsb blank (requiredInputs el))
    end in
  let marked :=
    {| currentStep := currentStep s;
       dom :=
         {| steps := updateFirst attr markBlank (steps (dom s));
            prevBtn := prevBtn (dom s);
            nextBtn := nextBtn (dom s);
            submitBtn := submitBtn (dom s);
            progressBar := progressBar (dom s);
            indicators := indicators (dom s) |} |} in
  if isValid && (currentStep s <? totalSteps)%Z
  then renderStep {| currentStep := (currentStep s + 1)%Z; dom := dom marked |}
  else marked.

(** [setupWizardForm] on the document [d]. *)
Definition setup (d : Dom) : State :=
  renderStep {| currentStep := 1; dom := d |}.

(** A user action: a click on one of the two navigation buttons, or
    typing [v] into the [j]-th required input of the [i]-th step
    element. *)
Inductive Event :=
| ClickPrev
| ClickNext
| TypeInto (i j : nat) (v : string).

(** The [n]-th element of [l] replaced by its image under [f]. *)
Fixpoint updateNth {A : Type} (n : nat) (f : A -> A) (l : list A) : list A :=
  match l, n with
  | [], _ => []
  | x :: rest, O => f x :: rest
  | x :: rest, S n' => x :: updateNth n' f rest
  end.

Definition typeInto (i j : nat) (v : string) (els : list StepEl) : list StepEl :=
  updateNth i
    (fun el =>
       {| step_attr := step_attr el; step_display := step_display el;
          requiredInputs :=
            updateNth j
              (fun inp => {| input_value := v; input_error := input_error inp |})
              (requiredInputs el) |})
    els.

(** A click reaches a listener only if the button exists. *)
Definition dispatch (s : State) (e : Event) : State :=
  match e with
  | ClickPrev =>
      match prevBtn (dom s) with
      | None => s
      | Some _ => onPrev s
      end
  | ClickNext =>
      match nextBtn (dom s) with
      | None => s
      | Some _ => onNext s
      end
  | TypeInto i j v =>
      {| currentStep := currentStep s;
         dom :=
           {| steps := typeInto i j v (steps (dom s));
              prevBtn := prevBtn (dom s);
              nextBtn := nextBtn (dom s);
              submitBtn := submitBtn (dom s);
              progressBar := progressBar (dom s);
              indicators := indicators (dom s) |} |}
  end.

Definition run (d : Dom) (events : list Event) : State :=
  fold_left dispatch events (setup d).

End Wizard.

(* ================================================================== *)
(** ** Keyboard navigation ([setupKeyboardNavigation]) *)

Module Keyboard.

(** A [.keyboard-item]: its text and whether it carries the [active]
    class. *)
Record Item := {
  textContent : string;
  active : bool
}.

(** The closure variable [selectedIndex] and the items. *)
Record State := {
  selectedIndex : Z;
  items : list Item
}.

(** What a listener does besides changing the state. *)
Inductive Effect :=
| PreventDefault
| ScrollIntoView (index : Z)
| Toast (message type : string)
| Alert (message : string).

Inductive Key := ArrowDown | ArrowUp | Enter | Escape | OtherKey.

Definition inRange (index : Z) (its : list Item) : bool :=
  (0 <=? index)%Z && (index <? Z.of_nat (List.length its))%Z.

Definition selectItem (s : State) (index : Z) : State * list Effect :=
  let cleared :=
    map (fun it => {| textContent := textContent it; active := false |})
        (items s) in
  if inRange index (items s) then
    ({| selectedIndex := index;
        items :=
          map (fun '(i, it) =>
                 if (Z.of_nat i =? index)%Z
                 then {| textContent := textContent it; active := true |}
                 else it)
              (combine (seq 0 (List.length cleared)) cleared) |},
     [ScrollIntoView index])
  else ({| selectedIndex := index; items := cleared |}, []).

(** The [click] listener of the [i]-th item. *)
Definition onItemClick (s : State) (i : nat) : State * list Effect :=
  if (i <? List.length (items s))%nat then selectItem s (Z.of_nat i) else (s, []).

(** The [keydown] listener: the new state, what it did, and whether it
    raised a [TypeError].  [hasToast] tells whether [window.showToast] is
    defined; [showToast] returns [undefined], so the [alert] on the right
    of [||] is evaluated as well. *)
Definition onKeydown (hasToast : bool) (s : State) (k : Key)
  : State * list Effect * bool :=
  if (List.length (items s) =? 0)%nat then (s, [], false)
  else
    match k with
    | ArrowDown =>
        let (s', effects) := selectItem s (selectedIndex s + 1)%Z in
        (s', PreventDefault :: effects, false)
    | ArrowUp =>
        let (s', effects) := selectItem s (selectedIndex s - 1)%Z in
        (s', PreventDefault :: effects, false)
    | Enter =>
        if (0 <=? selectedIndex s)%Z then
          match nth_error (items s) (Z.to_nat (selectedIndex s)) with
          | None => (s, [PreventDefault], true)
          | Some item =>
              if hasToast then
                (s, [PreventDefault;
                     Toast ("Selected: " ++ JS.trim (textContent item)) "info";
                     Alert ("Selected: " ++ textContent item)], false)
              else
                (s, [PreventDefault;
                     Alert ("Selected: " ++ textContent item)], false)
          end
        else (s, [], false)
    | Escape =>
        let (s', effects) := selectItem s (-1)%Z in
        (s', PreventDefault :: effects, false)
    | OtherKey => (s, [], false)
    end.

(** The state after a sequence of key presses, none of which raised. *)
Definition press (hasToast : bool) (s : State) (keys : list Key) : State :=
  fold_left (fun st k => fst (fst (onKeydown hasToast st k))) keys s.

End Keyboard.

(* ================================================================== *)
(** ** Data grid ([setupDataGridActions], the status badges) *)

Module DataGrid.

(** A [[data-test="grid-status"]] badge. *)
Record Badge := {
  textContent : string;
  className : string
}.

Definition statuses : list string := ["ACTIVE"; "INACTIVE"; "PENDING"].

(** The [click] listener of a badge: the badge it leaves and the toast it
    shows when [window.showToast] is defined. *)
Definition onStatusClick (hasToast : bool) (b : Badge) : Badge * option string :=
  let currentStatus := JS.trim (textContent b) in
  let currentIdx := Text.indexOf statuses currentStatus in
  let nextStatus :=
    nth (Z.to_nat (Z.rem (currentIdx + 1) (Z.of_nat (List.length statuses))))
        statuses "" in
  ({| textContent := nextStatus;
      className := "status-badge " ++ JS.toLowerCase nextStatus |},
   if hasToast then Some ("Status changed to " ++ nextStatus) else None).

End DataGrid.

(* ================================================================== *)
(** ** Modal ([setupModalScenario]) *)

Module Modal.

(** The [style.display] of [#modal-overlay] and the [style.overflow] of
    the document body, on a page that has the five elements the set-up
    registers listeners on and the two controls ([#theme-select],
    [#notifications]) the save listener reads before it closes the
    modal. *)
Record Dom := {
  overlay_display : string;
  body_overflow : string
}.

Definition openModal (d : Dom) : Dom :=
  {| overlay_display := "flex"; body_overflow := "hidden" |}.

Definition closeModal (d : Dom) : Dom :=
  {| overlay_display := "none"; body_overflow := "auto" |}.

(** A click, by the element it is dispatched to; for the overlay
    listener, whether the click landed on the overlay itself or on
    something inside it. *)
Inductive Event :=
| ClickOpen
| ClickClose
| ClickCancel
| ClickSave
| ClickOverlay (onOverlayItself : bool).

Definition dispatch (d : Dom) (e : Event) : Dom :=
  match e with
  | ClickOpen => openModal d
  | ClickClose => closeModal d
  | ClickCancel => closeModal d
  | ClickSave => closeModal d
  | ClickOverlay onOverlayItself =>
      if onOverlayItself then closeModal d else d
  end.

(** The five [click] listeners, in the order the set-up registers
    them (lines 331, 341, 342, 344, 352). *)
Definition listeners : list Setup.Listener :=
  [("open-modal", "click"); ("close-modal", "click"); ("modal-cancel", "click");
   ("modal-save", "click"); ("modal-overlay", "click")].

(** [setupModalScenario] (lines 322-357) on a document given by the ids
    it contains: the listeners registered, and whether the function
    raised.  Only [#open-modal] is tested (line 329); its listener is
    registered first, and each later [addEventListener] raises a
    [TypeError] when its element is [null], which leaves the listeners
    registered before it in place. *)
Definition setupModalScenario (doc : Setup.Document)
  : list Setup.Listener * bool :=
  if negb (Setup.getElementById doc "open-modal") then ([], false)
  else if negb (Setup.getElementById doc "close-modal")
  then ([("open-modal", "click")], true)
  else if negb (Setup.getElementById doc "modal-cancel")
  then ([("open-modal", "click"); ("close-modal", "click")], true)
  else if negb (Setup.getElementById doc "modal-save")
  then ([("open-modal", "click"); ("close-modal", "click");
         ("modal-cancel", "click")], true)
  else if negb (Setup.getElementById doc "modal-overlay")
  then ([("open-modal", "click"); ("close-modal", "click");
         ("modal-cancel", "click"); ("modal-save", "click")], true)
  else (listeners, false).

End Modal.

(* ================================================================== *)
(** ** Notions used to state the properties *)

(** The contribution of one question to the score. *)
Definition contribution (correct : bool) : Z := if correct then 1%Z else 0%Z.

(** The code unit [c] occurs in [s]. *)
Fixpoint occurs (c : ascii) (s : string) : bool :=
  match s with
  | EmptyString => false
  | String c' s' => (c' =? c)%char || occurs c s'
  end.

(** The shape local@domain with a dot inside the domain: a non-empty local
    part, an at sign, and a domain made of two non-empty parts around a
    dot, no part containing white space or a further at sign. *)
Definition EmailShape (v : string) : Prop :=
  exists local d1 d2 : string,
    v = local ++ "@" ++ d1 ++ "." ++ d2
    /\ local <> "" /\ d1 <> "" /\ d2 <> ""
    /\ Browser.allPlain local = true
    /\ Browser.allPlain (d1 ++ "." ++ d2) = true.

(** The reason the form-state scenario displays next to the e-mail field:
    the text of [#email-error] while that element is displayed. *)
Definition shownEmailError (d : FormState.Dom) : option string :=
  if FormState.emailError_display d =? "block"
  then Some (FormState.emailError_textContent d)
  else None.

(** NO-BREAK SPACE, U+00A0. *)
Definition nbsp : ascii := ascii_of_nat 160.

(** A form-state page on which nothing has been typed yet. *)
Definition blankStateForm : FormState.Dom :=
  {| FormState.email_value := "";
     FormState.email_validity_valid := false;
     FormState.password_value := "";
     FormState.agree_checked := false;
     FormState.submit_disabled := true;
     FormState.emailError_textContent := "";
     FormState.emailError_display := "none";
     FormState.passwordError_textContent := "";
     FormState.passwordError_display := "none" |}.

(** The pagination page has all four elements the scenario looks up. *)
Definition allPresent (d : Pagination.Dom) : Prop :=
  Pagination.paginationBody d <> None
  /\ Pagination.paginationInfo d <> None
  /\ Pagination.prevPage d <> None
  /\ Pagination.nextPage d <> None.

(** What such a page shows for page number [p]: rows [5 (p - 1) + 1] to
    [5 p] of the data, the page caption, "previous" disabled on page 1 and
    "next" disabled on page 3. *)
Definition pageView (p : Z) : Pagination.Dom :=
  {| Pagination.paginationBody :=
       Some (JS.slice Pagination.allData ((p - 1) * 5) ((p - 1) * 5 + 5));
     Pagination.paginationInfo :=
       Some ("Page " ++ JS.numberToString p ++ " of 3");
     Pagination.prevPage := Some (p =? 1)%Z;
     Pagination.nextPage := Some (p =? 3)%Z |}.

(** A pagination page as served: an empty table body, no caption, both
    buttons enabled. *)
Definition servedPage : Pagination.Dom :=
  {| Pagination.paginationBody := Some [];
     Pagination.paginationInfo := Some "";
     Pagination.prevPage := Some false;
     Pagination.nextPage := Some false |}.

(** A score table with a name column and a score column, as served. *)
Definition scoresTable : Sortable.Table :=
  Sortable.initial ["name"; "score"] [None; None]
                   [["Bob"; "72"]; ["Alice"; "95"]; ["Carol"; "88"]].

(** [sub] occurs in [s]. *)
Definition Occurs (sub s : string) : Prop :=
  exists a b : string, s = a ++ sub ++ b.

(** The name the student filter compares: the lower-cased text of the
    name cell, the empty name for a row without one. *)
Definition studentName (r : StudentFilter.Row) : string :=
  JS.toLowerCase (match StudentFilter.nameCell r with
                  | Some text => text
                  | None => ""
                  end).

(** The number of student rows that are not hidden. *)
Definition shownStudents (rs : list StudentFilter.Row) : Z :=
  Z.of_nat (List.length (filter (fun r => StudentFilter.display r =? "") rs)).

(** A students page searched for "a", whose second row has no cell. *)
Definition studentsWithGap : StudentFilter.Page :=
  {| StudentFilter.search_value := "a";
     StudentFilter.rows :=
       [{| StudentFilter.nameCell := Some "Bob"; StudentFilter.display := "" |};
        {| StudentFilter.nameCell := None; StudentFilter.display := "" |};
        {| StudentFilter.nameCell := Some "Eve"; StudentFilter.display := "" |}];
     StudentFilter.filterMessage := Some "" |}.

(** The [j]-th required input of a step element carries the [error]
    class. *)
Definition inputErrorAt (el : Wizard.StepEl) (j : nat) : bool :=
  match nth_error (Wizard.requiredInputs el) j with
  | Some inp => Wizard.input_error inp
  | None => false
  end.

(** The [j]-th required input of the [i]-th step element of the wizard
    carries the [error] class. *)
Definition wizardError (s : Wizard.State) (i j : nat) : bool :=
  match nth_error (Wizard.steps (Wizard.dom s)) i with
  | Some el => inputErrorAt el j
  | None => false
  end.

(** The displays of the step elements when step [attr] is shown: "block"
    for the first element with that attribute, "none" for all others. *)
Fixpoint expectedDisplays (attr : string) (attrs : list string) : list string :=
  match attrs with
  | [] => []
  | a :: rest =>
      if a =? attr then "block" :: map (fun _ => "none") rest
      else "none" :: expectedDisplays attr rest
  end.

(** A wizard page with three steps, an empty required name on step 1 and
    all three buttons. *)
Definition wizardPage : Wizard.Dom :=
  {| Wizard.steps :=
       [{| Wizard.step_attr := "1"; Wizard.step_display := "";
           Wizard.requiredInputs :=
             [{| Wizard.input_value := ""; Wizard.input_error := false |}] |};
        {| Wizard.step_attr := "2"; Wizard.step_display := "";
           Wizard.requiredInputs := [] |};
        {| Wizard.step_attr := "3"; Wizard.step_display := "";
           Wizard.requiredInputs := [] |}];
     Wizard.prevBtn := Some false;
     Wizard.nextBtn := Some "";
     Wizard.submitBtn := Some "";
     Wizard.progressBar := None;
     Wizard.indicators := [false; false; false] |}.

(** Every error class present in the step elements [l] is present at
    the same place in [l']. *)
Definition errorsKept (l l' : list Wizard.StepEl) : Prop :=
  forall (i : nat) (el : Wizard.StepEl),
    nth_error l i = Some el ->
    exists el', nth_error l' i = Some el'
                /\ forall j, inputErrorAt el j = true -> inputErrorAt el' j = true.

(** What the wizard shows for its current step, on a page whose step
    elements carry the attributes [attrs] and which has [n] step
    indicators: "previous" disabled on step 1 only, "next" hidden and
    "submit" shown on step 3 only, the first [currentStep] indicators
    active, and the step element of the current step displayed alone. *)
Definition wizardView (attrs : list string) (n : nat) (s : Wizard.State) : Prop :=
  Wizard.prevBtn (Wizard.dom s) = Some (Wizard.currentStep s =? 1)%Z
  /\ Wizard.nextBtn (Wizard.dom s)
     = Some (if (Wizard.currentStep s =? 3)%Z then "none" else "inline-block")
  /\ Wizard.submitBtn (Wizard.dom s)
     = Some (if (Wizard.currentStep s =? 3)%Z then "inline-block" else "none")
  /\ Wizard.indicators (Wizard.dom s)
     = map (fun idx => (Z.of_nat idx + 1 <=? Wizard.currentStep s)%Z) (seq 0 n)
  /\ map Wizard.step_attr (Wizard.steps (Wizard.dom s)) = attrs
  /\ map Wizard.step_display (Wizard.steps (Wizard.dom s))
     = expectedDisplays (JS.numberToString (Wizard.currentStep s)) attrs.

(** A user action on the keyboard list: a key press anywhere in the
    document, or a click on the [i]-th item. *)
Inductive KeyboardEvent :=
| PressKey (k : Keyboard.Key)
| ClickItem (i : nat).

(** The state the listeners leave after a user action. *)
Definition keyboardStep (hasToast : bool) (s : Keyboard.State) (e : KeyboardEvent)
  : Keyboard.State :=
  match e with
  | PressKey k => fst (fst (Keyboard.onKeydown hasToast s k))
  | ClickItem i => fst (Keyboard.onItemClick s i)
  end.

(** The items that carry the [active] class are exactly those at
    position [selectedIndex]: one item when the index is within the list,
    none otherwise. *)
Definition activeAtSelected (s : Keyboard.State) : Prop :=
  forall (i : nat) (item : Keyboard.Item),
    nth_error (Keyboard.items s) i = Some item ->
    (Keyboard.active item = true <-> Z.of_nat i = Keyboard.selectedIndex s).

(** By how much a run of arrow keys moves the selection. *)
Fixpoint arrowShift (keys : list Keyboard.Key) : Z :=
  match keys with
  | [] => 0
  | Keyboard.ArrowDown :: rest => (1 + arrowShift rest)%Z
  | Keyboard.ArrowUp :: rest => (arrowShift rest - 1)%Z
  | _ :: rest => arrowShift rest
  end.

(** A keyboard list of two items, nothing selected. *)
Definition twoItems : Keyboard.State :=
  {| Keyboard.selectedIndex := (-1)%Z;
     Keyboard.items :=
       [{| Keyboard.textContent := " Item 1 "; Keyboard.active := false |};
        {| Keyboard.textContent := " Item 2 "; Keyboard.active := false |}] |}.

(** The error elements of the form-state scenario tell the truth about
    the fields: the e-mail error is displayed only for a non-empty invalid
    e-mail, the password error only for a password of 1 to 7 code
    units. *)
Definition errorsJustified (d : FormState.Dom) : Prop :=
  (FormState.emailError_display d = "block" ->
   FormState.email_validity_valid d = false /\ FormState.email_value d <> "")
  /\ (FormState.passwordError_display d = "block" ->
      0 < String.length (FormState.password_value d) < 8).

(** The rows [l] are in the order of the comparator: no row has to go
    after the row that follows it. *)
Fixpoint inOrder {A : Type} (comparefn : A -> A -> float) (l : list A) : bool :=
  match l with
  | [] => true
  | x :: rest =>
      match rest with
      | [] => true
      | y :: _ =>
          negb (PrimFloat.ltb PrimFloat.zero (comparefn x y))
          && inOrder comparefn rest
      end
  end.

(** The comparator [sortTable] hands to [rows.sort] for the column at
    [headerIndex]. *)
Definition rowCompare (parseFloat : string -> float)
           (localeCompare : string -> string -> float)
           (direction : Sortable.Direction) (headerIndex : nat)
           (rowA rowB : Sortable.Row) : float :=
  Sortable.compareCells parseFloat localeCompare direction
                        (Sortable.cellText headerIndex rowA)
                        (Sortable.cellText headerIndex rowB).

(* ================================================================== *)
(** * Properties *)

(** ** Strings *)

Lemma truthy_false_iff (s : string) : JS.truthy s = false <-> s = "".
Proof.
  destruct s; simpl; split; intro H; try reflexivity; discriminate.
Qed.

Lemma truthy_true_iff (s : string) : JS.truthy s = true <-> s <> "".
Proof.
  destruct s; simpl; split; intro H; try discriminate; try reflexivity.
  now contradiction H.
Qed.

Lemma truthy_toLowerCase (s : string) :
  JS.truthy (JS.toLowerCase s) = JS.truthy s.
Proof. destruct s; reflexivity. Qed.

Lemma includes_In (arr : list string) (v : string) :
  JS.includes arr v = true <-> In v arr.
Proof.
  unfold JS.includes. rewrite existsb_exists. split.
  - intros (x & Hx & Heq). apply String.eqb_eq in Heq. now subst.
  - intro H. exists v. split; [assumption | apply String.eqb_refl].
Qed.

Lemma includes_not_In (arr : list string) (v : string) :
  JS.includes arr v = false <-> ~ In v arr.
Proof.
  rewrite <- includes_In. destruct (JS.includes arr v); split; intro H;
    try reflexivity; try discriminate; try (intro; discriminate).
  now contradiction H.
Qed.

Lemma length_trimStart (s : string) :
  String.length (JS.trimStart s) <= String.length s.
Proof.
  induction s as [| c s IH]; simpl; [lia |].
  destruct (JS.isWhiteSpace c); simpl; lia.
Qed.

Lemma length_trimEnd (s : string) :
  String.length (JS.trimEnd s) <= String.length s.
Proof.
  induction s as [| c s IH]; simpl; [lia |].
  destruct (JS.trimEnd s) as [| c' t]; simpl in *.
  - destruct (JS.isWhiteSpace c); simpl; lia.
  - lia.
Qed.

Lemma length_trim (s : string) :
  String.length (JS.trim s) <= String.length s.
Proof.
  unfold JS.trim.
  pose proof (length_trimEnd (JS.trimStart s)).
  pose proof (length_trimStart s). lia.
Qed.

(** ** Quiz form *)

Lemma quiz_passes_preconditions (f : Quiz.Form) (q3 : string) :
  JS.trim (Quiz.q1_value f) <> "" ->
  Quiz.q2_checked f <> [] ->
  Quiz.q3_checked f = Some q3 ->
  Quiz.onSubmit f =
    let score :=
      Quiz.score (JS.toLowerCase (JS.trim (Quiz.q1_value f))) (Quiz.q2_checked f) q3 in
    {| Quiz.textContent := "Your score: " ++ JS.numberToString score ++ " / 3";
       Quiz.color := if (score =? 3)%Z then "green" else "orange";
       Quiz.q1_focused := false |}.
Proof.
  intros H1 H2 H3. unfold Quiz.onSubmit.
  rewrite truthy_toLowerCase.
  apply truthy_true_iff in H1. rewrite H1. simpl negb. cbv iota.
  destruct (Quiz.q2_checked f) as [| x xs] eqn:E2; [now contradiction H2 |].
  simpl List.length. simpl Nat.eqb. cbv iota.
  rewrite H3. reflexivity.
Qed.

Lemma quiz_score_contributions (q1 : string) (q2 : list string) (q3 : string) :
  Quiz.score q1 q2 q3 =
    (contribution (q1 =? "quality assurance")%string
     + contribution (JS.includes q2 "unit" && JS.includes q2 "manual"
                     && negb (JS.includes q2 "coffee"))
     + contribution (q3 =? "early")%string)%Z.
Proof.
  unfold Quiz.score, contribution.
  destruct (q1 =? "quality assurance");
    destruct (JS.includes q2 "unit" && JS.includes q2 "manual"
              && negb (JS.includes q2 "coffee"));
    destruct (q3 =? "early"); reflexivity.
Qed.

(** C1.  For every quiz submission that passes the required-answer
    preconditions, the score shown is the sum of three independent 0/1
    contributions: one for a trimmed, lower-cased q1 equal to "quality
    assurance"; one for a q2 selection that contains "unit" and "manual"
    and does not contain "coffee", whatever else it contains; one for q3
    equal to "early".  "Quality Assurance", unit and manual, early scores
    3; adding coffee to the selection scores 2. *)
Theorem quiz_score_is_sum_of_contributions :
  (forall (f : Quiz.Form) (q3 : string),
      JS.trim (Quiz.q1_value f) <> "" ->
      Quiz.q2_checked f <> [] ->
      Quiz.q3_checked f = Some q3 ->
      exists c1 c2 c3 : bool,
        (c1 = true <->
           JS.toLowerCase (JS.trim (Quiz.q1_value f)) = "quality assurance")
        /\ (c2 = true <->
              In "unit" (Quiz.q2_checked f) /\ In "manual" (Quiz.q2_checked f)
              /\ ~ In "coffee" (Quiz.q2_checked f))
        /\ (c3 = true <-> q3 = "early")
        /\ Quiz.textContent (Quiz.onSubmit f) =
             "Your score: "
             ++ JS.numberToString (contribution c1 + contribution c2 + contribution c3)
             ++ " / 3")
  /\ Quiz.textContent
       (Quiz.onSubmit {| Quiz.q1_value := "Quality Assurance";
                         Quiz.q2_checked := ["unit"; "manual"];
                         Quiz.q3_checked := Some "early" |})
     = "Your score: 3 / 3"
  /\ Quiz.textContent
       (Quiz.onSubmit {| Quiz.q1_value := "Quality Assurance";
                         Quiz.q2_checked := ["unit"; "manual"; "coffee"];
                         Quiz.q3_checked := Some "early" |})
     = "Your score: 2 / 3".
Proof.
  split; [| split; reflexivity].
  intros f q3 H1 H2 H3.
  exists (JS.toLowerCase (JS.trim (Quiz.q1_value f)) =? "quality assurance"),
         (JS.includes (Quiz.q2_checked f) "unit"
          && JS.includes (Quiz.q2_checked f) "manual"
          && negb (JS.includes (Quiz.q2_checked f) "coffee")),
         (q3 =? "early").
  repeat split.
  - apply String.eqb_eq.
  - apply String.eqb_eq.
  - apply andb_prop in H as [H _]. apply andb_prop in H as [H _].
    now apply includes_In.
  - apply andb_prop in H as [H _]. apply andb_prop in H as [_ H].
    now apply includes_In.
  - apply andb_prop in H as [_ H]. apply negb_true_iff in H.
    now apply includes_not_In.
  - intros (Hu & Hm & Hc).
    apply includes_In in Hu. apply includes_In in Hm.
    apply includes_not_In in Hc. now rewrite Hu, Hm, Hc.
  - apply String.eqb_eq.
  - apply String.eqb_eq.
  - rewrite (quiz_passes_preconditions f q3 H1 H2 H3). cbv zeta.
    unfold Quiz.textContent. now rewrite quiz_score_contributions.
Qed.

(** A submission with padded, upper-case q1, an extra unrelated box
    checked and a wrong q3: the score is the sum of 1, 1 and 0. *)
Lemma quiz_score_is_sum_of_contributions_witness :
  exists c1 c2 c3 : bool,
    (c1 = true <-> JS.toLowerCase (JS.trim "  QUALITY assurance ") = "quality assurance")
    /\ (c2 = true <->
          In "unit" ["integration"; "unit"; "manual"]
          /\ In "manual" ["integration"; "unit"; "manual"]
          /\ ~ In "coffee" ["integration"; "unit"; "manual"])
    /\ (c3 = true <-> "late" = "early")
    /\ Quiz.textContent
         (Quiz.onSubmit {| Quiz.q1_value := "  QUALITY assurance ";
                           Quiz.q2_checked := ["integration"; "unit"; "manual"];
                           Quiz.q3_checked := Some "late" |})
       = "Your score: "
         ++ JS.numberToString (contribution c1 + contribution c2 + contribution c3)
         ++ " / 3".
Proof.
  apply (proj1 quiz_score_is_sum_of_contributions
           {| Quiz.q1_value := "  QUALITY assurance ";
              Quiz.q2_checked := ["integration"; "unit"; "manual"];
              Quiz.q3_checked := Some "late" |} "late").
  - simpl. discriminate.
  - simpl. discriminate.
  - reflexivity.
Defined.

(** C2.  The quiz submit listener tests its preconditions in the order
    q1 non-empty after trimming, a q2 box checked, a q3 option checked.  At
    the first one that fails it stops: the result holds that
    precondition's message and nothing else, whatever the later answers
    are, and the three messages are distinct. *)
Theorem quiz_preconditions_short_circuit (f : Quiz.Form) :
  (JS.trim (Quiz.q1_value f) = "" ->
   Quiz.onSubmit f =
     {| Quiz.textContent := "Please answer question 1.";
        Quiz.color := "orange"; Quiz.q1_focused := true |})
  /\ (JS.trim (Quiz.q1_value f) <> "" ->
      Quiz.q2_checked f = [] ->
      Quiz.onSubmit f =
        {| Quiz.textContent := "Please select at least one option for question 2.";
           Quiz.color := "orange"; Quiz.q1_focused := false |})
  /\ (JS.trim (Quiz.q1_value f) <> "" ->
      Quiz.q2_checked f <> [] ->
      Quiz.q3_checked f = None ->
      Quiz.onSubmit f =
        {| Quiz.textContent := "Please select an option for question 3.";
           Quiz.color := "orange"; Quiz.q1_focused := false |})
  /\ "Please answer question 1."
     <> "Please select at least one option for question 2."
  /\ "Please answer question 1." <> "Please select an option for question 3."
  /\ "Please select at least one option for question 2."
     <> "Please select an option for question 3.".
Proof.
  unfold Quiz.onSubmit. rewrite truthy_toLowerCase.
  repeat split; try discriminate.
  - intro H1. apply truthy_false_iff in H1. now rewrite H1.
  - intros H1 H2. apply truthy_true_iff in H1. now rewrite H1, H2.
  - intros H1 H2 H3. apply truthy_true_iff in H1. rewrite H1, H3.
    destruct (Quiz.q2_checked f); [now contradiction H2 | reflexivity].
Qed.

(** An unanswered q1 hides the missing q2 and q3 answers; a missing q2
    answer hides the missing q3 answer. *)
Lemma quiz_preconditions_short_circuit_witness :
  Quiz.textContent
    (Quiz.onSubmit {| Quiz.q1_value := "   "; Quiz.q2_checked := [];
                      Quiz.q3_checked := None |})
  = "Please answer question 1."
  /\ Quiz.textContent
       (Quiz.onSubmit {| Quiz.q1_value := "qa"; Quiz.q2_checked := [];
                         Quiz.q3_checked := None |})
     = "Please select at least one option for question 2."
  /\ Quiz.textContent
       (Quiz.onSubmit {| Quiz.q1_value := "qa"; Quiz.q2_checked := ["coffee"];
                         Quiz.q3_checked := None |})
     = "Please select an option for question 3.".
Proof.
  split; [| split].
  - rewrite (proj1 (quiz_preconditions_short_circuit
                      {| Quiz.q1_value := "   "; Quiz.q2_checked := [];
                         Quiz.q3_checked := None |}));
      reflexivity.
  - rewrite (proj1 (proj2 (quiz_preconditions_short_circuit
                             {| Quiz.q1_value := "qa"; Quiz.q2_checked := [];
                                Quiz.q3_checked := None |})));
      [reflexivity | simpl; discriminate | reflexivity].
  - rewrite (proj1 (proj2 (proj2 (quiz_preconditions_short_circuit
                                    {| Quiz.q1_value := "qa";
                                       Quiz.q2_checked := ["coffee"];
                                       Quiz.q3_checked := None |}))));
      [reflexivity | simpl; discriminate | simpl; discriminate | reflexivity].
Defined.

(** ** Form-state scenario *)

Lemma checkFormValidity_fields (d : FormState.Dom) :
  FormState.email_value (FormState.checkFormValidity d) = FormState.email_value d
  /\ FormState.email_validity_valid (FormState.checkFormValidity d)
     = FormState.email_validity_valid d
  /\ FormState.password_value (FormState.checkFormValidity d)
     = FormState.password_value d
  /\ FormState.agree_checked (FormState.checkFormValidity d)
     = FormState.agree_checked d.
Proof. repeat split. Qed.

(** Each event stores the new content of its field and leaves the two
    other fields alone. *)
Lemma dispatch_fields (d : FormState.Dom) (e : FormState.Event) :
  let d' := FormState.dispatch d e in
  match e with
  | FormState.InputEmail v valid =>
      FormState.email_value d' = v
      /\ FormState.email_validity_valid d' = valid
      /\ FormState.password_value d' = FormState.password_value d
      /\ FormState.agree_checked d' = FormState.agree_checked d
  | FormState.InputPassword v =>
      FormState.email_value d' = FormState.email_value d
      /\ FormState.email_validity_valid d' = FormState.email_validity_valid d
      /\ FormState.password_value d' = v
      /\ FormState.agree_checked d' = FormState.agree_checked d
  | FormState.ChangeAgree checked =>
      FormState.email_value d' = FormState.email_value d
      /\ FormState.email_validity_valid d' = FormState.email_validity_valid d
      /\ FormState.password_value d' = FormState.password_value d
      /\ FormState.agree_checked d' = checked
  end.
Proof. destruct e; repeat split. Qed.

Lemma submit_enabled_iff (d : FormState.Dom) :
  FormState.submit_disabled (FormState.checkFormValidity d) = false <->
  (FormState.email_validity_valid d = true
   /\ FormState.email_value d <> ""
   /\ 8 <= String.length (FormState.password_value d)
   /\ FormState.agree_checked d = true).
Proof.
  unfold FormState.checkFormValidity; cbn [FormState.submit_disabled].
  rewrite negb_false_iff, !andb_true_iff, Nat.ltb_lt, Nat.leb_le.
  assert (Hne : 0 < String.length (FormState.email_value d)
                <-> FormState.email_value d <> "").
  { destruct (FormState.email_value d); simpl; split; intro H;
      try lia; try discriminate. now contradiction H. }
  rewrite Hne. tauto.
Qed.

(** C3.  After every input or change event of the form-state scenario the
    submit button is enabled exactly when the e-mail field is valid and
    non-empty, the password has at least 8 code units and the terms box is
    checked; a password of exactly 8 passes and one of 7 does not. *)
Theorem form_state_submit_enabled_iff :
  (forall (d : FormState.Dom) (e : FormState.Event),
      let d' := FormState.dispatch d e in
      FormState.submit_disabled d' = false <->
      (FormState.email_validity_valid d' = true
       /\ FormState.email_value d' <> ""
       /\ 8 <= String.length (FormState.password_value d')
       /\ FormState.agree_checked d' = true))
  /\ (forall (d : FormState.Dom) (v : string),
         FormState.email_validity_valid d = true ->
         FormState.email_value d <> "" ->
         FormState.agree_checked d = true ->
         String.length v = 8 ->
         FormState.submit_disabled
           (FormState.dispatch d (FormState.InputPassword v)) = false)
  /\ (forall (d : FormState.Dom) (v : string),
         String.length v < 8 ->
         FormState.submit_disabled
           (FormState.dispatch d (FormState.InputPassword v)) = true).
Proof.
  split; [| split].
  - intros d e d'. subst d'.
    destruct e; unfold FormState.dispatch, FormState.onEmailInput,
      FormState.onPasswordInput;
      rewrite submit_enabled_iff; simpl;
      match goal with |- ?A <-> ?B => change (A <-> A) end; reflexivity.
  - intros d v Hv He Ha Hlen.
    unfold FormState.dispatch, FormState.onPasswordInput.
    apply submit_enabled_iff; simpl. repeat split; try assumption. lia.
  - intros d v Hlen.
    unfold FormState.dispatch, FormState.onPasswordInput,
      FormState.checkFormValidity;
      cbn [FormState.submit_disabled FormState.password_value].
    apply Nat.leb_gt in Hlen. rewrite Hlen.
    now rewrite andb_false_r.
Qed.

(** The boundary on a concrete form: "12345678" enables the button. *)
Lemma form_state_submit_enabled_iff_witness :
  FormState.submit_disabled
    (FormState.dispatch
       {| FormState.email_value := "a@b.co";
          FormState.email_validity_valid := true;
          FormState.password_value := "";
          FormState.agree_checked := true;
          FormState.submit_disabled := true;
          FormState.emailError_textContent := "";
          FormState.emailError_display := "none";
          FormState.passwordError_textContent := "";
          FormState.passwordError_display := "none" |}
       (FormState.InputPassword "12345678")) = false.
Proof.
  apply (proj1 (proj2 form_state_submit_enabled_iff)); simpl;
    solve [reflexivity | discriminate].
Defined.

(** ** Login form *)

Lemma login_validation_failed (f : Login.Form) :
  Login.checkValidity f = false ->
  Login.reportedValidity (Login.onSubmit f) = true
  /\ Login.textContent (Login.onSubmit f) = "Please fix the highlighted errors."
  /\ Login.color (Login.onSubmit f) = "red".
Proof. intro H. unfold Login.onSubmit. rewrite H. repeat split. Qed.

Lemma login_validation_passed (f : Login.Form) :
  Login.checkValidity f = true ->
  Login.onSubmit f =
    if (JS.trim (Login.value (Login.emailInput f)) =? Login.VALID_EMAIL)
       && (JS.trim (Login.value (Login.passwordInput f)) =? Login.VALID_PASSWORD)
    then {| Login.email_customValidity := ""; Login.password_customValidity := "";
            Login.reportedValidity := false;
            Login.textContent := "Login successful."; Login.color := "green" |}
    else {| Login.email_customValidity := ""; Login.password_customValidity := "";
            Login.reportedValidity := false;
            Login.textContent := "Invalid credentials."; Login.color := "red" |}.
Proof. intro H. unfold Login.onSubmit. now rewrite H. Qed.

(** A password that trims to the demo password is long enough for the
    browser, whatever white space surrounds it. *)
Lemma padded_password_valid (p : string) :
  JS.trim p = Login.VALID_PASSWORD -> Browser.passwordKindValid 6 p = true.
Proof.
  intro H. unfold Browser.passwordKindValid. apply Nat.leb_le.
  pose proof (length_trim p) as Hlen. rewrite H in Hlen.
  simpl in Hlen. lia.
Qed.

(** C4, as the listener implements it.  When the fields pass the
    constraint check, the login listener shows the success message if the
    trimmed e-mail and password are the demo credentials and
    "Invalid credentials." for any other pair; the demo e-mail with any
    password that trims to the demo password passes the check and
    succeeds.  An empty password fails the check: the password field gets
    the required-password message and the listener stops before the
    credentials are compared, whatever the e-mail is.  The listener runs
    on every submission and ends with exactly one of its three messages:
    the validation message exactly when the check fails, and otherwise the
    message the comparison selects. *)
Theorem login_outcomes :
  (forall f : Login.Form,
      Login.checkValidity f = true ->
      (JS.trim (Login.value (Login.emailInput f)) = Login.VALID_EMAIL
       /\ JS.trim (Login.value (Login.passwordInput f)) = Login.VALID_PASSWORD ->
       Login.textContent (Login.onSubmit f) = "Login successful.")
      /\ (~ (JS.trim (Login.value (Login.emailInput f)) = Login.VALID_EMAIL
             /\ JS.trim (Login.value (Login.passwordInput f)) = Login.VALID_PASSWORD) ->
          Login.textContent (Login.onSubmit f) = "Invalid credentials."))
  /\ (forall e : string,
         Login.checkValidity (Browser.loginForm e "") = false
         /\ Login.password_customValidity (Login.onSubmit (Browser.loginForm e ""))
            = "Password is required."
         /\ Login.reportedValidity (Login.onSubmit (Browser.loginForm e "")) = true
         /\ Login.textContent (Login.onSubmit (Browser.loginForm e ""))
            = "Please fix the highlighted errors.")
  /\ Login.textContent
       (Login.onSubmit (Browser.loginForm "tester@example.com" "password123"))
     = "Login successful."
  /\ Login.textContent
       (Login.onSubmit (Browser.loginForm "invalid@email.com" "wrongpass"))
     = "Invalid credentials."
  /\ (forall p : string,
         JS.trim p = Login.VALID_PASSWORD ->
         Login.textContent
           (Login.onSubmit (Browser.loginForm "tester@example.com" p))
         = "Login successful.")
  /\ (forall f : Login.Form,
         (Login.textContent (Login.onSubmit f) = "Please fix the highlighted errors."
          <-> Login.checkValidity f = false)
         /\ (Login.textContent (Login.onSubmit f) = "Please fix the highlighted errors."
             \/ Login.textContent (Login.onSubmit f) = "Login successful."
             \/ Login.textContent (Login.onSubmit f) = "Invalid credentials.")).
Proof.
  split; [| split; [| split; [| split; [| split]]]].
  - intros f Hv. rewrite (login_validation_passed f Hv). split.
    + intros [He Hp]. rewrite He, Hp. reflexivity.
    + intro Hn.
      destruct (JS.trim (Login.value (Login.emailInput f)) =? Login.VALID_EMAIL)
        eqn:Ee; [| reflexivity].
      destruct (JS.trim (Login.value (Login.passwordInput f)) =? Login.VALID_PASSWORD)
        eqn:Ep; [| reflexivity].
      apply String.eqb_eq in Ee. apply String.eqb_eq in Ep.
      now contradiction Hn.
  - intro e.
    assert (Hc : Login.checkValidity (Browser.loginForm e "") = false).
    { unfold Login.checkValidity, Browser.loginForm. simpl.
      apply andb_false_r. }
    split; [exact Hc |].
    unfold Login.onSubmit. rewrite Hc. repeat split.
  - reflexivity.
  - reflexivity.
  - intros p Hp.
    assert (Hv : Login.checkValidity (Browser.loginForm "tester@example.com" p) = true).
    { unfold Login.checkValidity, Browser.loginForm.
      cbn [Login.emailInput Login.passwordInput Login.validity_valid].
      now rewrite (padded_password_valid p Hp). }
    rewrite (login_validation_passed _ Hv).
    unfold Browser.loginForm. cbn [Login.emailInput Login.passwordInput Login.value].
    now rewrite Hp.
  - intro f. unfold Login.onSubmit.
    destruct (Login.checkValidity f); simpl.
    + destruct (_ && _); simpl; (split; [split; discriminate | auto]).
    + split; [split; reflexivity | now left].
Qed.

(** The demo credentials with two spaces after the password. *)
Lemma login_outcomes_witness :
  Login.textContent
    (Login.onSubmit (Browser.loginForm "tester@example.com" "password123  "))
  = "Login successful.".
Proof.
  apply (proj1 (proj1 login_outcomes
                  (Browser.loginForm "tester@example.com" "password123  ")
                  eq_refl)).
  split; reflexivity.
Defined.

(** The demo address followed by a no-break space, with the demo
    password: both fields trim to the demo credentials, the e-mail field
    is not a valid address, and the listener shows the validation message,
    not the success message. *)
Lemma login_demo_credentials_in_invalid_field :
  JS.trim ("tester@example.com" ++ String nbsp "") = Login.VALID_EMAIL
  /\ JS.trim "password123" = Login.VALID_PASSWORD
  /\ Login.checkValidity
       (Browser.loginForm ("tester@example.com" ++ String nbsp "") "password123")
     = false
  /\ Login.textContent
       (Login.onSubmit
          (Browser.loginForm ("tester@example.com" ++ String nbsp "") "password123"))
     = "Please fix the highlighted errors."
  /\ Login.textContent
       (Login.onSubmit
          (Browser.loginForm ("tester@example.com" ++ String nbsp "") "password123"))
     <> "Login successful.".
Proof.
  repeat split; try (vm_compute; reflexivity).
  vm_compute. discriminate.
Qed.

(** C10, as the listener implements it.  The listener trims the e-mail and
    the password before it compares them; the constraint check that
    precedes the comparison is the browser's and reads the fields
    themselves.  So every input pair whose trimmed values are the demo
    credentials and whose fields pass that check produces the success
    message. *)
Theorem login_trimmed_credentials_succeed (f : Login.Form) :
  JS.trim (Login.value (Login.emailInput f)) = Login.VALID_EMAIL ->
  JS.trim (Login.value (Login.passwordInput f)) = Login.VALID_PASSWORD ->
  Login.checkValidity f = true ->
  Login.onSubmit f =
    {| Login.email_customValidity := ""; Login.password_customValidity := "";
       Login.reportedValidity := false;
       Login.textContent := "Login successful."; Login.color := "green" |}.
Proof.
  intros He Hp Hv. rewrite (login_validation_passed f Hv), He, Hp. reflexivity.
Qed.

(** A password followed by spaces, after a tab. *)
Lemma login_trimmed_credentials_succeed_witness :
  Login.onSubmit
    (Browser.loginForm "tester@example.com"
                       (String (ascii_of_nat 9) "password123   "))
  = {| Login.email_customValidity := ""; Login.password_customValidity := "";
       Login.reportedValidity := false;
       Login.textContent := "Login successful."; Login.color := "green" |}.
Proof.
  apply (login_trimmed_credentials_succeed
           (Browser.loginForm "tester@example.com"
                              (String (ascii_of_nat 9) "password123   ")));
    reflexivity.
Defined.

(** An e-mail field holding the demo address after a no-break space trims
    to the demo address, yet the field is not a valid address: the
    listener reports a validation error and never compares. *)
Lemma login_padded_email_rejected :
  JS.trim (String nbsp "tester@example.com") = Login.VALID_EMAIL
  /\ JS.trim "password123" = Login.VALID_PASSWORD
  /\ Login.onSubmit (Browser.loginForm (String nbsp "tester@example.com") "password123")
     = {| Login.email_customValidity := "Please enter a valid email address.";
          Login.password_customValidity := "";
          Login.reportedValidity := true;
          Login.textContent := "Please fix the highlighted errors.";
          Login.color := "red" |}
  /\ Login.textContent
       (Login.onSubmit
          (Browser.loginForm (String nbsp "tester@example.com") "password123"))
     <> "Login successful.".
Proof. repeat split. simpl. discriminate. Qed.

(** ** E-mail validation *)

Lemma occurs_app (c : ascii) (s t : string) :
  occurs c (s ++ t) = occurs c s || occurs c t.
Proof.
  induction s as [| c' s IH]; simpl; [reflexivity |].
  now rewrite IH, orb_assoc.
Qed.

Lemma allPlain_app (s t : string) :
  Browser.allPlain (s ++ t) = Browser.allPlain s && Browser.allPlain t.
Proof.
  induction s as [| c s IH]; simpl; [reflexivity |].
  now rewrite IH, andb_assoc.
Qed.

Lemma allPlain_no_at (s : string) :
  Browser.allPlain s = true -> occurs "@" s = false.
Proof.
  induction s as [| c s IH]; simpl; [reflexivity |].
  unfold Browser.plainChar. intro H.
  apply andb_prop in H as [H Hs]. apply andb_prop in H as [_ H].
  apply negb_true_iff in H. rewrite H. simpl. now apply IH.
Qed.

Lemma splitAtSign_None (v : string) :
  occurs "@" v = false -> Browser.splitAtSign v = None.
Proof.
  induction v as [| c v IH]; simpl; [reflexivity |].
  intro H. apply orb_false_elim in H as [Hc Hv].
  rewrite Hc, (IH Hv). reflexivity.
Qed.

Lemma splitAtSign_app (l d : string) :
  occurs "@" l = false -> Browser.splitAtSign (l ++ "@" ++ d) = Some (l, d).
Proof.
  induction l as [| c l IH]; simpl in *; [reflexivity |].
  intro H. apply orb_false_elim in H as [Hc Hl].
  rewrite Hc, (IH Hl). reflexivity.
Qed.

Lemma splitAtSign_Some (v l d : string) :
  Browser.splitAtSign v = Some (l, d) ->
  v = l ++ "@" ++ d /\ occurs "@" l = false.
Proof.
  revert l d. induction v as [| c v IH]; simpl; intros l d H; [discriminate |].
  destruct (c =? "@")%char eqn:Ec.
  - apply Ascii.eqb_eq in Ec. inversion H; subst. now split.
  - destruct (Browser.splitAtSign v) as [[l' d'] |]; [| discriminate].
    inversion H; subst. destruct (IH l' d eq_refl) as [Hv Hl].
    simpl. rewrite Ec, Hl. split; [now f_equal | reflexivity].
Qed.

(** The domain found by [splitAtSign] is the text after the at sign the
    caller has in mind, unless it still contains an at sign. *)
Lemma splitAtSign_domain (l d l1 d1 : string) :
  Browser.splitAtSign (l ++ "@" ++ d) = Some (l1, d1) ->
  d1 = d \/ occurs "@" d1 = true.
Proof.
  revert l1. induction l as [| c l IH]; simpl; intros l1 H.
  - inversion H. now left.
  - destruct (c =? "@")%char.
    + injection H as _ Hd1. right. rewrite <- Hd1, occurs_app. simpl.
      apply orb_true_r.
    + simpl in IH.
      destruct (Browser.splitAtSign (l ++ String "@" d)) as [[l' d'] |];
        [| discriminate].
      injection H as _ Hd1. subst d'. now apply (IH l').
Qed.

Lemma hasDotAfterFirst_iff (s : string) :
  Browser.hasDotAfterFirst s = true <->
  exists a b : string, s = a ++ "." ++ b /\ b <> "".
Proof.
  induction s as [| c s IH]; simpl.
  - split; [discriminate |]. intros (a & b & H & _). destruct a; discriminate.
  - rewrite orb_true_iff, andb_true_iff, IH, truthy_true_iff. split.
    + intros [[Hc Hs] | (a & b & Hab & Hb)].
      * apply Ascii.eqb_eq in Hc. subst c. now exists "", s.
      * exists (String c a), b. simpl. now rewrite Hab.
    + intros (a & b & Hab & Hb). destruct a as [| c' a]; simpl in Hab.
      * inversion Hab; subst. left. split; [apply Ascii.eqb_refl | assumption].
      * inversion Hab; subst. right. now exists a, b.
Qed.

Lemma hasInnerDot_iff (d : string) :
  Browser.hasInnerDot d = true <->
  exists d1 d2 : string, d = d1 ++ "." ++ d2 /\ d1 <> "" /\ d2 <> "".
Proof.
  destruct d as [| c s]; simpl.
  - split; [discriminate |]. intros (d1 & d2 & H & _). destruct d1; discriminate.
  - rewrite hasDotAfterFirst_iff. split.
    + intros (a & b & Hab & Hb). exists (String c a), b. simpl.
      rewrite Hab. repeat split; [discriminate | assumption].
    + intros (d1 & d2 & H & H1 & H2). destruct d1 as [| c' a];
        [now contradiction H1 |].
      inversion H; subst. now exists a, d2.
Qed.

Lemma hasInnerDot_occurs (d : string) :
  Browser.hasInnerDot d = true -> occurs "." d = true.
Proof.
  intro H. apply hasInnerDot_iff in H as (d1 & d2 & H & _). subst d.
  rewrite occurs_app. simpl. apply orb_true_r.
Qed.

(** The checker accepts exactly the texts of the shape it is meant to
    recognise. *)
Lemma emailKindValid_iff (v : string) :
  Browser.emailKindValid v = true <-> EmailShape v.
Proof.
  unfold Browser.emailKindValid, EmailShape. split.
  - destruct (Browser.splitAtSign v) as [[l d] |] eqn:E; [| discriminate].
    intro H. apply splitAtSign_Some in E as [Hv _].
    apply andb_prop in H as [H Hdot]. apply andb_prop in H as [H Hd].
    apply andb_prop in H as [Hne Hl].
    apply hasInnerDot_iff in Hdot as (d1 & d2 & Hd12 & H1 & H2).
    exists l, d1, d2. subst d. repeat split; try assumption.
    now apply truthy_true_iff.
  - intros (l & d1 & d2 & Hv & Hl & H1 & H2 & Hpl & Hpd). subst v.
    rewrite (splitAtSign_app l (d1 ++ "." ++ d2) (allPlain_no_at l Hpl)).
    rewrite Hpl, Hpd. apply truthy_true_iff in Hl. rewrite Hl. simpl.
    apply hasInnerDot_iff. now exists d1, d2.
Qed.

Lemma emailKindValid_no_at (v : string) :
  occurs "@" v = false -> Browser.emailKindValid v = false.
Proof.
  intro H. unfold Browser.emailKindValid. now rewrite (splitAtSign_None v H).
Qed.

Lemma emailKindValid_no_domain_dot (l d : string) :
  occurs "." d = false -> Browser.emailKindValid (l ++ "@" ++ d) = false.
Proof.
  intro Hd. unfold Browser.emailKindValid.
  destruct (Browser.splitAtSign (l ++ "@" ++ d)) as [[l1 d1] |] eqn:E;
    [| reflexivity].
  destruct (splitAtSign_domain l d l1 d1 E) as [Heq | Hat].
  - subst d1. destruct (Browser.hasInnerDot d) eqn:Hdot.
    + apply hasInnerDot_occurs in Hdot. congruence.
    + apply andb_false_r.
  - destruct (Browser.allPlain d1) eqn:Hp.
    + apply allPlain_no_at in Hp. congruence.
    + now rewrite andb_false_r.
Qed.

(** C5, as the two call sites implement it.  An e-mail value is valid
    exactly when it is non-empty and has the shape local@domain with a dot
    inside the domain, so a value without an at sign or without a dot in
    its domain is invalid.  The login listener then gives the reason
    "Email is required." when the trimmed value is empty and "Please enter
    a valid email address." otherwise.  The form-state listener disables
    the submit button and shows "Please enter a valid email address." for
    a non-empty value, and shows no reason for an empty one. *)
Theorem email_validation :
  (forall v : string,
      Browser.emailKindValid v = true <-> v <> "" /\ EmailShape v)
  /\ (forall v : string,
         occurs "@" v = false -> Browser.emailKindValid v = false)
  /\ (forall l d : string,
         occurs "." d = false -> Browser.emailKindValid (l ++ "@" ++ d) = false)
  /\ (forall e p : string,
         Browser.emailKindValid e = false ->
         Login.email_customValidity (Login.onSubmit (Browser.loginForm e p)) =
           if JS.truthy (JS.trim e)
           then "Please enter a valid email address."
           else "Email is required.")
  /\ (forall (d : FormState.Dom) (v : string),
         Browser.emailKindValid v = false ->
         let d' :=
           FormState.dispatch d (FormState.InputEmail v (Browser.emailKindValid v)) in
         FormState.submit_disabled d' = true
         /\ shownEmailError d' =
              if JS.truthy v
              then Some "Please enter a valid email address."
              else None).
Proof.
  split; [| split; [| split; [| split]]].
  - intro v. rewrite emailKindValid_iff. split; [| tauto].
    intro H. split; [| assumption].
    destruct H as (l & d1 & d2 & Hv & _). subst v.
    destruct l; discriminate.
  - exact emailKindValid_no_at.
  - exact emailKindValid_no_domain_dot.
  - intros e p He. unfold Login.onSubmit, Login.checkValidity, Browser.loginForm.
    cbn [Login.emailInput Login.passwordInput Login.value Login.validity_valid].
    rewrite He. cbn [andb negb Login.email_customValidity].
    now destruct (JS.truthy (JS.trim e)).
  - intros d v He d'. subst d'. rewrite He.
    unfold FormState.dispatch, FormState.onEmailInput, FormState.checkFormValidity,
      shownEmailError.
    cbn [FormState.email_value FormState.email_validity_valid
         FormState.submit_disabled FormState.emailError_display
         FormState.emailError_textContent andb negb].
    split; [reflexivity |].
    destruct v; reflexivity.
Qed.

(** The reasons given for "tester.example.com", which has no at sign. *)
Lemma email_validation_witness :
  Login.email_customValidity
    (Login.onSubmit (Browser.loginForm "tester.example.com" "password123"))
  = "Please enter a valid email address."
  /\ shownEmailError
       (FormState.dispatch blankStateForm
          (FormState.InputEmail "tester.example.com"
             (Browser.emailKindValid "tester.example.com")))
     = Some "Please enter a valid email address.".
Proof.
  split.
  - apply (proj1 (proj2 (proj2 (proj2 email_validation)))
             "tester.example.com" "password123").
    apply (proj1 (proj2 email_validation)). reflexivity.
  - apply (proj2 (proj2 (proj2 (proj2 email_validation)))
             blankStateForm "tester.example.com").
    apply (proj1 (proj2 email_validation)). reflexivity.
Defined.

(** An emptied e-mail field of the form-state scenario is invalid, the
    submit button is disabled, and no reason is displayed: the error
    element is hidden. *)
Lemma form_state_empty_email_shows_no_reason :
  Browser.emailKindValid "" = false
  /\ FormState.submit_disabled
       (FormState.dispatch blankStateForm
          (FormState.InputEmail "" (Browser.emailKindValid ""))) = true
  /\ FormState.emailError_display
       (FormState.dispatch blankStateForm
          (FormState.InputEmail "" (Browser.emailKindValid ""))) = "none"
  /\ shownEmailError
       (FormState.dispatch blankStateForm
          (FormState.InputEmail "" (Browser.emailKindValid ""))) = None.
Proof. repeat split. Qed.

(** ** Sortable table *)

Section SortFacts.

Context {A : Type} (comparefn : A -> A -> float).

Lemma sortInsert_perm (x : A) (l : list A) :
  Permutation (x :: l) (JS.sortInsert comparefn x l).
Proof.
  induction l as [| y l IH]; simpl; [apply Permutation_refl |].
  destruct (PrimFloat.ltb PrimFloat.zero (comparefn x y)).
  - eapply perm_trans; [apply perm_swap |]. now apply perm_skip.
  - apply Permutation_refl.
Qed.

Lemma sort_perm (l : list A) : Permutation l (JS.sort comparefn l).
Proof.
  induction l as [| x l IH]; simpl; [apply perm_nil |].
  eapply perm_trans; [apply perm_skip, IH | apply sortInsert_perm].
Qed.

End SortFacts.

Section TableFacts.

Variable parseFloat : string -> float.
Variable localeCompare : string -> string -> float.




(** A click on a header other than the one currently sorted by. *)
Lemma click_new_field (t : Sortable.Table) (i : nat) (f : string) :
  nth_error (Sortable.headers t) i = Some f ->
  Sortable.field (Sortable.currentSort t) <> Some f ->
  Sortable.currentSort (Sortable.onHeaderClick parseFloat localeCompare t i)
  = {| Sortable.field := Some f; Sortable.direction := Sortable.asc |}
  /\ Sortable.rows (Sortable.onHeaderClick parseFloat localeCompare t i)
     = match Sortable.sortTable parseFloat localeCompare t f Sortable.asc with
       | Some sorted => sorted
       | None => Sortable.rows t
       end.
Proof.
  intros Hi Hf. unfold Sortable.onHeaderClick. rewrite Hi.
  destruct (Sortable.field (Sortable.currentSort t)) as [g |] eqn:Eg.
  - destruct (g =? f) eqn:E.
    + apply String.eqb_eq in E. subst g. now contradiction Hf.
    + split; reflexivity.
  - split; reflexivity.
Qed.

(** A click on the header currently sorted by. *)
Lemma click_same_field (t : Sortable.Table) (i : nat) (f : string) :
  nth_error (Sortable.headers t) i = Some f ->
  Sortable.field (Sortable.currentSort t) = Some f ->
  let flipped :=
    match Sortable.direction (Sortable.currentSort t) with
    | Sortable.asc => Sortable.desc
    | Sortable.desc => Sortable.asc
    end in
  Sortable.currentSort (Sortable.onHeaderClick parseFloat localeCompare t i)
  = {| Sortable.field := Some f; Sortable.direction := flipped |}
  /\ Sortable.rows (Sortable.onHeaderClick parseFloat localeCompare t i)
     = match Sortable.sortTable parseFloat localeCompare t f flipped with
       | Some sorted => sorted
       | None => Sortable.rows t
       end.
Proof.
  intros Hi Hf flipped. unfold Sortable.onHeaderClick. rewrite Hi, Hf.
  rewrite String.eqb_refl. split; reflexivity.
Qed.

End TableFacts.

Section OrderFacts.

Context {A : Type} (comparefn : A -> A -> float).

Lemma sortInsert_inOrder (x : A) (l : list A) :
  (forall y, In y l ->
             PrimFloat.ltb PrimFloat.zero (comparefn x y) = true ->
             PrimFloat.ltb PrimFloat.zero (comparefn y x) = false) ->
  inOrder comparefn l = true ->
  inOrder comparefn (JS.sortInsert comparefn x l) = true.
Proof.
  induction l as [| y l IH]; intros Hx Hl; [reflexivity |].
  simpl JS.sortInsert.
  destruct (PrimFloat.ltb PrimFloat.zero (comparefn x y)) eqn:Exy.
  - assert (Hyx : PrimFloat.ltb PrimFloat.zero (comparefn y x) = false).
    { apply (Hx y); [now left | exact Exy]. }
    assert (Htail : inOrder comparefn (JS.sortInsert comparefn x l) = true).
    { apply IH.
      - intros z Hz. apply Hx. now right.
      - destruct l as [| z l]; [reflexivity |]. simpl in Hl.
        now apply andb_prop in Hl as [_ Hl]. }
    destruct l as [| z l].
    + simpl. now rewrite Hyx.
    + simpl in Hl. apply andb_prop in Hl as [Hyz _].
      simpl JS.sortInsert in *.
      destruct (PrimFloat.ltb PrimFloat.zero (comparefn x z)).
      * change (negb (PrimFloat.ltb PrimFloat.zero (comparefn y z))
                && inOrder comparefn (z :: JS.sortInsert comparefn x l) = true).
        now rewrite Hyz.
      * change (negb (PrimFloat.ltb PrimFloat.zero (comparefn y x))
                && inOrder comparefn (x :: z :: l) = true).
        now rewrite Hyx.
  - change (negb (PrimFloat.ltb PrimFloat.zero (comparefn x y))
            && inOrder comparefn (y :: l) = true).
    now rewrite Exy.
Qed.

Lemma sort_inOrder (l : list A) :
  (forall x y, In x l -> In y l ->
               PrimFloat.ltb PrimFloat.zero (comparefn x y) = true ->
               PrimFloat.ltb PrimFloat.zero (comparefn y x) = false) ->
  inOrder comparefn (JS.sort comparefn l) = true.
Proof.
  induction l as [| x l IH]; intro H; [reflexivity |].
  simpl. apply sortInsert_inOrder.
  - intros y Hy. apply H; [now left |].
    right. eapply Permutation_in; [| exact Hy].
    apply Permutation_sym, sort_perm.
  - apply IH. intros a b Ha Hb. apply H; now right.
Qed.

Lemma sort_of_inOrder (l : list A) :
  inOrder comparefn l = true -> JS.sort comparefn l = l.
Proof.
  induction l as [| x l IH]; intro H; [reflexivity |].
  simpl. destruct l as [| y l]; [reflexivity |].
  simpl in H. apply andb_prop in H as [Hxy Hl].
  rewrite (IH Hl). simpl. apply negb_true_iff in Hxy. now rewrite Hxy.
Qed.

End OrderFacts.






(** C7.  The comparator subtracts the two parsed numbers exactly when both
    cell texts parse to a number, and otherwise returns the locale
    comparison of the texts; for the descending direction it negates that
    result; this is the comparator the table is sorted with.  A click on
    the column currently sorted by swaps ascending and descending, a click
    on any other column sets ascending. *)
Theorem sort_comparator_and_direction
        (parseFloat : string -> float) (localeCompare : string -> string -> float) :
  (forall a b : string,
      PrimFloat.is_nan (parseFloat a) = false ->
      PrimFloat.is_nan (parseFloat b) = false ->
      Sortable.compareCells parseFloat localeCompare Sortable.asc a b
      = PrimFloat.sub (parseFloat a) (parseFloat b))
  /\ (forall a b : string,
         PrimFloat.is_nan (parseFloat a) = true
         \/ PrimFloat.is_nan (parseFloat b) = true ->
         Sortable.compareCells parseFloat localeCompare Sortable.asc a b
         = localeCompare a b)
  /\ (forall a b : string,
         Sortable.compareCells parseFloat localeCompare Sortable.desc a b
         = PrimFloat.opp
             (Sortable.compareCells parseFloat localeCompare Sortable.asc a b))
  /\ (forall (t : Sortable.Table) (f : string) (dir : Sortable.Direction)
             (i : nat) (r1 r2 : Sortable.Row) (rs : list Sortable.Row),
         Sortable.rows t = r1 :: r2 :: rs ->
         JS.findIndex (fun h => h =? f) (Sortable.headers t) = Some i ->
         forallb (fun r => (i <? List.length r)%nat) (Sortable.rows t) = true ->
         Sortable.sortTable parseFloat localeCompare t f dir
         = Some (JS.sort
                   (fun rowA rowB =>
                      Sortable.compareCells parseFloat localeCompare dir
                        (JS.trim (nth i rowA "")) (JS.trim (nth i rowB "")))
                   (Sortable.rows t)))
  /\ (forall (t : Sortable.Table) (i : nat) (f : string),
         nth_error (Sortable.headers t) i = Some f ->
         Sortable.field (Sortable.currentSort t) = Some f ->
         Sortable.currentSort (Sortable.onHeaderClick parseFloat localeCompare t i)
         = {| Sortable.field := Some f;
              Sortable.direction :=
                match Sortable.direction (Sortable.currentSort t) with
                | Sortable.asc => Sortable.desc
                | Sortable.desc => Sortable.asc
                end |})
  /\ (forall (t : Sortable.Table) (i : nat) (f : string),
         nth_error (Sortable.headers t) i = Some f ->
         Sortable.field (Sortable.currentSort t) <> Some f ->
         Sortable.currentSort (Sortable.onHeaderClick parseFloat localeCompare t i)
         = {| Sortable.field := Some f; Sortable.direction := Sortable.asc |}).
Proof.
  split; [| split; [| split; [| split; [| split]]]].
  - intros a b Ha Hb. unfold Sortable.compareCells. now rewrite Ha, Hb.
  - intros a b [H | H]; unfold Sortable.compareCells; rewrite H;
      [reflexivity | now rewrite andb_false_r].
  - reflexivity.
  - intros t f dir i r1 r2 rs Hr Hi Hall. unfold Sortable.sortTable.
    rewrite Hi. rewrite Hr in *. now rewrite Hall.
  - intros t i f Hi Hf.
    apply (click_same_field parseFloat localeCompare t i f Hi Hf).
  - intros t i f Hi Hf.
    apply (click_new_field parseFloat localeCompare t i f Hi Hf).
Qed.

(** "10" against "9": both parse, so the comparison is numeric, 10 - 9,
    although "10" precedes "9" as a text. *)
Lemma sort_comparator_and_direction_witness :
  Sortable.compareCells Plain.parseFloat Plain.localeCompare Sortable.asc "10" "9"
  = PrimFloat.sub (Plain.parseFloat "10") (Plain.parseFloat "9")
  /\ Sortable.compareCells Plain.parseFloat Plain.localeCompare Sortable.asc "10" "n/a"
     = Plain.localeCompare "10" "n/a".
Proof.
  split.
  - apply (proj1 (sort_comparator_and_direction Plain.parseFloat Plain.localeCompare));
      reflexivity.
  - apply (proj1 (proj2 (sort_comparator_and_direction
                           Plain.parseFloat Plain.localeCompare))).
    right. reflexivity.
Defined.

(** ** Pagination *)

Lemma totalPages_is_3 : Pagination.totalPages = 3%Z.
Proof. reflexivity. Qed.

Lemma renderPage_currentPage (s : Pagination.State) :
  Pagination.currentPage (Pagination.renderPage s) = Pagination.currentPage s.
Proof.
  unfold Pagination.renderPage.
  now destruct (Pagination.paginationBody (Pagination.dom s)).
Qed.

(** Rendering keeps an element present or absent as it was. *)
Lemma renderPage_presence (s : Pagination.State) :
  let d := Pagination.dom s in
  let d' := Pagination.dom (Pagination.renderPage s) in
  (Pagination.paginationBody d' = None <-> Pagination.paginationBody d = None)
  /\ (Pagination.paginationInfo d' = None <-> Pagination.paginationInfo d = None)
  /\ (Pagination.prevPage d' = None <-> Pagination.prevPage d = None)
  /\ (Pagination.nextPage d' = None <-> Pagination.nextPage d = None).
Proof.
  unfold Pagination.renderPage.
  destruct s as [p [b inf pv nx]]; simpl.
  destruct b, inf, pv, nx; simpl; repeat split; intro; congruence.
Qed.

Lemma renderPage_view (s : Pagination.State) :
  allPresent (Pagination.dom s) ->
  Pagination.dom (Pagination.renderPage s) = pageView (Pagination.currentPage s).
Proof.
  unfold allPresent, Pagination.renderPage, pageView.
  destruct s as [p [b inf pv nx]]; simpl.
  intros (Hb & Hi & Hp & Hn).
  destruct b; [| now contradiction Hb].
  destruct inf; [| now contradiction Hi].
  destruct pv; [| now contradiction Hp].
  destruct nx; [| now contradiction Hn].
  reflexivity.
Qed.

Lemma pageView_allPresent (p : Z) : allPresent (pageView p).
Proof. unfold allPresent, pageView; simpl. repeat split; discriminate. Qed.

(** The page number stays within 1..3 across a click, whatever the
    document contains. *)
Lemma click_in_range (s : Pagination.State) (c : Pagination.Click) :
  (1 <= Pagination.currentPage s <= 3)%Z ->
  (1 <= Pagination.currentPage (Pagination.click s c) <= 3)%Z.
Proof.
  intro H. destruct c; simpl.
  - destruct (Pagination.prevPage (Pagination.dom s)); [| assumption].
    unfold Pagination.onPrev.
    destruct (1 <? Pagination.currentPage s)%Z eqn:E; [| assumption].
    rewrite renderPage_currentPage. simpl. apply Z.ltb_lt in E. lia.
  - destruct (Pagination.nextPage (Pagination.dom s)); [| assumption].
    unfold Pagination.onNext. rewrite totalPages_is_3.
    destruct (Pagination.currentPage s <? 3)%Z eqn:E; [| assumption].
    rewrite renderPage_currentPage. simpl. apply Z.ltb_lt in E. lia.
Qed.

(** On a complete page the document always shows the current page. *)
Lemma click_view (s : Pagination.State) (c : Pagination.Click) :
  Pagination.dom s = pageView (Pagination.currentPage s) ->
  Pagination.dom (Pagination.click s c)
  = pageView (Pagination.currentPage (Pagination.click s c)).
Proof.
  intro H. destruct c; simpl; rewrite H; simpl.
  - unfold Pagination.onPrev.
    destruct (1 <? Pagination.currentPage s)%Z; [| assumption].
    rewrite renderPage_currentPage. apply renderPage_view. simpl.
    rewrite H. apply pageView_allPresent.
  - unfold Pagination.onNext.
    destruct (Pagination.currentPage s <? Pagination.totalPages)%Z; [| assumption].
    rewrite renderPage_currentPage. apply renderPage_view. simpl.
    rewrite H. apply pageView_allPresent.
Qed.

Lemma clicks_in_range (clicks : list Pagination.Click) (s : Pagination.State) :
  (1 <= Pagination.currentPage s <= 3)%Z ->
  (1 <= Pagination.currentPage (fold_left Pagination.click clicks s) <= 3)%Z.
Proof.
  revert s. induction clicks as [| c clicks IH]; intros s H; simpl;
    [assumption |].
  apply IH. now apply click_in_range.
Qed.

Lemma clicks_view (clicks : list Pagination.Click) (s : Pagination.State) :
  Pagination.dom s = pageView (Pagination.currentPage s) ->
  Pagination.dom (fold_left Pagination.click clicks s)
  = pageView (Pagination.currentPage (fold_left Pagination.click clicks s)).
Proof.
  revert s. induction clicks as [| c clicks IH]; intros s H; simpl;
    [assumption |].
  apply IH. now apply click_view.
Qed.

(** C8.  The 15 rows at 5 per page make exactly 3 pages.  Under every
    sequence of clicks the page number stays within 1..3.  On a page that
    has the table body, the caption and both buttons, the document always
    shows the current page: its five rows, "previous" disabled exactly on
    page 1 and "next" exactly on page 3; after set-up this is page 1 with
    rows 1 to 5. *)
Theorem pagination_pages :
  Pagination.totalPages = 3%Z
  /\ Pagination.totalPages
     = JS.ceilDiv (Z.of_nat (List.length Pagination.allData)) 5
  /\ List.length Pagination.allData = 15
  /\ (forall (d : Pagination.Dom) (clicks : list Pagination.Click),
         (1 <= Pagination.currentPage (Pagination.run d clicks) <= 3)%Z)
  /\ (forall (d : Pagination.Dom) (clicks : list Pagination.Click),
         allPresent d ->
         let s := Pagination.run d clicks in
         Pagination.dom s = pageView (Pagination.currentPage s)
         /\ (Pagination.prevPage (Pagination.dom s) = Some true
             <-> Pagination.currentPage s = 1%Z)
         /\ (Pagination.nextPage (Pagination.dom s) = Some true
             <-> Pagination.currentPage s = 3%Z))
  /\ (forall d : Pagination.Dom,
         allPresent d ->
         Pagination.currentPage (Pagination.setup d) = 1%Z
         /\ option_map (map Pagination.id)
                       (Pagination.paginationBody (Pagination.dom (Pagination.setup d)))
            = Some [1; 2; 3; 4; 5]%Z).
Proof.
  assert (Hsetup : forall d, Pagination.currentPage (Pagination.setup d) = 1%Z).
  { intro d. unfold Pagination.setup. now rewrite renderPage_currentPage. }
  assert (Hview : forall d, allPresent d ->
                            Pagination.dom (Pagination.setup d) = pageView 1).
  { intros d Hd. unfold Pagination.setup. now rewrite renderPage_view. }
  repeat apply conj; try reflexivity.
  - intros d clicks. unfold Pagination.run. apply clicks_in_range.
    rewrite Hsetup. lia.
  - intros d clicks Hd s.
    assert (Hs : Pagination.dom s = pageView (Pagination.currentPage s)).
    { subst s. unfold Pagination.run. apply clicks_view.
      now rewrite Hsetup, Hview. }
    split; [exact Hs |]. rewrite Hs. unfold pageView; simpl.
    split; (split; [intro H; injection H as H; now apply Z.eqb_eq in H
                   | intro H; rewrite H; reflexivity]).
  - intros d Hd. split; [apply Hsetup |]. now rewrite (Hview d Hd).
Qed.

(** Four clicks on "next" from the served page stop at page 3, whose
    "next" button is disabled. *)
Lemma pagination_pages_witness :
  Pagination.nextPage
    (Pagination.dom
       (Pagination.run servedPage
          [Pagination.ClickNext; Pagination.ClickNext;
           Pagination.ClickNext; Pagination.ClickNext]))
  = Some true
  <-> Pagination.currentPage
        (Pagination.run servedPage
           [Pagination.ClickNext; Pagination.ClickNext;
            Pagination.ClickNext; Pagination.ClickNext])
      = 3%Z.
Proof.
  apply (proj1 (proj2 (proj2 (proj2 (proj2 pagination_pages))))
           servedPage
           [Pagination.ClickNext; Pagination.ClickNext;
            Pagination.ClickNext; Pagination.ClickNext]).
  unfold allPresent, servedPage; simpl. repeat split; discriminate.
Defined.

(** ** Component set-up *)

(** The first script's [setupStudentFilter] never raises, and registers
    its listener only when both the search input and the table exist. *)
Lemma setupStudentFilter_guarded (doc : Setup.Document) :
  Setup.setupStudentFilter doc <> Setup.Raised
  /\ (Setup.getElementById doc "students-table" = false ->
      Setup.setupStudentFilter doc = Setup.Returned []).
Proof.
  unfold Setup.setupStudentFilter.
  destruct (Setup.getElementById doc "search-input"),
    (Setup.getElementById doc "students-table"); simpl;
    split; intros; try discriminate; reflexivity.
Qed.

(** C9, on the second script.  On a page that has the search input and
    the quiz form but no students table, [setupStudentFilter] raises, the
    load listener ends there, and the quiz form is left without its submit
    listener; the first script's [setupStudentFilter] returns on the same
    page without registering anything. *)
Theorem second_student_filter_raises_without_table :
  Setup.Second.setupStudentFilter ["search-input"; "quiz-form"] = Setup.Raised
  /\ Setup.secondOnLoad ["search-input"; "quiz-form"] = ([], true)
  /\ Setup.setupQuizForm ["search-input"; "quiz-form"]
     = Setup.Returned [("quiz-form", "submit")]
  /\ Setup.setupStudentFilter ["search-input"; "quiz-form"] = Setup.Returned [].
Proof. repeat split. Qed.

(** In the first script, a modal page without its close button makes
    [setupModalScenario] raise as well, after it has registered the
    listener of the open button. *)
Lemma modal_setup_raises_without_close_button :
  Modal.setupModalScenario ["open-modal"; "modal-overlay"]
  = ([("open-modal", "click")], true).
Proof. reflexivity. Qed.


(* ================================================================== *)
(** * Further properties of the listeners *)

(** ** Text built-ins *)

Lemma startsWith_iff (s sub : string) :
  Text.startsWith s sub = true <-> exists b : string, s = sub ++ b.
Proof.
  revert s. induction sub as [| c sub IH]; intro s; simpl.
  - split; [intros _; now exists s | reflexivity].
  - destruct s as [| d s].
    + split; [discriminate | intros (b & H); discriminate].
    + rewrite andb_true_iff, IH. split.
      * intros (Hc & b & Hb). apply Ascii.eqb_eq in Hc. subst. now exists b.
      * intros (b & H). injection H as Hc Hs. subst.
        split; [apply Ascii.eqb_refl | now exists b].
Qed.

Lemma text_includes_iff (s sub : string) :
  Text.includes s sub = true <-> Occurs sub s.
Proof.
  unfold Occurs. induction s as [| d s IH]; simpl.
  - rewrite orb_false_r, startsWith_iff. split.
    + intros (b & H). now exists "", b.
    + intros (a & b & H). destruct a; [now exists b | discriminate].
  - rewrite orb_true_iff, IH, startsWith_iff. split.
    + intros [(b & H) | (a & b & H)].
      * now exists "", b.
      * exists (String d a), b. simpl. now rewrite H.
    + intros (a & b & H). destruct a as [| d' a]; simpl in H.
      * left. now exists b.
      * right. injection H as _ H. now exists a, b.
Qed.

Lemma text_includes_empty (s : string) : Text.includes s "" = true.
Proof. apply text_includes_iff. now exists "", s. Qed.

Lemma append_assoc (a b c : string) : (a ++ b) ++ c = a ++ b ++ c.
Proof. induction a as [| x a IH]; simpl; [reflexivity | now rewrite IH]. Qed.

Lemma Occurs_trans (a b c : string) : Occurs a b -> Occurs b c -> Occurs a c.
Proof.
  intros (x & y & Hb) (u & v & Hc). subst. exists (u ++ x), (y ++ v).
  now rewrite !append_assoc.
Qed.

Lemma lowerChar_idem (c : ascii) : JS.lowerChar (JS.lowerChar c) = JS.lowerChar c.
Proof.
  destruct c as [[] [] [] [] [] [] [] []]; reflexivity.
Qed.

Lemma toLowerCase_idem (s : string) :
  JS.toLowerCase (JS.toLowerCase s) = JS.toLowerCase s.
Proof.
  induction s as [| c s IH]; simpl; [reflexivity |].
  now rewrite lowerChar_idem, IH.
Qed.

(** ** Student filter *)

(** The loop of the first script shows or hides every row on its own and
    counts the rows it shows. *)
Lemma showMatches_spec (term : string) (rs : list StudentFilter.Row) (n : Z) :
  StudentFilter.showMatches term rs n
  = (map (fun r =>
            {| StudentFilter.nameCell := StudentFilter.nameCell r;
               StudentFilter.display :=
                 if Text.includes (studentName r) term then "" else "none" |})
         rs,
     (n + Z.of_nat
            (List.length
               (filter (fun r => Text.includes (studentName r) term) rs)))%Z).
Proof.
  revert n. induction rs as [| r rs IH]; intro n; simpl.
  - now rewrite Z.add_0_r.
  - rewrite IH. fold (studentName r).
    destruct (Text.includes (studentName r) term); simpl; f_equal; lia.
Qed.

Lemma shownStudents_rendered (term : string) (rs : list StudentFilter.Row) :
  shownStudents
    (map (fun r =>
            {| StudentFilter.nameCell := StudentFilter.nameCell r;
               StudentFilter.display :=
                 if Text.includes (studentName r) term then "" else "none" |})
         rs)
  = Z.of_nat
      (List.length (filter (fun r => Text.includes (studentName r) term) rs)).
Proof.
  unfold shownStudents. f_equal.
  induction rs as [| r rs IH]; simpl; [reflexivity |].
  destruct (Text.includes (studentName r) term); simpl; now rewrite IH.
Qed.

Lemma onInput_rows (p : StudentFilter.Page) :
  StudentFilter.rows (fst (StudentFilter.onInput p))
  = map (fun r =>
           {| StudentFilter.nameCell := StudentFilter.nameCell r;
              StudentFilter.display :=
                if Text.includes (studentName r)
                                 (JS.toLowerCase (StudentFilter.search_value p))
                then "" else "none" |})
        (StudentFilter.rows p).
Proof.
  unfold StudentFilter.onInput. rewrite showMatches_spec.
  now destruct (StudentFilter.filterMessage p).
Qed.

(** X1.  With the message element on the page, the student filter never
    raises; it keeps every name cell, shows a row exactly when the
    lower-cased search text occurs in the lower-cased name and hides it
    otherwise; the message is empty for an empty search text, "No students
    found." when no row is shown, and otherwise the number of rows shown
    followed by " student(s) found.". *)
Theorem student_filter_shows_matching_rows (p : StudentFilter.Page) (old : string) :
  StudentFilter.filterMessage p = Some old ->
  snd (StudentFilter.onInput p) = false
  /\ Forall2
       (fun r r' =>
          StudentFilter.nameCell r' = StudentFilter.nameCell r
          /\ (StudentFilter.display r' = "" \/ StudentFilter.display r' = "none")
          /\ (StudentFilter.display r' = "" <->
              Occurs (JS.toLowerCase (StudentFilter.search_value p)) (studentName r)))
       (StudentFilter.rows p)
       (StudentFilter.rows (fst (StudentFilter.onInput p)))
  /\ StudentFilter.filterMessage (fst (StudentFilter.onInput p))
     = Some (if StudentFilter.search_value p =? "" then ""
             else if (shownStudents
                        (StudentFilter.rows (fst (StudentFilter.onInput p))) =? 0)%Z
                  then "No students found."
                  else JS.numberToString
                         (shownStudents
                            (StudentFilter.rows (fst (StudentFilter.onInput p))))
                       ++ " student(s) found.").
Proof.
  intro Hmsg. split; [| split].
  - unfold StudentFilter.onInput. rewrite showMatches_spec, Hmsg. reflexivity.
  - rewrite onInput_rows.
    induction (StudentFilter.rows p) as [| r rs IH]; simpl; constructor;
      [| exact IH].
    simpl. split; [reflexivity |].
    rewrite <- text_includes_iff.
    destruct (Text.includes (studentName r)
                            (JS.toLowerCase (StudentFilter.search_value p)));
      split; auto; split; intro; try reflexivity; discriminate.
  - rewrite onInput_rows, shownStudents_rendered.
    unfold StudentFilter.onInput. rewrite showMatches_spec, Hmsg. simpl.
    unfold StudentFilter.message. rewrite truthy_toLowerCase.
    destruct (StudentFilter.search_value p); reflexivity.
Qed.

(** Searching "an" among Anna, Bob and Joanna. *)
Lemma student_filter_shows_matching_rows_witness :
  StudentFilter.filterMessage
    (fst (StudentFilter.onInput
            {| StudentFilter.search_value := "AN";
               StudentFilter.rows :=
                 [{| StudentFilter.nameCell := Some "Anna";
                     StudentFilter.display := "" |};
                  {| StudentFilter.nameCell := Some "Bob";
                     StudentFilter.display := "" |};
                  {| StudentFilter.nameCell := Some "Joanna";
                     StudentFilter.display := "none" |}];
               StudentFilter.filterMessage := Some "" |}))
  = Some "2 student(s) found.".
Proof.
  rewrite (proj2 (proj2 (student_filter_shows_matching_rows
                           {| StudentFilter.search_value := "AN";
                              StudentFilter.rows :=
                                [{| StudentFilter.nameCell := Some "Anna";
                                    StudentFilter.display := "" |};
                                 {| StudentFilter.nameCell := Some "Bob";
                                    StudentFilter.display := "" |};
                                 {| StudentFilter.nameCell := Some "Joanna";
                                    StudentFilter.display := "none" |}];
                              StudentFilter.filterMessage := Some "" |}
                           "" eq_refl))).
  reflexivity.
Defined.

(** X2.  An empty search box shows every row, whatever was hidden
    before, and blanks the message. *)
Theorem student_filter_empty_search_shows_all (p : StudentFilter.Page) :
  StudentFilter.search_value p = "" ->
  StudentFilter.rows (fst (StudentFilter.onInput p))
  = map (fun r => {| StudentFilter.nameCell := StudentFilter.nameCell r;
                     StudentFilter.display := "" |})
        (StudentFilter.rows p)
  /\ StudentFilter.filterMessage (fst (StudentFilter.onInput p))
     = option_map (fun _ => "") (StudentFilter.filterMessage p).
Proof.
  intro Hv. split.
  - rewrite onInput_rows, Hv. simpl JS.toLowerCase.
    apply map_ext. intro r. now rewrite text_includes_empty.
  - unfold StudentFilter.onInput. rewrite showMatches_spec, Hv.
    now destruct (StudentFilter.filterMessage p).
Qed.

(** Clearing the box after a search that had hidden Bob. *)
Lemma student_filter_empty_search_shows_all_witness :
  StudentFilter.rows
    (fst (StudentFilter.onInput
            {| StudentFilter.search_value := "";
               StudentFilter.rows :=
                 [{| StudentFilter.nameCell := Some "Anna";
                     StudentFilter.display := "" |};
                  {| StudentFilter.nameCell := Some "Bob";
                     StudentFilter.display := "none" |}];
               StudentFilter.filterMessage := Some "1 student(s) found." |}))
  = [{| StudentFilter.nameCell := Some "Anna"; StudentFilter.display := "" |};
     {| StudentFilter.nameCell := Some "Bob"; StudentFilter.display := "" |}].
Proof.
  apply (proj1 (student_filter_empty_search_shows_all
                  {| StudentFilter.search_value := "";
                     StudentFilter.rows :=
                       [{| StudentFilter.nameCell := Some "Anna";
                           StudentFilter.display := "" |};
                        {| StudentFilter.nameCell := Some "Bob";
                           StudentFilter.display := "none" |}];
                     StudentFilter.filterMessage := Some "1 student(s) found." |}
                  eq_refl)).
Defined.

Lemma filter_length_le {A : Type} (f g : A -> bool) (l : list A) :
  (forall x, f x = true -> g x = true) ->
  List.length (filter f l) <= List.length (filter g l).
Proof.
  intro H. induction l as [| x l IH]; simpl; [lia |].
  destruct (f x) eqn:Ef.
  - rewrite (H x Ef). simpl. lia.
  - destruct (g x); simpl; lia.
Qed.

(** X3.  When the lower-cased form of one search text occurs in the
    lower-cased form of another, the second text never brings back a row:
    every row shown for it is shown for the first text, and the number of
    rows shown does not grow. *)
Theorem student_filter_longer_search_narrows
        (rs : list StudentFilter.Row) (msg : option string) (v w : string) :
  Occurs (JS.toLowerCase v) (JS.toLowerCase w) ->
  let shorter :=
    fst (StudentFilter.onInput
           {| StudentFilter.search_value := v; StudentFilter.rows := rs;
              StudentFilter.filterMessage := msg |}) in
  let longer :=
    fst (StudentFilter.onInput
           {| StudentFilter.search_value := w; StudentFilter.rows := rs;
              StudentFilter.filterMessage := msg |}) in
  Forall2 (fun r2 r1 =>
             StudentFilter.display r2 = "" -> StudentFilter.display r1 = "")
          (StudentFilter.rows longer) (StudentFilter.rows shorter)
  /\ (shownStudents (StudentFilter.rows longer)
      <= shownStudents (StudentFilter.rows shorter))%Z.
Proof.
  intros Hocc shorter longer. subst shorter longer. rewrite !onInput_rows.
  cbn [StudentFilter.search_value StudentFilter.rows].
  assert (Himp : forall r,
             Text.includes (studentName r) (JS.toLowerCase w) = true ->
             Text.includes (studentName r) (JS.toLowerCase v) = true).
  { intros r H. apply text_includes_iff in H. apply text_includes_iff.
    now apply Occurs_trans with (b := JS.toLowerCase w). }
  split.
  - clear Hocc. induction rs as [| r rs IH]; simpl; constructor; [| exact IH].
    simpl. specialize (Himp r).
    destruct (Text.includes (studentName r) (JS.toLowerCase w));
      [now rewrite Himp | discriminate].
  - rewrite !shownStudents_rendered. apply inj_le.
    now apply filter_length_le.
Qed.

(** Among Anna, Bob and Joanna, "Anna" shows no more rows than "an". *)
Lemma student_filter_longer_search_narrows_witness :
  (shownStudents
     (StudentFilter.rows
        (fst (StudentFilter.onInput
                {| StudentFilter.search_value := "Anna";
                   StudentFilter.rows :=
                     [{| StudentFilter.nameCell := Some "Anna";
                         StudentFilter.display := "" |};
                      {| StudentFilter.nameCell := Some "Bob";
                         StudentFilter.display := "" |};
                      {| StudentFilter.nameCell := Some "Joanna";
                         StudentFilter.display := "" |}];
                   StudentFilter.filterMessage := Some "" |})))
   <= shownStudents
        (StudentFilter.rows
           (fst (StudentFilter.onInput
                   {| StudentFilter.search_value := "an";
                      StudentFilter.rows :=
                        [{| StudentFilter.nameCell := Some "Anna";
                            StudentFilter.display := "" |};
                         {| StudentFilter.nameCell := Some "Bob";
                            StudentFilter.display := "" |};
                         {| StudentFilter.nameCell := Some "Joanna";
                            StudentFilter.display := "" |}];
                      StudentFilter.filterMessage := Some "" |}))))%Z.
Proof.
  apply (proj2 (student_filter_longer_search_narrows
                  [{| StudentFilter.nameCell := Some "Anna";
                      StudentFilter.display := "" |};
                   {| StudentFilter.nameCell := Some "Bob";
                      StudentFilter.display := "" |};
                   {| StudentFilter.nameCell := Some "Joanna";
                      StudentFilter.display := "" |}]
                  (Some "") "an" "Anna"
                  (ex_intro _ "" (ex_intro _ "na" eq_refl)))).
Defined.

Lemma second_showMatches_named (term : string) (rs : list StudentFilter.Row) (n : Z) :
  Forall (fun r => StudentFilter.nameCell r <> None) rs ->
  StudentFilter.Second.showMatches term rs n
  = (StudentFilter.showMatches term rs n, false).
Proof.
  intro H. revert n. induction H as [| r rs Hr _ IH]; intro n; simpl;
    [reflexivity |].
  destruct (StudentFilter.nameCell r) as [text |]; [| now contradiction Hr].
  rewrite IH.
  now destruct (StudentFilter.showMatches term rs _).
Qed.

Lemma second_showMatches_unnamed (term : string)
      (before after : list StudentFilter.Row) (r : StudentFilter.Row) (n : Z) :
  Forall (fun r => StudentFilter.nameCell r <> None) before ->
  StudentFilter.nameCell r = None ->
  StudentFilter.Second.showMatches term (before ++ r :: after)%list n
  = ((fst (StudentFilter.showMatches term before n) ++ r :: after)%list,
     snd (StudentFilter.showMatches term before n), true).
Proof.
  intros H Hr. revert n. induction H as [| b bs Hb _ IH]; intro n; simpl.
  - now rewrite Hr.
  - destruct (StudentFilter.nameCell b) as [text |]; [| now contradiction Hb].
    rewrite IH.
    now destruct (StudentFilter.showMatches term bs _).
Qed.

(** X4.  On a table whose rows all have a name cell the input listeners
    of the two scripts do the same.  At the first row without a name cell
    the second script's listener raises: the rows before it are filtered,
    that row and the rows after it keep their display, and the message is
    left as it was; the first script filters every row and does not raise
    there. *)
Theorem student_filter_scripts_compared (p : StudentFilter.Page) :
  (Forall (fun r => StudentFilter.nameCell r <> None) (StudentFilter.rows p) ->
   StudentFilter.Second.onInput p = StudentFilter.onInput p)
  /\ (forall (before after : list StudentFilter.Row) (r : StudentFilter.Row),
         StudentFilter.rows p = (before ++ r :: after)%list ->
         Forall (fun r => StudentFilter.nameCell r <> None) before ->
         StudentFilter.nameCell r = None ->
         snd (StudentFilter.Second.onInput p) = true
         /\ StudentFilter.rows (fst (StudentFilter.Second.onInput p))
            = (firstn (List.length before)
                      (StudentFilter.rows (fst (StudentFilter.onInput p)))
               ++ r :: after)%list
         /\ StudentFilter.filterMessage (fst (StudentFilter.Second.onInput p))
            = StudentFilter.filterMessage p
         /\ List.length (StudentFilter.rows (fst (StudentFilter.onInput p)))
            = List.length (StudentFilter.rows p)
         /\ (snd (StudentFilter.onInput p) = true
             <-> StudentFilter.filterMessage p = None)).
Proof.
  split.
  - intro H. unfold StudentFilter.Second.onInput, StudentFilter.onInput.
    rewrite (second_showMatches_named _ _ _ H).
    now destruct (StudentFilter.showMatches _ _ _).
  - intros before after r Hrows Hb Hr.
    assert (Hsecond :
              StudentFilter.Second.onInput p
              = ({| StudentFilter.search_value := StudentFilter.search_value p;
                    StudentFilter.rows :=
                      (fst (StudentFilter.showMatches
                              (JS.toLowerCase (StudentFilter.search_value p))
                              before 0) ++ r :: after)%list;
                    StudentFilter.filterMessage := StudentFilter.filterMessage p |},
                 true)).
    { unfold StudentFilter.Second.onInput.
      rewrite Hrows, (second_showMatches_unnamed _ _ _ _ _ Hb Hr). reflexivity. }
    rewrite Hsecond. cbn [fst snd StudentFilter.rows StudentFilter.filterMessage].
    repeat split.
    + rewrite onInput_rows, Hrows, showMatches_spec. cbn [fst].
      rewrite map_app, firstn_app, length_map, Nat.sub_diag. simpl firstn at 2.
      rewrite app_nil_r.
      rewrite <- (length_map
                    (fun r0 =>
                       {| StudentFilter.nameCell := StudentFilter.nameCell r0;
                          StudentFilter.display :=
                            if Text.includes (studentName r0)
                                 (JS.toLowerCase (StudentFilter.search_value p))
                            then "" else "none" |}) before) at 1.
      now rewrite firstn_all.
    + rewrite onInput_rows. apply length_map.
    + unfold StudentFilter.onInput. rewrite showMatches_spec.
      destruct (StudentFilter.filterMessage p); simpl; [discriminate | reflexivity].
    + unfold StudentFilter.onInput. rewrite showMatches_spec.
      intro H. rewrite H. reflexivity.
Qed.

(** The page [studentsWithGap]: Bob is hidden, the row without a cell
    and Eve after it are left as they were. *)
Lemma student_filter_scripts_compared_witness :
  StudentFilter.rows (fst (StudentFilter.Second.onInput studentsWithGap))
  = [{| StudentFilter.nameCell := Some "Bob"; StudentFilter.display := "none" |};
     {| StudentFilter.nameCell := None; StudentFilter.display := "" |};
     {| StudentFilter.nameCell := Some "Eve"; StudentFilter.display := "" |}].
Proof.
  refine (proj1 (proj2 (proj2 (student_filter_scripts_compared studentsWithGap)
                          [{| StudentFilter.nameCell := Some "Bob";
                              StudentFilter.display := "" |}]
                          [{| StudentFilter.nameCell := Some "Eve";
                              StudentFilter.display := "" |}]
                          {| StudentFilter.nameCell := None;
                             StudentFilter.display := "" |}
                          eq_refl _ eq_refl))).
  constructor; [simpl; discriminate | constructor].
Defined.

(** ** Dynamic list *)

Lemma showVisible_spec (term role : string) (rs : list DynamicList.Row) (n : Z) :
  DynamicList.showVisible term role rs n
  = (map (fun r =>
            {| DynamicList.data_name := DynamicList.data_name r;
               DynamicList.data_role := DynamicList.data_role r;
               DynamicList.display :=
                 if DynamicList.isVisible term role r then "" else "none" |})
         rs,
     (n + Z.of_nat (List.length (filter (DynamicList.isVisible term role) rs)))%Z).
Proof.
  revert n. induction rs as [| r rs IH]; intro n; simpl.
  - now rewrite Z.add_0_r.
  - rewrite IH. destruct (DynamicList.isVisible term role r); simpl; f_equal; lia.
Qed.

Lemma applyFilters_rows (p : DynamicList.Page) :
  DynamicList.rows (DynamicList.applyFilters p)
  = map (fun r =>
           {| DynamicList.data_name := DynamicList.data_name r;
              DynamicList.data_role := DynamicList.data_role r;
              DynamicList.display :=
                if DynamicList.isVisible
                     (JS.toLowerCase (DynamicList.search_value p))
                     (DynamicList.role_value p) r
                then "" else "none" |})
        (DynamicList.rows p).
Proof.
  unfold DynamicList.applyFilters. rewrite showVisible_spec.
  now destruct (_ && _).
Qed.

(** X5.  After the filters are applied a member row is shown exactly when
    both criteria hold: the lower-cased search text occurs in the row's
    [data-name] as it is written, and no role is selected or the row's
    lower-cased [data-role] is the selected role.  Every other row is
    hidden, and the attributes are kept. *)
Theorem dynamic_list_shows_rows_matching_both (p : DynamicList.Page) :
  Forall2
    (fun r r' =>
       DynamicList.data_name r' = DynamicList.data_name r
       /\ DynamicList.data_role r' = DynamicList.data_role r
       /\ (DynamicList.display r' = "" \/ DynamicList.display r' = "none")
       /\ (DynamicList.display r' = "" <->
           Occurs (JS.toLowerCase (DynamicList.search_value p))
                  (DynamicList.attributeOrEmpty (DynamicList.data_name r))
           /\ (DynamicList.role_value p = ""
               \/ JS.toLowerCase
                    (DynamicList.attributeOrEmpty (DynamicList.data_role r))
                  = DynamicList.role_value p)))
    (DynamicList.rows p)
    (DynamicList.rows (DynamicList.applyFilters p)).
Proof.
  rewrite applyFilters_rows.
  induction (DynamicList.rows p) as [| r rs IH]; simpl; constructor; [| exact IH].
  simpl. split; [reflexivity | split; [reflexivity |]].
  assert (Hvis : DynamicList.isVisible
                   (JS.toLowerCase (DynamicList.search_value p))
                   (DynamicList.role_value p) r = true
                 <-> Occurs (JS.toLowerCase (DynamicList.search_value p))
                            (DynamicList.attributeOrEmpty (DynamicList.data_name r))
                     /\ (DynamicList.role_value p = ""
                         \/ JS.toLowerCase
                              (DynamicList.attributeOrEmpty (DynamicList.data_role r))
                            = DynamicList.role_value p)).
  { unfold DynamicList.isVisible.
    now rewrite andb_true_iff, orb_true_iff, text_includes_iff, !String.eqb_eq. }
  destruct (DynamicList.isVisible _ _ r).
  - split; [now left |]. split; [intros _; now apply Hvis | reflexivity].
  - split; [now right |]. split; [discriminate |].
    intro H. apply Hvis in H. discriminate.
Qed.

Lemma isVisible_no_filter (r : DynamicList.Row) : DynamicList.isVisible "" "" r = true.
Proof. unfold DynamicList.isVisible. now rewrite text_includes_empty. Qed.

(** X6.  The reset button empties the search box and the role choice and
    shows every row; the message then counts all rows, "n member(s)
    found", or is empty when the table has no rows; its colour is left as
    it was. *)
Theorem dynamic_list_reset_shows_all (p : DynamicList.Page) :
  DynamicList.dispatch p DynamicList.ClickReset
  = {| DynamicList.search_value := "";
       DynamicList.role_value := "";
       DynamicList.rows :=
         map (fun r => {| DynamicList.data_name := DynamicList.data_name r;
                          DynamicList.data_role := DynamicList.data_role r;
                          DynamicList.display := "" |})
             (DynamicList.rows p);
       DynamicList.message_textContent :=
         match DynamicList.rows p with
         | [] => ""
         | _ => JS.numberToString (Z.of_nat (List.length (DynamicList.rows p)))
                ++ " member(s) found"
         end;
       DynamicList.message_color := DynamicList.message_color p |}.
Proof.
  unfold DynamicList.dispatch, DynamicList.applyFilters.
  cbn [DynamicList.search_value DynamicList.role_value DynamicList.rows
       DynamicList.message_color JS.toLowerCase JS.truthy orb].
  rewrite showVisible_spec, andb_false_r.
  assert (Hall : filter (DynamicList.isVisible "" "") (DynamicList.rows p)
                 = DynamicList.rows p).
  { induction (DynamicList.rows p) as [| r rs IH]; simpl; [reflexivity |].
    now rewrite isVisible_no_filter, IH. }
  rewrite Hall, Z.add_0_l. f_equal.
  - apply map_ext. intro r. now rewrite isVisible_no_filter.
  - destruct (DynamicList.rows p) as [| r rs]; [reflexivity |].
    assert (Hpos : (0 <? Z.of_nat (List.length (r :: rs)))%Z = true)
      by (apply Z.ltb_lt; simpl; lia).
    now rewrite Hpos.
Qed.

(** X7.  Only the row's role is lower-cased before the comparison, so a
    selected role that is not in lower case matches no row: every row is
    hidden and the no-members message is shown. *)
Theorem dynamic_list_role_not_lower_case_hides_all (p : DynamicList.Page) :
  JS.toLowerCase (DynamicList.role_value p) <> DynamicList.role_value p ->
  DynamicList.rows (DynamicList.applyFilters p)
  = map (fun r => {| DynamicList.data_name := DynamicList.data_name r;
                     DynamicList.data_role := DynamicList.data_role r;
                     DynamicList.display := "none" |})
        (DynamicList.rows p)
  /\ DynamicList.message_textContent (DynamicList.applyFilters p)
     = "No members found matching your filters.".
Proof.
  intro Hrole.
  assert (Hhid : forall r,
             DynamicList.isVisible (JS.toLowerCase (DynamicList.search_value p))
                                   (DynamicList.role_value p) r = false).
  { intro r. unfold DynamicList.isVisible.
    assert (H1 : (DynamicList.role_value p =? "") = false).
    { apply String.eqb_neq. intro H. apply Hrole. now rewrite H. }
    assert (H2 : (JS.toLowerCase
                    (DynamicList.attributeOrEmpty (DynamicList.data_role r))
                  =? DynamicList.role_value p) = false).
    { apply String.eqb_neq. intro H. apply Hrole.
      rewrite <- H. apply toLowerCase_idem. }
    rewrite H1, H2. apply andb_false_r. }
  split.
  - rewrite applyFilters_rows. apply map_ext. intro r. now rewrite Hhid.
  - unfold DynamicList.applyFilters. rewrite showVisible_spec.
    assert (Hnone : filter (DynamicList.isVisible
                              (JS.toLowerCase (DynamicList.search_value p))
                              (DynamicList.role_value p))
                           (DynamicList.rows p) = []).
    { induction (DynamicList.rows p) as [| r rs IH]; simpl; [reflexivity |].
      now rewrite Hhid. }
    rewrite Hnone. simpl.
    assert (Ht : JS.truthy (DynamicList.role_value p) = true).
    { apply truthy_true_iff. intro H. apply Hrole. now rewrite H. }
    rewrite Ht, orb_true_r. reflexivity.
Qed.

(** The role value "QA" against a row whose role is "QA". *)
Lemma dynamic_list_role_not_lower_case_hides_all_witness :
  DynamicList.message_textContent
    (DynamicList.applyFilters
       {| DynamicList.search_value := "";
          DynamicList.role_value := "QA";
          DynamicList.rows :=
            [{| DynamicList.data_name := Some "alice";
                DynamicList.data_role := Some "QA";
                DynamicList.display := "" |}];
          DynamicList.message_textContent := "";
          DynamicList.message_color := "" |})
  = "No members found matching your filters.".
Proof.
  apply (dynamic_list_role_not_lower_case_hides_all
           {| DynamicList.search_value := "";
              DynamicList.role_value := "QA";
              DynamicList.rows :=
                [{| DynamicList.data_name := Some "alice";
                    DynamicList.data_role := Some "QA";
                    DynamicList.display := "" |}];
              DynamicList.message_textContent := "";
              DynamicList.message_color := "" |}).
  simpl. discriminate.
Defined.

(** ** Wizard *)

Lemma wizard_renderStep_currentStep (s : Wizard.State) :
  Wizard.currentStep (Wizard.renderStep s) = Wizard.currentStep s.
Proof. reflexivity. Qed.

Lemma wizard_dispatch_in_range (s : Wizard.State) (e : Wizard.Event) :
  (1 <= Wizard.currentStep s <= 3)%Z ->
  (1 <= Wizard.currentStep (Wizard.dispatch s e) <= 3)%Z.
Proof.
  intro H. destruct e; simpl.
  - destruct (Wizard.prevBtn (Wizard.dom s)); [| assumption].
    unfold Wizard.onPrev.
    destruct (1 <? Wizard.currentStep s)%Z eqn:E; [| assumption].
    apply Z.ltb_lt in E. simpl. lia.
  - destruct (Wizard.nextBtn (Wizard.dom s)); [| assumption].
    unfold Wizard.onNext, Wizard.totalSteps.
    destruct (Wizard.currentStep s <? 3)%Z eqn:E.
    + apply Z.ltb_lt in E. destruct (match _ with Some _ => _ | None => _ end);
        simpl; lia.
    + rewrite andb_false_r. simpl. assumption.
  - assumption.
Qed.

(** X8.  Under every sequence of clicks and edits the wizard's step number
    stays within 1..3, whichever elements the page has. *)
Theorem wizard_step_in_range (d : Wizard.Dom) (events : list Wizard.Event) :
  (1 <= Wizard.currentStep (Wizard.run d events) <= 3)%Z.
Proof.
  unfold Wizard.run.
  assert (H : (1 <= Wizard.currentStep (Wizard.setup d) <= 3)%Z) by (simpl; lia).
  revert H. generalize (Wizard.setup d).
  induction events as [| e events IH]; intros s H; simpl; [assumption |].
  apply IH. now apply wizard_dispatch_in_range.
Qed.

Lemma findFirst_updateFirst (attr : string) (f : Wizard.StepEl -> Wizard.StepEl)
      (els : list Wizard.StepEl) (el : Wizard.StepEl) :
  (forall x, Wizard.step_attr (f x) = Wizard.step_attr x) ->
  Wizard.findFirst attr els = Some el ->
  Wizard.findFirst attr (Wizard.updateFirst attr f els) = Some (f el).
Proof.
  intros Hf. induction els as [| x els IH]; simpl; [discriminate |].
  destruct (Wizard.step_attr x =? attr) eqn:E.
  - intro H. injection H as <-. simpl. now rewrite Hf, E.
  - intro H. simpl. rewrite E. now apply IH.
Qed.

Lemma existsb_blank_iff (inputs : list Wizard.RequiredInput) :
  existsb Wizard.blank inputs = true <->
  exists inp, In inp inputs /\ JS.trim (Wizard.input_value inp) = "".
Proof.
  rewrite existsb_exists. unfold Wizard.blank.
  split; intros (inp & Hin & H); exists inp; split; try assumption.
  - apply negb_true_iff in H. now apply truthy_false_iff.
  - apply negb_true_iff. now apply truthy_false_iff.
Qed.

(** X9.  A click on Next while some required input of the current step
    is blank (empty once trimmed) keeps the step and puts the error class
    on every blank required input of that step, leaving their values
    alone; when none is blank it advances by one step, unless the wizard
    is on the last step. *)
Theorem wizard_next_needs_required_inputs
        (s : Wizard.State) (el : Wizard.StepEl) :
  Wizard.nextBtn (Wizard.dom s) <> None ->
  Wizard.findFirst (JS.numberToString (Wizard.currentStep s))
                   (Wizard.steps (Wizard.dom s)) = Some el ->
  let s' := Wizard.dispatch s Wizard.ClickNext in
  ((exists inp, In inp (Wizard.requiredInputs el)
                /\ JS.trim (Wizard.input_value inp) = "") ->
   Wizard.currentStep s' = Wizard.currentStep s
   /\ exists el',
       Wizard.findFirst (JS.numberToString (Wizard.currentStep s))
                        (Wizard.steps (Wizard.dom s')) = Some el'
       /\ Forall2
            (fun inp inp' =>
               Wizard.input_value inp' = Wizard.input_value inp
               /\ Wizard.input_error inp'
                  = (Wizard.input_error inp
                     || (JS.trim (Wizard.input_value inp) =? "")))
            (Wizard.requiredInputs el) (Wizard.requiredInputs el'))
  /\ ((forall inp, In inp (Wizard.requiredInputs el) ->
                   JS.trim (Wizard.input_value inp) <> "") ->
      Wizard.currentStep s'
      = if (Wizard.currentStep s <? 3)%Z
        then (Wizard.currentStep s + 1)%Z
        else Wizard.currentStep s).
Proof.
  intros Hbtn Hel s'. subst s'. simpl.
  destruct (Wizard.nextBtn (Wizard.dom s)); [| now contradiction Hbtn].
  unfold Wizard.onNext. rewrite Hel. split.
  - intro Hblank. apply existsb_blank_iff in Hblank. rewrite Hblank. simpl.
    split; [reflexivity |].
    exists (Wizard.markBlank el). split.
    + now apply findFirst_updateFirst.
    + unfold Wizard.markBlank; simpl. clear.
      induction (Wizard.requiredInputs el) as [| inp inputs IH]; simpl.
      * constructor.
      * constructor; [| exact IH]. unfold Wizard.blank.
        destruct (JS.trim (Wizard.input_value inp)) eqn:E; simpl;
          (split; [reflexivity |]);
          [now rewrite orb_true_r | now rewrite orb_false_r].
  - intro Hfilled.
    assert (Hnone : existsb Wizard.blank (Wizard.requiredInputs el) = false).
    { destruct (existsb Wizard.blank (Wizard.requiredInputs el)) eqn:E;
        [| reflexivity].
      apply existsb_blank_iff in E as (inp & Hin & Hb).
      now contradiction (Hfilled inp Hin). }
    rewrite Hnone. unfold Wizard.totalSteps. simpl.
    now destruct (Wizard.currentStep s <? 3)%Z.
Qed.

(** On [wizardPage] the first Next is refused and marks the empty name. *)
Lemma wizard_next_needs_required_inputs_witness :
  Wizard.currentStep (Wizard.dispatch (Wizard.setup wizardPage) Wizard.ClickNext)
  = 1%Z.
Proof.
  refine (proj1 (proj1 (wizard_next_needs_required_inputs
                          (Wizard.setup wizardPage)
                          {| Wizard.step_attr := "1"; Wizard.step_display := "block";
                             Wizard.requiredInputs :=
                               [{| Wizard.input_value := "";
                                   Wizard.input_error := false |}] |}
                          _ eq_refl) _)).
  - simpl. discriminate.
  - exists {| Wizard.input_value := ""; Wizard.input_error := false |}.
    split; [now left | reflexivity].
Defined.

Lemma errorsKept_refl (l : list Wizard.StepEl) : errorsKept l l.
Proof. intros i el H. now exists el. Qed.

Lemma errorsKept_trans (l1 l2 l3 : list Wizard.StepEl) :
  errorsKept l1 l2 -> errorsKept l2 l3 -> errorsKept l1 l3.
Proof.
  intros H12 H23 i el H.
  destruct (H12 i el H) as (el2 & H2 & K2).
  destruct (H23 i el2 H2) as (el3 & H3 & K3).
  exists el3. split; [assumption |]. intros j Hj. now apply K3, K2.
Qed.

Lemma errorsKept_map (f : Wizard.StepEl -> Wizard.StepEl) (l : list Wizard.StepEl) :
  (forall el j, inputErrorAt el j = true -> inputErrorAt (f el) j = true) ->
  errorsKept l (map f l).
Proof.
  intros Hf i el H. exists (f el). split.
  - now rewrite nth_error_map, H.
  - intro j. apply Hf.
Qed.

Lemma errorsKept_updateFirst (attr : string) (f : Wizard.StepEl -> Wizard.StepEl)
      (l : list Wizard.StepEl) :
  (forall el j, inputErrorAt el j = true -> inputErrorAt (f el) j = true) ->
  errorsKept l (Wizard.updateFirst attr f l).
Proof.
  intros Hf. induction l as [| x l IH]; intros i el H; simpl.
  - destruct i; discriminate.
  - destruct (Wizard.step_attr x =? attr).
    + destruct i as [| i]; simpl in *.
      * injection H as <-. exists (f x). split; [reflexivity | apply Hf].
      * exists el. now split.
    + destruct i as [| i]; simpl in *.
      * exists el. now split.
      * now apply IH.
Qed.

Lemma errorsKept_updateNth (n : nat) (f : Wizard.StepEl -> Wizard.StepEl)
      (l : list Wizard.StepEl) :
  (forall el j, inputErrorAt el j = true -> inputErrorAt (f el) j = true) ->
  errorsKept l (Wizard.updateNth n f l).
Proof.
  intros Hf. revert n. induction l as [| x l IH]; intros n i el H.
  - destruct i; discriminate.
  - destruct n as [| n]; simpl.
    + destruct i as [| i]; simpl in *.
      * injection H as <-. exists (f x). split; [reflexivity | apply Hf].
      * exists el. now split.
    + destruct i as [| i]; simpl in *.
      * exists el. now split.
      * now apply IH.
Qed.

Lemma markBlank_keeps (el : Wizard.StepEl) (j : nat) :
  inputErrorAt el j = true -> inputErrorAt (Wizard.markBlank el) j = true.
Proof.
  unfold inputErrorAt, Wizard.markBlank. simpl. rewrite nth_error_map.
  destruct (nth_error (Wizard.requiredInputs el) j) as [inp |]; simpl;
    [| discriminate].
  now destruct (Wizard.blank inp).
Qed.

Lemma typed_input_keeps (k : nat) (v : string) (inputs : list Wizard.RequiredInput)
      (j : nat) :
  match nth_error
          (Wizard.updateNth k
             (fun inp => {| Wizard.input_value := v;
                            Wizard.input_error := Wizard.input_error inp |})
             inputs) j with
  | Some inp => Wizard.input_error inp
  | None => false
  end
  = match nth_error inputs j with
    | Some inp => Wizard.input_error inp
    | None => false
    end.
Proof.
  revert k j. induction inputs as [| x inputs IH]; intros k j.
  - now destruct k, j.
  - destruct k as [| k]; destruct j as [| j]; simpl; try reflexivity.
    apply IH.
Qed.

Lemma renderStep_keeps (s : Wizard.State) :
  errorsKept (Wizard.steps (Wizard.dom s))
             (Wizard.steps (Wizard.dom (Wizard.renderStep s))).
Proof.
  simpl. eapply errorsKept_trans.
  - apply (errorsKept_map (Wizard.setDisplay "none")). now intros el j.
  - apply errorsKept_updateFirst. now intros el j.
Qed.

Lemma wizard_dispatch_keeps (s : Wizard.State) (e : Wizard.Event) :
  errorsKept (Wizard.steps (Wizard.dom s))
             (Wizard.steps (Wizard.dom (Wizard.dispatch s e))).
Proof.
  destruct e as [| | i k v]; simpl.
  - destruct (Wizard.prevBtn (Wizard.dom s)); [| apply errorsKept_refl].
    unfold Wizard.onPrev. destruct (1 <? Wizard.currentStep s)%Z;
      [| apply errorsKept_refl].
    apply (renderStep_keeps
             {| Wizard.currentStep := (Wizard.currentStep s - 1)%Z;
                Wizard.dom := Wizard.dom s |}).
  - destruct (Wizard.nextBtn (Wizard.dom s)); [| apply errorsKept_refl].
    unfold Wizard.onNext.
    match goal with
    | |- context [if ?c then _ else _] => destruct c
    end.
    + eapply errorsKept_trans;
        [| match goal with
           | |- errorsKept _ (Wizard.steps (Wizard.dom (Wizard.renderStep ?st))) =>
               apply (renderStep_keeps st)
           end].
      simpl. apply errorsKept_updateFirst, markBlank_keeps.
    + simpl. apply errorsKept_updateFirst, markBlank_keeps.
  - unfold Wizard.typeInto. apply errorsKept_updateNth.
    intros el j. unfold inputErrorAt. simpl. now rewrite typed_input_keeps.
Qed.

(** X10.  The wizard never removes an error class: a required input
    marked by a refused Next stays marked under every later sequence of
    clicks and edits, also once it has been filled in. *)
Theorem wizard_error_marks_stay
        (s : Wizard.State) (i j : nat) (events : list Wizard.Event) :
  wizardError s i j = true ->
  wizardError (fold_left Wizard.dispatch events s) i j = true.
Proof.
  revert s. induction events as [| e events IH]; intros s H; simpl;
    [assumption |].
  apply IH. unfold wizardError in *.
  destruct (nth_error (Wizard.steps (Wizard.dom s)) i) as [el |] eqn:E;
    [| discriminate].
  destruct (wizard_dispatch_keeps s e i el E) as (el' & H' & K).
  rewrite H'. now apply K.
Qed.

(** On [wizardPage]: Next is refused, the name is typed, Next and then
    Previous are clicked; the name is still marked. *)
Lemma wizard_error_marks_stay_witness :
  wizardError
    (fold_left Wizard.dispatch
       [Wizard.TypeInto 0 0 "Ada"; Wizard.ClickNext; Wizard.ClickPrev]
       (Wizard.dispatch (Wizard.setup wizardPage) Wizard.ClickNext))
    0 0
  = true.
Proof.
  apply (wizard_error_marks_stay
           (Wizard.dispatch (Wizard.setup wizardPage) Wizard.ClickNext) 0 0
           [Wizard.TypeInto 0 0 "Ada"; Wizard.ClickNext; Wizard.ClickPrev]).
  reflexivity.
Defined.

Lemma updateFirst_attrs (attr : string) (f : Wizard.StepEl -> Wizard.StepEl)
      (l : list Wizard.StepEl) :
  (forall el, Wizard.step_attr (f el) = Wizard.step_attr el) ->
  map Wizard.step_attr (Wizard.updateFirst attr f l) = map Wizard.step_attr l.
Proof.
  intro Hf. induction l as [| x l IH]; simpl; [reflexivity |].
  destruct (Wizard.step_attr x =? attr); simpl; [now rewrite Hf | now rewrite IH].
Qed.

Lemma updateFirst_displays (attr : string) (f : Wizard.StepEl -> Wizard.StepEl)
      (l : list Wizard.StepEl) :
  (forall el, Wizard.step_display (f el) = Wizard.step_display el) ->
  map Wizard.step_display (Wizard.updateFirst attr f l) = map Wizard.step_display l.
Proof.
  intro Hf. induction l as [| x l IH]; simpl; [reflexivity |].
  destruct (Wizard.step_attr x =? attr); simpl; [now rewrite Hf | now rewrite IH].
Qed.

Lemma updateNth_map {A B : Type} (g : A -> B) (n : nat) (f : A -> A) (l : list A) :
  (forall x, g (f x) = g x) ->
  map g (Wizard.updateNth n f l) = map g l.
Proof.
  intro Hf. revert n. induction l as [| x l IH]; intro n.
  - now destruct n.
  - destruct n as [| n]; simpl; [now rewrite Hf | now rewrite IH].
Qed.

Lemma shown_step_displays (attr : string) (l : list Wizard.StepEl) :
  map Wizard.step_display
      (Wizard.updateFirst attr (Wizard.setDisplay "block")
                          (map (Wizard.setDisplay "none") l))
  = expectedDisplays attr (map Wizard.step_attr l).
Proof.
  induction l as [| x l IH]; simpl; [reflexivity |].
  destruct (Wizard.step_attr x =? attr); simpl.
  - f_equal. rewrite !map_map. reflexivity.
  - now rewrite IH.
Qed.

(** Rendering a step on a page with the three buttons establishes the
    view of that step. *)
Lemma renderStep_view (attrs : list string) (n : nat) (s : Wizard.State) :
  Wizard.prevBtn (Wizard.dom s) <> None ->
  Wizard.nextBtn (Wizard.dom s) <> None ->
  Wizard.submitBtn (Wizard.dom s) <> None ->
  map Wizard.step_attr (Wizard.steps (Wizard.dom s)) = attrs ->
  List.length (Wizard.indicators (Wizard.dom s)) = n ->
  wizardView attrs n (Wizard.renderStep s).
Proof.
  intros Hp Hn Hs Ha Hl. unfold wizardView. simpl.
  destruct (Wizard.prevBtn (Wizard.dom s)); [| now contradiction Hp].
  destruct (Wizard.nextBtn (Wizard.dom s)); [| now contradiction Hn].
  destruct (Wizard.submitBtn (Wizard.dom s)); [| now contradiction Hs].
  unfold Wizard.totalSteps. rewrite Hl. repeat split.
  - rewrite updateFirst_attrs by reflexivity. now rewrite map_map.
  - now rewrite shown_step_displays, Ha.
Qed.

Lemma wizardView_buttons (attrs : list string) (n : nat) (s : Wizard.State) :
  wizardView attrs n s ->
  Wizard.prevBtn (Wizard.dom s) <> None
  /\ Wizard.nextBtn (Wizard.dom s) <> None
  /\ Wizard.submitBtn (Wizard.dom s) <> None
  /\ List.length (Wizard.indicators (Wizard.dom s)) = n.
Proof.
  intros (Hp & Hn & Hs & Hi & _). rewrite Hp, Hn, Hs, Hi.
  repeat split; try discriminate. now rewrite length_map, length_seq.
Qed.

Lemma wizard_dispatch_view (attrs : list string) (n : nat)
      (s : Wizard.State) (e : Wizard.Event) :
  wizardView attrs n s -> wizardView attrs n (Wizard.dispatch s e).
Proof.
  intro V. destruct (wizardView_buttons attrs n s V) as (Bp & Bn & Bs & Bl).
  pose proof V as (Hp & Hn & Hs & Hi & Ha & Hd).
  destruct e as [| | i k v]; simpl.
  - destruct (Wizard.prevBtn (Wizard.dom s)) eqn:Ep; [| assumption].
    unfold Wizard.onPrev. destruct (1 <? Wizard.currentStep s)%Z; [| assumption].
    apply renderStep_view; simpl; congruence.
  - destruct (Wizard.nextBtn (Wizard.dom s)) eqn:En; [| assumption].
    unfold Wizard.onNext.
    match goal with
    | |- context [if ?c then _ else _] => destruct c
    end.
    + apply renderStep_view; simpl; try congruence.
      now rewrite updateFirst_attrs.
    + unfold wizardView; simpl.
      repeat split; try congruence.
      * now rewrite updateFirst_attrs.
      * now rewrite updateFirst_displays.
  - unfold wizardView; simpl. repeat split; try assumption.
    + unfold Wizard.typeInto. now rewrite updateNth_map.
    + unfold Wizard.typeInto. now rewrite updateNth_map.
Qed.

(** X11.  On a page that has the three wizard buttons, after set-up and
    under every sequence of clicks and edits, the document shows the
    current step: "previous" is disabled exactly on step 1, "next" is
    hidden and "submit" shown exactly on step 3, the indicators up to the
    current step are active, and the only step element displayed is the
    first one whose attribute is the step number. *)
Theorem wizard_shows_current_step (d : Wizard.Dom) (events : list Wizard.Event) :
  Wizard.prevBtn d <> None ->
  Wizard.nextBtn d <> None ->
  Wizard.submitBtn d <> None ->
  wizardView (map Wizard.step_attr (Wizard.steps d))
             (List.length (Wizard.indicators d))
             (Wizard.run d events).
Proof.
  intros Hp Hn Hs. unfold Wizard.run.
  assert (V : wizardView (map Wizard.step_attr (Wizard.steps d))
                         (List.length (Wizard.indicators d)) (Wizard.setup d)).
  { unfold Wizard.setup. now apply renderStep_view. }
  revert V. generalize (Wizard.setup d).
  induction events as [| e events IH]; intros s V; simpl; [assumption |].
  apply IH. now apply wizard_dispatch_view.
Qed.

(** On [wizardPage], after the name is typed and Next is clicked twice. *)
Lemma wizard_shows_current_step_witness :
  wizardView ["1"; "2"; "3"] 3
             (Wizard.run wizardPage
                [Wizard.TypeInto 0 0 "Ada"; Wizard.ClickNext; Wizard.ClickNext]).
Proof.
  apply (wizard_shows_current_step wizardPage
           [Wizard.TypeInto 0 0 "Ada"; Wizard.ClickNext; Wizard.ClickNext]);
    simpl; discriminate.
Defined.

(** ** Keyboard navigation *)

Lemma nth_error_combine_seq {A : Type} (l : list A) (a i : nat) :
  nth_error (combine (seq a (List.length l)) l) i
  = option_map (fun x => (a + i, x)) (nth_error l i).
Proof.
  revert a i. induction l as [| x l IH]; intros a i; simpl.
  - now destruct i.
  - destruct i as [| i]; simpl.
    + now rewrite Nat.add_0_r.
    + rewrite IH. now rewrite Nat.add_succ_r.
Qed.

Lemma selectItem_items (s : Keyboard.State) (index : Z) :
  map Keyboard.textContent (Keyboard.items (fst (Keyboard.selectItem s index)))
  = map Keyboard.textContent (Keyboard.items s)
  /\ Keyboard.selectedIndex (fst (Keyboard.selectItem s index)) = index.
Proof.
  unfold Keyboard.selectItem.
  destruct (Keyboard.inRange index (Keyboard.items s)); simpl; split;
    try reflexivity.
  - apply nth_error_ext. intro i.
    rewrite !nth_error_map, nth_error_combine_seq, nth_error_map.
    destruct (nth_error (Keyboard.items s) i) as [it |]; simpl; [| reflexivity].
    now destruct (Z.of_nat i =? index)%Z.
  - now rewrite map_map.
Qed.

Lemma selectItem_active (s : Keyboard.State) (index : Z) :
  activeAtSelected (fst (Keyboard.selectItem s index)).
Proof.
  unfold activeAtSelected, Keyboard.selectItem.
  destruct (Keyboard.inRange index (Keyboard.items s)) eqn:R; simpl;
    intros i item H.
  - rewrite nth_error_map, nth_error_combine_seq, nth_error_map in H.
    destruct (nth_error (Keyboard.items s) i) as [it |]; simpl in H;
      [| discriminate].
    injection H as <-.
    destruct (Z.of_nat i =? index)%Z eqn:E; simpl.
    + apply Z.eqb_eq in E. tauto.
    + apply Z.eqb_neq in E. split; [discriminate | tauto].
  - assert (Hi : i < List.length (Keyboard.items s)).
    { apply nth_error_Some. rewrite nth_error_map in H.
      destruct (nth_error (Keyboard.items s) i); [discriminate | discriminate]. }
    rewrite nth_error_map in H.
    destruct (nth_error (Keyboard.items s) i) as [it |]; simpl in H;
      [| discriminate].
    injection H as <-. simpl. split; [discriminate |].
    intro E. unfold Keyboard.inRange in R.
    apply andb_false_iff in R as [R | R].
    + apply Z.leb_gt in R. lia.
    + apply Z.ltb_ge in R. lia.
Qed.

Lemma keyboardStep_active (hasToast : bool) (s : Keyboard.State) (e : KeyboardEvent) :
  activeAtSelected s -> activeAtSelected (keyboardStep hasToast s e).
Proof.
  intro H. destruct e as [k | i]; simpl.
  - unfold Keyboard.onKeydown.
    destruct (List.length (Keyboard.items s) =? 0)%nat; [assumption |].
    destruct k; simpl; try assumption.
    + pose proof (selectItem_active s (Keyboard.selectedIndex s + 1)) as A.
      now destruct (Keyboard.selectItem s (Keyboard.selectedIndex s + 1)).
    + pose proof (selectItem_active s (Keyboard.selectedIndex s - 1)) as A.
      now destruct (Keyboard.selectItem s (Keyboard.selectedIndex s - 1)).
    + destruct (0 <=? Keyboard.selectedIndex s)%Z; [| assumption].
      destruct (nth_error _ _); [| assumption].
      now destruct hasToast.
    + exact (selectItem_active s (-1)).
  - unfold Keyboard.onItemClick.
    destruct (i <? List.length (Keyboard.items s))%nat; [| assumption].
    apply selectItem_active.
Qed.

Lemma keyboardStep_texts (hasToast : bool) (s : Keyboard.State) (e : KeyboardEvent) :
  map Keyboard.textContent (Keyboard.items (keyboardStep hasToast s e))
  = map Keyboard.textContent (Keyboard.items s).
Proof.
  destruct e as [k | i]; simpl.
  - unfold Keyboard.onKeydown.
    destruct (List.length (Keyboard.items s) =? 0)%nat; [reflexivity |].
    destruct k; simpl; try reflexivity.
    + pose proof (proj1 (selectItem_items s (Keyboard.selectedIndex s + 1))) as A.
      now destruct (Keyboard.selectItem s (Keyboard.selectedIndex s + 1)).
    + pose proof (proj1 (selectItem_items s (Keyboard.selectedIndex s - 1))) as A.
      now destruct (Keyboard.selectItem s (Keyboard.selectedIndex s - 1)).
    + destruct (0 <=? Keyboard.selectedIndex s)%Z; [| reflexivity].
      destruct (nth_error _ _); [| reflexivity].
      now destruct hasToast.
    + exact (proj1 (selectItem_items s (-1))).
  - unfold Keyboard.onItemClick.
    destruct (i <? List.length (Keyboard.items s))%nat; [| reflexivity].
    apply selectItem_items.
Qed.

(** X12.  Starting from a list whose active items are those at
    [selectedIndex] (in particular none, with index -1), every sequence of
    key presses and item clicks keeps it so: at most one item is active,
    namely the one at [selectedIndex], and none when the index lies
    outside the list; the texts of the items never change. *)
Theorem keyboard_one_active_item
        (hasToast : bool) (s : Keyboard.State) (events : list KeyboardEvent) :
  activeAtSelected s ->
  activeAtSelected (fold_left (keyboardStep hasToast) events s)
  /\ map Keyboard.textContent
         (Keyboard.items (fold_left (keyboardStep hasToast) events s))
     = map Keyboard.textContent (Keyboard.items s).
Proof.
  revert s. induction events as [| e events IH]; intros s H; simpl;
    [now split |].
  destruct (IH (keyboardStep hasToast s e) (keyboardStep_active hasToast s e H))
    as [A T].
  split; [exact A |]. now rewrite T, keyboardStep_texts.
Qed.

(** On [twoItems]: down, down, a click on the first item, up. *)
Lemma keyboard_one_active_item_witness :
  activeAtSelected
    (fold_left (keyboardStep true)
       [PressKey Keyboard.ArrowDown; PressKey Keyboard.ArrowDown;
        ClickItem 0; PressKey Keyboard.ArrowUp]
       twoItems).
Proof.
  apply (keyboard_one_active_item true twoItems
           [PressKey Keyboard.ArrowDown; PressKey Keyboard.ArrowDown;
            ClickItem 0; PressKey Keyboard.ArrowUp]).
  intros i item H.
  destruct i as [| [| i]]; simpl in H.
  - injection H as <-. simpl. split; [discriminate | lia].
  - injection H as <-. simpl. split; [discriminate | lia].
  - destruct i; discriminate.
Defined.

Lemma selectItem_length (s : Keyboard.State) (index : Z) :
  List.length (Keyboard.items (fst (Keyboard.selectItem s index)))
  = List.length (Keyboard.items s).
Proof.
  pose proof (proj1 (selectItem_items s index)) as H.
  apply (f_equal (@List.length string)) in H. now rewrite !length_map in H.
Qed.

Lemma arrow_step (hasToast : bool) (s : Keyboard.State) (k : Keyboard.Key) :
  Keyboard.items s <> [] ->
  k = Keyboard.ArrowDown \/ k = Keyboard.ArrowUp ->
  Keyboard.selectedIndex (fst (fst (Keyboard.onKeydown hasToast s k)))
  = (Keyboard.selectedIndex s + arrowShift [k])%Z
  /\ Keyboard.items (fst (fst (Keyboard.onKeydown hasToast s k))) <> [].
Proof.
  intros Hne Hk. unfold Keyboard.onKeydown.
  destruct (Keyboard.items s) as [| it its] eqn:E; [now contradiction Hne |].
  simpl Nat.eqb. cbv iota.
  assert (Hlen : forall index,
             Keyboard.items (fst (Keyboard.selectItem s index)) <> []).
  { intros index H. apply (f_equal (@List.length Keyboard.Item)) in H.
    rewrite selectItem_length, E in H. discriminate. }
  destruct Hk as [-> | ->]; simpl arrowShift.
  - pose proof (proj2 (selectItem_items s (Keyboard.selectedIndex s + 1))) as A.
    specialize (Hlen (Keyboard.selectedIndex s + 1)%Z).
    destruct (Keyboard.selectItem s (Keyboard.selectedIndex s + 1)); simpl in *.
    split; [lia | assumption].
  - pose proof (proj2 (selectItem_items s (Keyboard.selectedIndex s - 1))) as A.
    specialize (Hlen (Keyboard.selectedIndex s - 1)%Z).
    destruct (Keyboard.selectItem s (Keyboard.selectedIndex s - 1)); simpl in *.
    split; [lia | assumption].
Qed.

Lemma arrows_shift (hasToast : bool) (keys : list Keyboard.Key) (s : Keyboard.State) :
  Keyboard.items s <> [] ->
  Forall (fun k => k = Keyboard.ArrowDown \/ k = Keyboard.ArrowUp) keys ->
  Keyboard.selectedIndex (Keyboard.press hasToast s keys)
  = (Keyboard.selectedIndex s + arrowShift keys)%Z
  /\ List.length (Keyboard.items (Keyboard.press hasToast s keys))
     = List.length (Keyboard.items s).
Proof.
  intros Hne Hkeys. revert s Hne.
  induction Hkeys as [| k keys Hk _ IH]; intros s Hne.
  - simpl. split; [lia | reflexivity].
  - destruct (arrow_step hasToast s k Hne Hk) as [Hsel Hne'].
    destruct (IH _ Hne') as [Hs Hl].
    change (Keyboard.press hasToast s (k :: keys))
      with (Keyboard.press hasToast
              (fst (fst (Keyboard.onKeydown hasToast s k))) keys).
    rewrite Hs, Hl, Hsel. split.
    + destruct Hk as [-> | ->]; cbn [arrowShift]; lia.
    + pose proof (keyboardStep_texts hasToast s (PressKey k)) as T.
      apply (f_equal (@List.length string)) in T.
      now rewrite !length_map in T.
Qed.

(** X13.  The arrow keys do not stop at the ends of the list: after a run
    of arrow keys the selected index is the old one plus the number of
    ArrowDown presses minus the number of ArrowUp presses.  Once the index
    has run past the last item, Enter raises a [TypeError]; while it is
    negative, Enter does nothing. *)
Theorem keyboard_arrows_are_not_clamped
        (hasToast : bool) (s : Keyboard.State) (keys : list Keyboard.Key) :
  Keyboard.items s <> [] ->
  Forall (fun k => k = Keyboard.ArrowDown \/ k = Keyboard.ArrowUp) keys ->
  let s' := Keyboard.press hasToast s keys in
  Keyboard.selectedIndex s' = (Keyboard.selectedIndex s + arrowShift keys)%Z
  /\ ((Z.of_nat (List.length (Keyboard.items s)) <= Keyboard.selectedIndex s')%Z ->
      Keyboard.onKeydown hasToast s' Keyboard.Enter
      = (s', [Keyboard.PreventDefault], true))
  /\ ((Keyboard.selectedIndex s' < 0)%Z ->
      Keyboard.onKeydown hasToast s' Keyboard.Enter = (s', [], false)).
Proof.
  intros Hne Hkeys s'.
  destruct (arrows_shift hasToast keys s Hne Hkeys) as [Hsel Hlen].
  fold s' in Hsel, Hlen.
  assert (Hpos : (List.length (Keyboard.items s') =? 0)%nat = false).
  { rewrite Hlen. destruct (Keyboard.items s); [now contradiction Hne | reflexivity]. }
  split; [exact Hsel | split]; intro H; unfold Keyboard.onKeydown; rewrite Hpos.
  - assert (H0 : (0 <=? Keyboard.selectedIndex s')%Z = true)
      by (apply Z.leb_le; lia).
    rewrite H0.
    assert (Hnone : nth_error (Keyboard.items s')
                              (Z.to_nat (Keyboard.selectedIndex s')) = None).
    { apply nth_error_None. rewrite Hlen. lia. }
    now rewrite Hnone.
  - assert (H0 : (0 <=? Keyboard.selectedIndex s')%Z = false)
      by (apply Z.leb_gt; lia).
    now rewrite H0.
Qed.

(** On [twoItems], three presses of ArrowDown leave index 2, past the
    last item, and Enter raises. *)
Lemma keyboard_arrows_are_not_clamped_witness :
  Keyboard.onKeydown false
    (Keyboard.press false twoItems
       [Keyboard.ArrowDown; Keyboard.ArrowDown; Keyboard.ArrowDown])
    Keyboard.Enter
  = (Keyboard.press false twoItems
       [Keyboard.ArrowDown; Keyboard.ArrowDown; Keyboard.ArrowDown],
     [Keyboard.PreventDefault], true).
Proof.
  refine (proj1 (proj2 (keyboard_arrows_are_not_clamped false twoItems
                          [Keyboard.ArrowDown; Keyboard.ArrowDown;
                           Keyboard.ArrowDown] _ _)) _).
  - simpl. discriminate.
  - repeat constructor.
  - simpl. lia.
Defined.

(** ** Data grid *)

Lemma status_cases (text : string) :
  text = "ACTIVE" \/ text = "INACTIVE" \/ text = "PENDING"
  \/ ~ In text DataGrid.statuses.
Proof.
  destruct (text =? "ACTIVE") eqn:E1; [apply String.eqb_eq in E1; auto |].
  destruct (text =? "INACTIVE") eqn:E2; [apply String.eqb_eq in E2; auto |].
  destruct (text =? "PENDING") eqn:E3; [apply String.eqb_eq in E3; auto |].
  right. right. right. apply String.eqb_neq in E1, E2, E3.
  simpl. intros [H | [H | [H | []]]]; congruence.
Qed.

Lemma next_status_unknown (text : string) :
  ~ In text DataGrid.statuses -> Text.indexOf DataGrid.statuses text = (-1)%Z.
Proof.
  intro H. unfold Text.indexOf, DataGrid.statuses. cbn [Text.indexOfFrom].
  assert (E1 : ("ACTIVE" =? text) = false)
    by (apply String.eqb_neq; intro K; apply H; now left).
  assert (E2 : ("INACTIVE" =? text) = false)
    by (apply String.eqb_neq; intro K; apply H; right; now left).
  assert (E3 : ("PENDING" =? text) = false)
    by (apply String.eqb_neq; intro K; apply H; right; right; now left).
  now rewrite E1, E2, E3.
Qed.

(** X14.  A click on a status badge always leaves one of the three
    statuses: ACTIVE becomes INACTIVE, INACTIVE becomes PENDING, PENDING
    becomes ACTIVE, and any other text becomes ACTIVE; the text is trimmed
    before it is looked up.  So three clicks on a badge showing one of the
    three statuses bring that status back. *)
Theorem status_badge_cycles (hasToast : bool) (b : DataGrid.Badge) :
  let click b := fst (DataGrid.onStatusClick hasToast b) in
  In (DataGrid.textContent (click b)) DataGrid.statuses
  /\ DataGrid.className (click b)
     = "status-badge " ++ JS.toLowerCase (DataGrid.textContent (click b))
  /\ (JS.trim (DataGrid.textContent b) = "ACTIVE" ->
      DataGrid.textContent (click b) = "INACTIVE")
  /\ (JS.trim (DataGrid.textContent b) = "INACTIVE" ->
      DataGrid.textContent (click b) = "PENDING")
  /\ (JS.trim (DataGrid.textContent b) = "PENDING" ->
      DataGrid.textContent (click b) = "ACTIVE")
  /\ (~ In (JS.trim (DataGrid.textContent b)) DataGrid.statuses ->
      DataGrid.textContent (click b) = "ACTIVE")
  /\ (In (JS.trim (DataGrid.textContent b)) DataGrid.statuses ->
      DataGrid.textContent (click (click (click b)))
      = JS.trim (DataGrid.textContent b)).
Proof.
  intro click. subst click. unfold DataGrid.onStatusClick. cbn [fst].
  cbn [DataGrid.textContent DataGrid.className].
  destruct (status_cases (JS.trim (DataGrid.textContent b)))
    as [H | [H | [H | H]]].
  1-3: rewrite H; simpl; repeat split; auto; try discriminate;
    intro K; simpl in K; tauto.
  rewrite (next_status_unknown _ H). simpl.
  repeat split; auto; try (intro K; rewrite K in H; simpl in H; tauto).
  intro K. now contradiction H.
Qed.

(** A badge reading " PENDING " with surrounding spaces: three clicks
    leave "PENDING". *)
Lemma status_badge_cycles_witness :
  DataGrid.textContent
    (fst (DataGrid.onStatusClick true
            (fst (DataGrid.onStatusClick true
                    (fst (DataGrid.onStatusClick true
                            {| DataGrid.textContent := " PENDING ";
                               DataGrid.className := "status-badge pending" |}))))))
  = "PENDING".
Proof.
  refine (proj2 (proj2 (proj2 (proj2 (proj2 (proj2
            (status_badge_cycles true
               {| DataGrid.textContent := " PENDING ";
                  DataGrid.className := "status-badge pending" |})))))) _).
  simpl. auto.
Defined.

(** ** Modal *)

Lemma modal_dispatch_consistent (d : Modal.Dom) (e : Modal.Event) :
  (Modal.overlay_display d = "flex" <-> Modal.body_overflow d = "hidden") ->
  (Modal.overlay_display (Modal.dispatch d e) = "flex"
   <-> Modal.body_overflow (Modal.dispatch d e) = "hidden").
Proof.
  intro H. destruct e as [| | | | []]; simpl; try assumption;
    split; intro K; try reflexivity; discriminate.
Qed.

(** X15.  Background scrolling is locked exactly while the modal is
    shown: if this holds of the page at first (as it does of a page with
    neither style set), it holds after every sequence of clicks.  A click
    that lands inside the dialog changes nothing; one that lands on the
    overlay itself closes the modal. *)
Theorem modal_scroll_lock_follows_overlay (d : Modal.Dom) (events : list Modal.Event) :
  (Modal.overlay_display d = "flex" <-> Modal.body_overflow d = "hidden") ->
  (Modal.overlay_display (fold_left Modal.dispatch events d) = "flex"
   <-> Modal.body_overflow (fold_left Modal.dispatch events d) = "hidden")
  /\ Modal.dispatch d (Modal.ClickOverlay false) = d
  /\ Modal.dispatch d (Modal.ClickOverlay true)
     = {| Modal.overlay_display := "none"; Modal.body_overflow := "auto" |}.
Proof.
  intro H. split; [| split; reflexivity].
  revert d H. induction events as [| e events IH]; intros d H; simpl;
    [assumption |].
  apply IH. now apply modal_dispatch_consistent.
Qed.

(** A page as served, opened, clicked inside, and closed from the
    overlay. *)
Lemma modal_scroll_lock_follows_overlay_witness :
  Modal.overlay_display
    (fold_left Modal.dispatch
       [Modal.ClickOpen; Modal.ClickOverlay false; Modal.ClickOverlay true]
       {| Modal.overlay_display := ""; Modal.body_overflow := "" |})
  = "flex"
  <-> Modal.body_overflow
        (fold_left Modal.dispatch
           [Modal.ClickOpen; Modal.ClickOverlay false; Modal.ClickOverlay true]
           {| Modal.overlay_display := ""; Modal.body_overflow := "" |})
      = "hidden".
Proof.
  apply (modal_scroll_lock_follows_overlay
           {| Modal.overlay_display := ""; Modal.body_overflow := "" |}
           [Modal.ClickOpen; Modal.ClickOverlay false; Modal.ClickOverlay true]).
  simpl. split; discriminate.
Defined.

(** ** Quiz form, continued *)

Lemma contribution_bounds (b : bool) : (0 <= contribution b <= 1)%Z.
Proof. destruct b; simpl; lia. Qed.

(** X16.  The quiz score is never below 0 nor above 3, and the result is
    shown in green exactly when all three answers are right: q1 is
    "quality assurance" once trimmed and lower-cased, q2 contains "unit"
    and "manual" but not "coffee", and q3 is "early".  Every other
    submission, scored or refused, is shown in orange. *)
Theorem quiz_green_iff_all_correct :
  (forall (q1 : string) (q2 : list string) (q3 : string),
      (0 <= Quiz.score q1 q2 q3 <= 3)%Z)
  /\ (forall f : Quiz.Form,
         Quiz.color (Quiz.onSubmit f) = "green" <->
         JS.toLowerCase (JS.trim (Quiz.q1_value f)) = "quality assurance"
         /\ In "unit" (Quiz.q2_checked f)
         /\ In "manual" (Quiz.q2_checked f)
         /\ ~ In "coffee" (Quiz.q2_checked f)
         /\ Quiz.q3_checked f = Some "early")
  /\ (forall f : Quiz.Form,
         Quiz.color (Quiz.onSubmit f) = "green"
         \/ Quiz.color (Quiz.onSubmit f) = "orange").
Proof.
  assert (Hb : forall q1 q2 q3, (0 <= Quiz.score q1 q2 q3 <= 3)%Z).
  { intros q1 q2 q3. rewrite quiz_score_contributions.
    pose proof (contribution_bounds (q1 =? "quality assurance")).
    pose proof (contribution_bounds
                  (JS.includes q2 "unit" && JS.includes q2 "manual"
                   && negb (JS.includes q2 "coffee"))).
    pose proof (contribution_bounds (q3 =? "early")). lia. }
  split; [exact Hb | split].
  - intro f. unfold Quiz.onSubmit. rewrite truthy_toLowerCase.
    destruct (JS.truthy (JS.trim (Quiz.q1_value f))) eqn:Et;
      cbn [negb Quiz.color].
    2: { split; [discriminate |]. intros (H & _).
         apply truthy_false_iff in Et. rewrite Et in H. discriminate. }
    destruct (List.length (Quiz.q2_checked f) =? 0)%nat eqn:E2;
      cbn [Quiz.color].
    { apply Nat.eqb_eq, length_zero_iff_nil in E2.
      split; [discriminate |]. intros (_ & Hu & _). rewrite E2 in Hu.
      destruct Hu. }
    destruct (Quiz.q3_checked f) as [q3 |] eqn:E3; cbn [Quiz.color].
    2: { split; [discriminate |]. intros (_ & _ & _ & _ & H). discriminate. }
    rewrite quiz_score_contributions.
    assert (Hp : (JS.toLowerCase (JS.trim (Quiz.q1_value f)) = "quality assurance"
                  /\ In "unit" (Quiz.q2_checked f)
                  /\ In "manual" (Quiz.q2_checked f)
                  /\ ~ In "coffee" (Quiz.q2_checked f)
                  /\ Some q3 = Some "early")
                 <-> ((JS.toLowerCase (JS.trim (Quiz.q1_value f))
                       =? "quality assurance") = true
                      /\ (JS.includes (Quiz.q2_checked f) "unit"
                          && JS.includes (Quiz.q2_checked f) "manual"
                          && negb (JS.includes (Quiz.q2_checked f) "coffee")) = true
                      /\ (q3 =? "early") = true)).
    { rewrite !andb_true_iff, negb_true_iff, !String.eqb_eq, !includes_In,
        includes_not_In.
      split.
      - intros (H1 & Hu & Hm & Hc & H3). injection H3 as H3. tauto.
      - intros (H1 & ((Hu & Hm) & Hc) & H3). subst q3. tauto. }
    rewrite Hp.
    destruct (JS.toLowerCase (JS.trim (Quiz.q1_value f)) =? "quality assurance");
      destruct (JS.includes (Quiz.q2_checked f) "unit"
                && JS.includes (Quiz.q2_checked f) "manual"
                && negb (JS.includes (Quiz.q2_checked f) "coffee"));
      destruct (q3 =? "early"); simpl;
      split; try discriminate; try tauto;
      intros (A & B & C); discriminate.
  - intro f. unfold Quiz.onSubmit.
    destruct (negb _); [now right |].
    destruct (_ =? 0)%nat; [now right |].
    destruct (Quiz.q3_checked f); [| now right].
    simpl. destruct (_ =? 3)%Z; [now left | now right].
Qed.

Lemma includes_same_members (l l' : list string) (v : string) :
  (forall x, In x l <-> In x l') -> JS.includes l v = JS.includes l' v.
Proof.
  intro H. destruct (JS.includes l v) eqn:E.
  - apply includes_In in E. apply H in E. apply includes_In in E. now rewrite E.
  - destruct (JS.includes l' v) eqn:E'; [| reflexivity].
    apply includes_In in E'. apply H in E'. apply includes_In in E'. congruence.
Qed.

(** X17.  Only the set of checked q2 values matters: two submissions
    with the same q1 and q3 whose checked q2 values are the same up to
    order and repetition get the same result. *)
Theorem quiz_q2_order_is_irrelevant (f f' : Quiz.Form) :
  Quiz.q1_value f = Quiz.q1_value f' ->
  Quiz.q3_checked f = Quiz.q3_checked f' ->
  (forall v, In v (Quiz.q2_checked f) <-> In v (Quiz.q2_checked f')) ->
  Quiz.onSubmit f = Quiz.onSubmit f'.
Proof.
  intros H1 H3 H2. unfold Quiz.onSubmit, Quiz.score. rewrite H1, H3.
  rewrite !(includes_same_members _ _ _ H2).
  assert (Hlen : (List.length (Quiz.q2_checked f) =? 0)%nat
                 = (List.length (Quiz.q2_checked f') =? 0)%nat).
  { destruct (Quiz.q2_checked f) as [| x xs], (Quiz.q2_checked f') as [| y ys];
      simpl; try reflexivity.
    - destruct (proj2 (H2 y)); now left.
    - destruct (proj1 (H2 x)); now left. }
  now rewrite Hlen.
Qed.

(** Manual before unit, against unit before manual. *)
Lemma quiz_q2_order_is_irrelevant_witness :
  Quiz.onSubmit {| Quiz.q1_value := "Quality Assurance";
                   Quiz.q2_checked := ["manual"; "unit"];
                   Quiz.q3_checked := Some "early" |}
  = Quiz.onSubmit {| Quiz.q1_value := "Quality Assurance";
                     Quiz.q2_checked := ["unit"; "manual"];
                     Quiz.q3_checked := Some "early" |}.
Proof.
  apply (quiz_q2_order_is_irrelevant
           {| Quiz.q1_value := "Quality Assurance";
              Quiz.q2_checked := ["manual"; "unit"];
              Quiz.q3_checked := Some "early" |}
           {| Quiz.q1_value := "Quality Assurance";
              Quiz.q2_checked := ["unit"; "manual"];
              Quiz.q3_checked := Some "early" |});
    try reflexivity.
  intro v. simpl. tauto.
Defined.

(** ** Login form, continued *)

(** X18.  The login listener shows the success message, and shows it in
    green, exactly when the form passes the constraint check and the
    trimmed e-mail and password are the demo credentials.  It calls
    [reportValidity] exactly when the check fails, and sets no custom
    error on either field when the check passes. *)
Theorem login_success_iff_demo_credentials (f : Login.Form) :
  (Login.textContent (Login.onSubmit f) = "Login successful." <->
   Login.checkValidity f = true
   /\ JS.trim (Login.value (Login.emailInput f)) = Login.VALID_EMAIL
   /\ JS.trim (Login.value (Login.passwordInput f)) = Login.VALID_PASSWORD)
  /\ (Login.color (Login.onSubmit f) = "green" <->
      Login.textContent (Login.onSubmit f) = "Login successful.")
  /\ Login.reportedValidity (Login.onSubmit f) = negb (Login.checkValidity f)
  /\ (Login.checkValidity f = true ->
      Login.email_customValidity (Login.onSubmit f) = ""
      /\ Login.password_customValidity (Login.onSubmit f) = "").
Proof.
  unfold Login.onSubmit.
  destruct (Login.checkValidity f); cbn [negb].
  - destruct (JS.trim (Login.value (Login.emailInput f)) =? Login.VALID_EMAIL)
      eqn:Ee;
      destruct (JS.trim (Login.value (Login.passwordInput f)) =? Login.VALID_PASSWORD)
        eqn:Ep; simpl;
      try (apply String.eqb_eq in Ee); try (apply String.eqb_eq in Ep);
      repeat split; auto; try discriminate;
      intros (_ & He & Hp);
      try (apply String.eqb_neq in Ee); try (apply String.eqb_neq in Ep);
      congruence.
  - simpl. repeat split; try discriminate. intros (H & _). discriminate.
Qed.

(** ** Form-state scenario, continued *)

Lemma dispatch_justified (d : FormState.Dom) (e : FormState.Event) :
  errorsJustified d -> errorsJustified (FormState.dispatch d e).
Proof.
  intros [He Hp]. destruct e as [v valid | v | c]; unfold errorsJustified;
    unfold FormState.dispatch, FormState.onEmailInput, FormState.onPasswordInput,
      FormState.checkFormValidity;
    cbn [FormState.email_value FormState.email_validity_valid
         FormState.password_value FormState.emailError_display
         FormState.passwordError_display].
  - split; [| exact Hp].
    destruct valid; cbn [negb andb]; [discriminate |].
    destruct v; cbn [String.length Nat.ltb Nat.leb]; [discriminate |].
    intros _. split; [reflexivity | discriminate].
  - split; [exact He |].
    destruct (0 <? String.length v)%nat eqn:E1;
      destruct (String.length v <? 8)%nat eqn:E2; cbn [andb];
      try discriminate.
    intros _. apply Nat.ltb_lt in E1, E2. lia.
  - split; assumption.
Qed.

(** X19.  Starting from a form whose error elements are justified by its
    fields (as on a fresh page, where neither is displayed), every
    sequence of input and change events keeps them justified; so whenever
    the submit button has been enabled by an event, neither error message
    is displayed. *)
Theorem form_state_no_error_while_enabled
        (d : FormState.Dom) (events : list FormState.Event) (e : FormState.Event) :
  errorsJustified d ->
  let d' := fold_left FormState.dispatch (events ++ [e]) d in
  errorsJustified d'
  /\ (FormState.submit_disabled d' = false ->
      FormState.emailError_display d' <> "block"
      /\ FormState.passwordError_display d' <> "block").
Proof.
  intros H d'.
  assert (J : forall evs d0, errorsJustified d0 ->
                             errorsJustified (fold_left FormState.dispatch evs d0)).
  { induction evs as [| x evs IH]; intros d0 H0; simpl; [assumption |].
    apply IH. now apply dispatch_justified. }
  assert (Hj : errorsJustified d') by (now apply J).
  split; [exact Hj |].
  subst d'. rewrite fold_left_app in *. cbn [fold_left] in *.
  set (d1 := fold_left FormState.dispatch events d) in *.
  intro Hen.
  assert (Hok : FormState.email_validity_valid (FormState.dispatch d1 e) = true
                /\ 8 <= String.length
                          (FormState.password_value (FormState.dispatch d1 e))).
  { destruct e; unfold FormState.dispatch, FormState.onEmailInput,
      FormState.onPasswordInput in *;
      apply submit_enabled_iff in Hen; simpl in Hen; simpl; tauto. }
  destruct Hj as [Je Jp]. destruct Hok as [Hv Hl]. split; intro K.
  - destruct (Je K) as [Hf _]. congruence.
  - specialize (Jp K). lia.
Qed.

(** A fresh form: a bad e-mail is typed, then a good one, a password of
    nine code units, and the box is ticked. *)
Lemma form_state_no_error_while_enabled_witness :
  errorsJustified
    (fold_left FormState.dispatch
       ([FormState.InputEmail "a@b" false; FormState.InputEmail "a@b.co" true;
         FormState.InputPassword "123456789"]
        ++ [FormState.ChangeAgree true])
       blankStateForm).
Proof.
  apply (form_state_no_error_while_enabled blankStateForm
           [FormState.InputEmail "a@b" false; FormState.InputEmail "a@b.co" true;
            FormState.InputPassword "123456789"]
           (FormState.ChangeAgree true)).
  split; simpl; discriminate.
Defined.

(** X20.  Handling the same event twice is the same as handling it once:
    the listeners recompute the button and the error elements from the
    fields alone. *)
Theorem form_state_dispatch_idempotent (d : FormState.Dom) (e : FormState.Event) :
  FormState.dispatch (FormState.dispatch d e) e = FormState.dispatch d e.
Proof.
  destruct e as [v valid | v | c];
    unfold FormState.dispatch, FormState.onEmailInput, FormState.onPasswordInput,
      FormState.checkFormValidity;
    cbn [FormState.email_value FormState.email_validity_valid
         FormState.password_value FormState.agree_checked
         FormState.submit_disabled FormState.emailError_textContent
         FormState.emailError_display FormState.passwordError_textContent
         FormState.passwordError_display].
  - now destruct (negb valid && (0 <? String.length v)%nat).
  - now destruct ((0 <? String.length v)%nat && (String.length v <? 8)%nat).
  - reflexivity.
Qed.

(** ** Pagination, continued *)

Lemma renderPage_of_view (p q : Z) :
  Pagination.renderPage {| Pagination.currentPage := p; Pagination.dom := pageView q |}
  = {| Pagination.currentPage := p; Pagination.dom := pageView p |}.
Proof. reflexivity. Qed.

Lemma run_state (d : Pagination.Dom) (clicks : list Pagination.Click) :
  allPresent d ->
  Pagination.run d clicks
  = {| Pagination.currentPage := Pagination.currentPage (Pagination.run d clicks);
       Pagination.dom := pageView (Pagination.currentPage (Pagination.run d clicks)) |}
  /\ (1 <= Pagination.currentPage (Pagination.run d clicks) <= 3)%Z.
Proof.
  intro Hd.
  assert (Hsetup : Pagination.currentPage (Pagination.setup d) = 1%Z).
  { unfold Pagination.setup. now rewrite renderPage_currentPage. }
  assert (Hview : Pagination.dom (Pagination.setup d) = pageView 1).
  { unfold Pagination.setup. now rewrite renderPage_view. }
  split.
  - assert (H : Pagination.dom (Pagination.run d clicks)
                = pageView (Pagination.currentPage (Pagination.run d clicks))).
    { unfold Pagination.run. apply clicks_view. now rewrite Hsetup, Hview. }
    destruct (Pagination.run d clicks) as [p dm]. simpl in *. now rewrite H.
  - unfold Pagination.run. apply clicks_in_range. rewrite Hsetup. lia.
Qed.

(** X21.  On a complete pagination page, in any state the clicks can
    reach, "next" followed by "previous" brings back exactly the same page
    and document unless the page was the last one, "previous" followed by
    "next" does so unless it was the first one, and "previous" on page 1
    and "next" on page 3 change nothing. *)
Theorem pagination_next_previous_round_trip
        (d : Pagination.Dom) (clicks : list Pagination.Click) :
  allPresent d ->
  let s := Pagination.run d clicks in
  ((Pagination.currentPage s < 3)%Z ->
   Pagination.click (Pagination.click s Pagination.ClickNext) Pagination.ClickPrev = s)
  /\ ((1 < Pagination.currentPage s)%Z ->
      Pagination.click (Pagination.click s Pagination.ClickPrev) Pagination.ClickNext
      = s)
  /\ (Pagination.currentPage s = 1%Z ->
      Pagination.click s Pagination.ClickPrev = s)
  /\ (Pagination.currentPage s = 3%Z ->
      Pagination.click s Pagination.ClickNext = s).
Proof.
  intros Hd s. destruct (run_state d clicks Hd) as [Hs Hr]. fold s in Hs, Hr.
  rewrite Hs. set (p := Pagination.currentPage s) in *. clearbody p. clear Hs.
  unfold Pagination.click, Pagination.onPrev, Pagination.onNext.
  cbn [Pagination.dom Pagination.currentPage].
  change (Pagination.nextPage (pageView p)) with (Some (p =? 3)%Z).
  change (Pagination.prevPage (pageView p)) with (Some (p =? 1)%Z).
  rewrite totalPages_is_3.
  repeat split; intro H.
  - assert (E : (p <? 3)%Z = true) by (apply Z.ltb_lt; lia).
    rewrite E, renderPage_of_view. cbn [Pagination.dom Pagination.currentPage].
    change (Pagination.prevPage (pageView (p + 1))) with (Some (p + 1 =? 1)%Z).
    assert (E' : (1 <? p + 1)%Z = true) by (apply Z.ltb_lt; lia).
    rewrite E', renderPage_of_view. now replace (p + 1 - 1)%Z with p by lia.
  - assert (E : (1 <? p)%Z = true) by (apply Z.ltb_lt; lia).
    rewrite E, renderPage_of_view. cbn [Pagination.dom Pagination.currentPage].
    change (Pagination.nextPage (pageView (p - 1))) with (Some (p - 1 =? 3)%Z).
    assert (E' : (p - 1 <? 3)%Z = true) by (apply Z.ltb_lt; lia).
    rewrite E', renderPage_of_view. now replace (p - 1 + 1)%Z with p by lia.
  - assert (E : (1 <? p)%Z = false) by (apply Z.ltb_ge; lia). now rewrite E.
  - assert (E : (p <? 3)%Z = false) by (apply Z.ltb_ge; lia). now rewrite E.
Qed.

(** From page 2 of [servedPage]: next, then previous. *)
Lemma pagination_next_previous_round_trip_witness :
  Pagination.click
    (Pagination.click (Pagination.run servedPage [Pagination.ClickNext])
                      Pagination.ClickNext)
    Pagination.ClickPrev
  = Pagination.run servedPage [Pagination.ClickNext].
Proof.
  refine (proj1 (pagination_next_previous_round_trip
                   servedPage [Pagination.ClickNext] _) _).
  - unfold allPresent, servedPage; simpl. repeat split; discriminate.
  - simpl. lia.
Defined.

Lemma renderPage_without_body (s : Pagination.State) :
  Pagination.paginationBody (Pagination.dom s) = None ->
  Pagination.renderPage s = s.
Proof. intro H. unfold Pagination.renderPage. now rewrite H. Qed.

Lemma click_without_body (s : Pagination.State) (c : Pagination.Click) :
  Pagination.paginationBody (Pagination.dom s) = None ->
  Pagination.dom (Pagination.click s c) = Pagination.dom s.
Proof.
  intro H. destruct c; simpl.
  - destruct (Pagination.prevPage (Pagination.dom s)); [| reflexivity].
    unfold Pagination.onPrev. destruct (1 <? _)%Z; [| reflexivity].
    now rewrite renderPage_without_body.
  - destruct (Pagination.nextPage (Pagination.dom s)); [| reflexivity].
    unfold Pagination.onNext. destruct (_ <? _)%Z; [| reflexivity].
    now rewrite renderPage_without_body.
Qed.

(** X22.  On a page without the table body nothing is ever rendered: the
    document, including the disabled flags of the two buttons, stays as it
    was served under every sequence of clicks, while the page number still
    moves with the clicks on the buttons that exist. *)
Theorem pagination_without_body_never_renders
        (d : Pagination.Dom) (clicks : list Pagination.Click) :
  Pagination.paginationBody d = None ->
  let s := Pagination.run d clicks in
  Pagination.dom s = d
  /\ (Pagination.nextPage d <> None ->
      (Pagination.currentPage s < 3)%Z ->
      Pagination.currentPage (Pagination.click s Pagination.ClickNext)
      = (Pagination.currentPage s + 1)%Z)
  /\ (Pagination.prevPage d <> None ->
      (1 < Pagination.currentPage s)%Z ->
      Pagination.currentPage (Pagination.click s Pagination.ClickPrev)
      = (Pagination.currentPage s - 1)%Z).
Proof.
  intros Hb s.
  assert (Hdom : Pagination.dom s = d).
  { subst s. unfold Pagination.run, Pagination.setup.
    rewrite renderPage_without_body by exact Hb.
    assert (G : forall cs st, Pagination.dom st = d ->
                              Pagination.dom (fold_left Pagination.click cs st) = d).
    { induction cs as [| c cs IH]; intros st Hst; simpl; [assumption |].
      apply IH. rewrite click_without_body; [assumption | now rewrite Hst]. }
    now apply G. }
  split; [exact Hdom | split]; intros Hbtn Hlt; simpl; rewrite Hdom.
  - destruct (Pagination.nextPage d); [| now contradiction Hbtn].
    unfold Pagination.onNext. rewrite totalPages_is_3.
    apply Z.ltb_lt in Hlt. rewrite Hlt. now rewrite renderPage_currentPage.
  - destruct (Pagination.prevPage d); [| now contradiction Hbtn].
    unfold Pagination.onPrev.
    apply Z.ltb_lt in Hlt. rewrite Hlt. now rewrite renderPage_currentPage.
Qed.

(** A page with the two buttons only: after two clicks on "next" the
    document is unchanged. *)
Lemma pagination_without_body_never_renders_witness :
  Pagination.dom
    (Pagination.run
       {| Pagination.paginationBody := None; Pagination.paginationInfo := None;
          Pagination.prevPage := Some false; Pagination.nextPage := Some false |}
       [Pagination.ClickNext; Pagination.ClickNext])
  = {| Pagination.paginationBody := None; Pagination.paginationInfo := None;
       Pagination.prevPage := Some false; Pagination.nextPage := Some false |}.
Proof.
  apply (pagination_without_body_never_renders
           {| Pagination.paginationBody := None; Pagination.paginationInfo := None;
              Pagination.prevPage := Some false; Pagination.nextPage := Some false |}
           [Pagination.ClickNext; Pagination.ClickNext]).
  reflexivity.
Defined.

(** ** Sortable table, continued *)

(** X23.  When the comparator is asymmetric on the rows of the table
    (placing a row after another excludes the converse, as subtraction and
    collation do), the rows [sortTable] returns are in the comparator's
    order: no row has to go after the row that follows it. *)
Theorem sorted_rows_are_in_order
        (parseFloat : string -> float) (localeCompare : string -> string -> float)
        (t : Sortable.Table) (f : string) (dir : Sortable.Direction)
        (idx : nat) (sorted : list Sortable.Row) :
  JS.findIndex (fun h => h =? f) (Sortable.headers t) = Some idx ->
  (forall a b : Sortable.Row,
      In a (Sortable.rows t) -> In b (Sortable.rows t) ->
      PrimFloat.ltb PrimFloat.zero (rowCompare parseFloat localeCompare dir idx a b)
      = true ->
      PrimFloat.ltb PrimFloat.zero (rowCompare parseFloat localeCompare dir idx b a)
      = false) ->
  Sortable.sortTable parseFloat localeCompare t f dir = Some sorted ->
  inOrder (rowCompare parseFloat localeCompare dir idx) sorted = true.
Proof.
  intros Hidx Hasym. unfold Sortable.sortTable. rewrite Hidx.
  destruct (Sortable.rows t) as [| r1 [| r2 rs]] eqn:E.
  - intro H. injection H as <-. reflexivity.
  - intro H. injection H as <-. reflexivity.
  - destruct (forallb _ _); [| discriminate].
    intro H. injection H as <-.
    apply (sort_inOrder (rowCompare parseFloat localeCompare dir idx)
                        (r1 :: r2 :: rs)).
    exact Hasym.
Qed.

(** The score column of [scoresTable], ascending: 72, 88, 95. *)
Lemma sorted_rows_are_in_order_witness :
  inOrder (rowCompare Plain.parseFloat Plain.localeCompare Sortable.asc 1)
          [["Bob"; "72"]; ["Carol"; "88"]; ["Alice"; "95"]]
  = true.
Proof.
  apply (sorted_rows_are_in_order Plain.parseFloat Plain.localeCompare
           scoresTable "score" Sortable.asc 1).
  - reflexivity.
  - intros a b Ha Hb.
    simpl in Ha, Hb.
    destruct Ha as [<- | [<- | [<- | []]]];
      destruct Hb as [<- | [<- | [<- | []]]];
      vm_compute; intro H; solve [reflexivity | discriminate H].
  - vm_compute. reflexivity.
Defined.

(** X24.  A table whose rows are already in the comparator's order is
    left exactly as it is by [sortTable], ties included, provided every
    row has a cell in the column. *)
Theorem sort_keeps_rows_in_order
        (parseFloat : string -> float) (localeCompare : string -> string -> float)
        (t : Sortable.Table) (f : string) (dir : Sortable.Direction) (idx : nat) :
  JS.findIndex (fun h => h =? f) (Sortable.headers t) = Some idx ->
  forallb (fun r => (idx <? List.length r)%nat) (Sortable.rows t) = true ->
  inOrder (rowCompare parseFloat localeCompare dir idx) (Sortable.rows t) = true ->
  Sortable.sortTable parseFloat localeCompare t f dir = Some (Sortable.rows t).
Proof.
  intros Hidx Hall Hord. unfold Sortable.sortTable. rewrite Hidx.
  destruct (Sortable.rows t) as [| r1 [| r2 rs]] eqn:E; try reflexivity.
  rewrite Hall. f_equal.
  apply (sort_of_inOrder (rowCompare parseFloat localeCompare dir idx)
                         (r1 :: r2 :: rs)).
  exact Hord.
Qed.

(** A table with two equal scores, already ascending: both rows stay. *)
Lemma sort_keeps_rows_in_order_witness :
  Sortable.sortTable Plain.parseFloat Plain.localeCompare
    (Sortable.initial ["name"; "score"] [None; None]
                      [["Zoe"; "80"]; ["Adam"; "80"]; ["Mia"; "91"]])
    "score" Sortable.asc
  = Some [["Zoe"; "80"]; ["Adam"; "80"]; ["Mia"; "91"]].
Proof.
  apply (sort_keeps_rows_in_order Plain.parseFloat Plain.localeCompare
           (Sortable.initial ["name"; "score"] [None; None]
                             [["Zoe"; "80"]; ["Adam"; "80"]; ["Mia"; "91"]])
           "score" Sortable.asc 1);
    vm_compute; reflexivity.
Defined.

Lemma forallb_short_row (idx : nat) (rs : list Sortable.Row) (short : Sortable.Row) :
  In short rs -> List.length short <= idx ->
  forallb (fun r => (idx <? List.length r)%nat) rs = false.
Proof.
  intros Hin Hlen. induction rs as [| r rs IH]; [destruct Hin |].
  simpl. destruct Hin as [-> | Hin].
  - apply Nat.ltb_ge in Hlen. now rewrite Hlen.
  - rewrite (IH Hin). apply andb_false_r.
Qed.

(** X25.  When the table has at least two rows and one of them has no
    cell in the clicked column, the comparator raises: the rows keep their
    order, but the sort state and the arrow of the clicked header have
    already been updated, so the header then shows a direction the rows
    are not sorted in. *)
Theorem sort_click_with_short_row
        (parseFloat : string -> float) (localeCompare : string -> string -> float)
        (t : Sortable.Table) (i idx : nat) (f : string) (short : Sortable.Row) :
  nth_error (Sortable.headers t) i = Some f ->
  JS.findIndex (fun h => h =? f) (Sortable.headers t) = Some idx ->
  2 <= List.length (Sortable.rows t) ->
  In short (Sortable.rows t) ->
  List.length short <= idx ->
  let t' := Sortable.onHeaderClick parseFloat localeCompare t i in
  Sortable.rows t' = Sortable.rows t
  /\ Sortable.field (Sortable.currentSort t') = Some f
  /\ nth_error (Sortable.indicators t') i
     = Some (Some (Sortable.direction (Sortable.currentSort t'))).
Proof.
  intros Hi Hidx Hlen Hin Hshort t'. subst t'.
  unfold Sortable.onHeaderClick. rewrite Hi.
  cbn [Sortable.rows Sortable.currentSort Sortable.indicators].
  assert (Hnone : forall dir,
             Sortable.sortTable parseFloat localeCompare t f dir = None).
  { intro dir. unfold Sortable.sortTable. rewrite Hidx.
    destruct (Sortable.rows t) as [| r1 [| r2 rs]] eqn:E;
      [simpl in Hlen; lia | simpl in Hlen; lia |].
    now rewrite (forallb_short_row idx _ short Hin Hshort). }
  rewrite Hnone. split; [reflexivity | split].
  - destruct (Sortable.field (Sortable.currentSort t)) as [g |]; [| reflexivity].
    destruct (g =? f) eqn:E; [| reflexivity].
    apply String.eqb_eq in E. now subst g.
  - assert (Hlt : i < List.length (Sortable.headers t)).
    { apply nth_error_Some. rewrite Hi. discriminate. }
    rewrite nth_error_map, nth_error_seq.
    apply Nat.ltb_lt in Hlt. rewrite Hlt. simpl. now rewrite Nat.eqb_refl.
Qed.

(** A score table whose second row lacks the score cell. *)
Lemma sort_click_with_short_row_witness :
  Sortable.rows
    (Sortable.onHeaderClick Plain.parseFloat Plain.localeCompare
       (Sortable.initial ["name"; "score"] [None; None]
                         [["Bob"; "72"]; ["Alice"]; ["Carol"; "88"]])
       1)
  = [["Bob"; "72"]; ["Alice"]; ["Carol"; "88"]].
Proof.
  refine (proj1 (sort_click_with_short_row Plain.parseFloat Plain.localeCompare
                   (Sortable.initial ["name"; "score"] [None; None]
                                     [["Bob"; "72"]; ["Alice"]; ["Carol"; "88"]])
                   1 1 "score" ["Alice"] eq_refl eq_refl _ _ _)).
  - simpl. lia.
  - simpl. auto.
  - simpl. lia.
Defined.

(** ** Component set-up, continued *)

(** X26.  The first script's [setupStudentFilter] never raises, and
    registers its input listener exactly when the page has both the search
    input and the students table.  The second script's raises exactly when
    the page has the search input but no table, and otherwise does what
    the first one does. *)
Theorem student_filter_setup_outcomes (doc : Setup.Document) :
  Setup.setupStudentFilter doc <> Setup.Raised
  /\ (Setup.setupStudentFilter doc = Setup.Returned [("search-input", "input")]
      <-> Setup.getElementById doc "search-input" = true
          /\ Setup.getElementById doc "students-table" = true)
  /\ (Setup.Second.setupStudentFilter doc = Setup.Raised
      <-> Setup.getElementById doc "search-input" = true
          /\ Setup.getElementById doc "students-table" = false)
  /\ (Setup.Second.setupStudentFilter doc <> Setup.Raised ->
      Setup.Second.setupStudentFilter doc = Setup.setupStudentFilter doc).
Proof.
  unfold Setup.setupStudentFilter, Setup.Second.setupStudentFilter.
  destruct (Setup.getElementById doc "search-input"),
    (Setup.getElementById doc "students-table"); simpl;
    repeat split; try discriminate; try reflexivity; try tauto;
    try (intros [H1 H2]; discriminate);
    try (intro H; now contradiction H).
Qed.

(** X27.  [setupModalScenario] raises exactly on a page that has the
    open button but lacks one of the four other modal elements.  The
    listeners it has registered by then stay: they are the first of the
    five, in the order of registration, up to the first missing element.
    So the open button has its listener whenever it exists, and on a page
    without the close button it is the only one: nothing registered there
    closes the modal. *)
Theorem modal_setup_keeps_open_listener (doc : Setup.Document) :
  (snd (Modal.setupModalScenario doc) = true
   <-> Setup.getElementById doc "open-modal" = true
       /\ (Setup.getElementById doc "close-modal" = false
           \/ Setup.getElementById doc "modal-cancel" = false
           \/ Setup.getElementById doc "modal-save" = false
           \/ Setup.getElementById doc "modal-overlay" = false))
  /\ (exists n : nat,
         fst (Modal.setupModalScenario doc) = firstn n Modal.listeners
         /\ (forall id : string,
                In (id, "click") (fst (Modal.setupModalScenario doc)) ->
                Setup.getElementById doc id = true)
         /\ (snd (Modal.setupModalScenario doc) = true ->
             exists id : string,
               nth_error Modal.listeners n = Some (id, "click")
               /\ Setup.getElementById doc id = false))
  /\ (Setup.getElementById doc "open-modal" = true ->
      In ("open-modal", "click") (fst (Modal.setupModalScenario doc)))
  /\ (Setup.getElementById doc "open-modal" = true ->
      Setup.getElementById doc "close-modal" = false ->
      Modal.setupModalScenario doc = ([("open-modal", "click")], true)).
Proof.
  unfold Modal.setupModalScenario.
  destruct (Setup.getElementById doc "open-modal") eqn:E1; simpl.
  2: { split; [split; [discriminate | intros [H _]; discriminate] |].
       split; [| split; discriminate].
       exists 0%nat. split; [reflexivity |].
       split; [intros id [] | discriminate]. }
  destruct (Setup.getElementById doc "close-modal") eqn:E2; simpl.
  2: { split; [split; [auto | reflexivity] |].
       split; [| split; [auto | reflexivity]].
       exists 1%nat. split; [reflexivity |]. split.
       - intros id [H | []]. injection H as <-. exact E1.
       - intros _. exists "close-modal". now split. }
  destruct (Setup.getElementById doc "modal-cancel") eqn:E3; simpl.
  2: { split; [split; [auto | reflexivity] |].
       split; [| split; [auto | discriminate]].
       exists 2%nat. split; [reflexivity |]. split.
       - intros id [H | [H | []]]; injection H as <-; assumption.
       - intros _. exists "modal-cancel". now split. }
  destruct (Setup.getElementById doc "modal-save") eqn:E4; simpl.
  2: { split; [split; [auto | reflexivity] |].
       split; [| split; [auto | discriminate]].
       exists 3%nat. split; [reflexivity |]. split.
       - intros id [H | [H | [H | []]]]; injection H as <-; assumption.
       - intros _. exists "modal-save". now split. }
  destruct (Setup.getElementById doc "modal-overlay") eqn:E5; simpl.
  2: { split; [split; [auto 6 | reflexivity] |].
       split; [| split; [auto | discriminate]].
       exists 4%nat. split; [reflexivity |]. split.
       - intros id [H | [H | [H | [H | []]]]]; injection H as <-; assumption.
       - intros _. exists "modal-overlay". now split. }
  split.
  { split; [discriminate |].
    intros [_ [H | [H | [H | H]]]]; discriminate. }
  split; [| split; [auto | discriminate]].
  exists 5%nat. split; [reflexivity |]. split.
  - intros id [H | [H | [H | [H | [H | []]]]]]; injection H as <-; assumption.
  - discriminate.
Qed.
